(** * EarnLayer SDK demo: provider adapters, ad search and orchestration

    A shallow embedding of the provider abstraction and message
    orchestration core (TypeScript) and the properties checked against it.

    Conventions of the embedding.
    - A JavaScript string is a [string]: a sequence of code units, of which
      only those below 256 are represented.
    - [async] functions are computations in the monad [M] below: they read
      an external [World] (clock, random source, remote services), thread
      the mutable state of the object they belong to, may reject with a
      thrown value, and leave a trace of the remote calls they attempted.
    - [console.*] calls are omitted unless evaluating their arguments can
      throw.
    - A number the code computes with is a binary64 float, as in
      JavaScript; counters and clock readings, which stay integers, are
      [nat] and [Z]; a number that is only stored or compared is a
      rational. *)

From Stdlib Require Import ZArith List String Ascii Bool Lia QArith.
From Stdlib Require PrimFloat Uint63.
From stdpp Require Import base option list strings gmap pretty.

Set Default Proof Using "Type".

(* ===================================================================== *)
(** * JavaScript values, strings and errors *)
(* ===================================================================== *)

Module Js.

(** ** Strings *)

(** The code units below 256 that [String.prototype.trim] strips:
    TAB, LF, VT, FF, CR, SPACE and NBSP. *)
Definition is_whitespace (c : ascii) : bool :=
  let n := nat_of_ascii c in
  Nat.eqb n 9 || Nat.eqb n 10 || Nat.eqb n 11 || Nat.eqb n 12
  || Nat.eqb n 13 || Nat.eqb n 32 || Nat.eqb n 160.

Fixpoint trimStart (s : string) : string :=
  match s with
  | EmptyString => EmptyString
  | String c r => if is_whitespace c then trimStart r else s
  end.

Fixpoint string_rev_app (s acc : string) : string :=
  match s with
  | EmptyString => acc
  | String c r => string_rev_app r (String c acc)
  end.

Definition string_rev (s : string) : string := string_rev_app s EmptyString.

Definition trimEnd (s : string) : string :=
  string_rev (trimStart (string_rev s)).

(** [s.trim()] *)
Definition trim (s : string) : string := trimEnd (trimStart s).

(** Every code unit of [s] is white space (the empty string included). *)
Fixpoint whitespace_only (s : string) : bool :=
  match s with
  | EmptyString => true
  | String c r => is_whitespace c && whitespace_only r
  end.

(** [s] occurs in [t] as a contiguous run of code units. *)
Definition contains (t s : string) : Prop :=
  exists pre post, t = pre +:+ s +:+ post.

(** [s.substr(0, n)] / [s.substring(0, n)] *)
Fixpoint prefix_of (n : nat) (s : string) : string :=
  match n, s with
  | S n', String c r => String c (prefix_of n' r)
  | _, _ => EmptyString
  end.

(** ** Numbers

    The binary64 value of an integer: exact below [2^53] in magnitude,
    as counters and clock readings are. *)
Definition number_of_Z (z : Z) : PrimFloat.float :=
  if (z <? 0)%Z
  then PrimFloat.opp (PrimFloat.of_uint63 (Uint63.of_Z (- z)))
  else PrimFloat.of_uint63 (Uint63.of_Z z).

(** ** Loosely typed values

    A value read from a remote JSON payload where the code performs no
    check on what it receives. *)
Inductive jsval :=
| VUndefined
| VNull
| VBool (b : bool)
| VNumber (q : Q)
| VString (s : string).

(** Truthiness of an optional string ([string | null | undefined]):
    absent and empty are both falsy. *)
Definition truthy (o : option string) : bool :=
  match o with
  | Some EmptyString => false
  | Some _ => true
  | None => false
  end.

(** [o || d] on an optional string *)
Definition or_else (o : option string) (d : string) : string :=
  if truthy o then default d o else d.

(** ** The canonical-UUID regular expression

    [/^[0-9a-f]{8}-[0-9a-f]{4}-[0-9a-f]{4}-[0-9a-f]{4}-[0-9a-f]{12}$/i] *)

Definition is_hex (c : ascii) : bool :=
  let n := nat_of_ascii c in
  (Nat.leb 48 n && Nat.leb n 57)        (* 0-9 *)
  || (Nat.leb 97 n && Nat.leb n 102)    (* a-f *)
  || (Nat.leb 65 n && Nat.leb n 70).    (* A-F, from the [i] flag *)

(** [[0-9a-f]{n}] at the head of [s]: the rest of the input on a match. *)
Fixpoint match_hex (n : nat) (s : string) : option string :=
  match n with
  | O => Some s
  | S n' =>
      match s with
      | String c r => if is_hex c then match_hex n' r else None
      | EmptyString => None
      end
  end.

(** Hex groups of the given sizes separated by ["-"], anchored at both
    ends of the input. *)
Fixpoint match_groups (gs : list nat) (s : string) : bool :=
  match gs with
  | [] => false
  | g :: gs' =>
      match gs' with
      | [] =>
          match match_hex g s with
          | Some EmptyString => true
          | _ => false
          end
      | _ :: _ =>
          match match_hex g s with
          | Some (String "-" r) => match_groups gs' r
          | _ => false
          end
      end
  end.

Definition uuidRegex_test (s : string) : bool :=
  match_groups [8; 4; 4; 4; 12]%nat s.

(** The canonical UUID shape in words: five runs of hexadecimal digits
    (either case) of lengths 8, 4, 4, 4 and 12, joined by hyphens. *)
Fixpoint all_hex (s : string) : bool :=
  match s with
  | EmptyString => true
  | String c r => is_hex c && all_hex r
  end.

Definition canonical_uuid (s : string) : Prop :=
  exists a b c d e,
    s = a +:+ "-" +:+ b +:+ "-" +:+ c +:+ "-" +:+ d +:+ "-" +:+ e
    /\ String.length a = 8%nat /\ String.length b = 4%nat
    /\ String.length c = 4%nat /\ String.length d = 4%nat
    /\ String.length e = 12%nat
    /\ all_hex a = true /\ all_hex b = true /\ all_hex c = true
    /\ all_hex d = true /\ all_hex e = true.

(** ** Errors *)

Inductive ErrorClass :=
| Error
| TypeError
| SyntaxError
| ProviderInitializationError
| ProviderRequestError
| ProviderConfigurationError
| AdSearchError
| ConversationError.

(** An [Error] instance: its class ([name]), [message] and [cause]. *)
#[warnings="-register-all"]
Inductive JsError :=
| MkError (cls : ErrorClass) (message : string) (cause : option JsError).

Definition err_class (e : JsError) : ErrorClass :=
  match e with MkError c _ _ => c end.
Definition err_message (e : JsError) : string :=
  match e with MkError _ m _ => m end.
Definition err_cause (e : JsError) : option JsError :=
  match e with MkError _ _ c => c end.

(** Anything a [throw] or a rejected promise can carry. *)
Inductive Thrown :=
| ThrowError (e : JsError)
| ThrowValue (v : jsval).

(** [x instanceof Error ? x : undefined] *)
Definition asError (t : Thrown) : option JsError :=
  match t with
  | ThrowError e => Some e
  | ThrowValue _ => None
  end.

(** [x instanceof Error ? x.message : d] *)
Definition messageOr (t : Thrown) (d : string) : string :=
  match t with
  | ThrowError e => err_message e
  | ThrowValue _ => d
  end.

(** [new ProviderRequestError(provider, message, cause)] *)
Definition newProviderRequestError
    (provider message : string) (cause : option JsError) : JsError :=
  MkError ProviderRequestError
    ("Provider " +:+ provider +:+ " request failed: " +:+ message) cause.

(** [new ProviderInitializationError(provider, message, cause)] *)
Definition newProviderInitializationError
    (provider message : string) (cause : option JsError) : JsError :=
  MkError ProviderInitializationError
    ("Failed to initialize provider " +:+ provider +:+ ": " +:+ message)
    cause.

Definition isRequestError (t : Thrown) : bool :=
  match t with
  | ThrowError (MkError ProviderRequestError _ _) => true
  | _ => false
  end.

End Js.

Import Js.

(* ===================================================================== *)
(** * Data model *)
(* ===================================================================== *)

Module Ad.
Record t := mk {
  id : string;
  title : string;
  description : string;
  url : string;
  ad_type : string;
  similarity : Q
}.
End Ad.

(** The [ads] property of an MCP answer. The agent adapter reads it
    unchecked, so it can be anything:
    - [Absent]: undefined, null or another falsy value;
    - [Entries]: an array; an entry is [None] when it is null or
      undefined, and otherwise a record standing for what its [title],
      [description] and [url] read as (a [url] that is not truthy is the
      empty string);
    - [NotArray]: any other truthy value, which has no [forEach], with
      whether its [length] exceeds 0. *)
Module McpAds.
Inductive t :=
| Absent
| Entries (entries : list (option Ad.t))
| NotArray (length_positive : bool).

(** [ads.length > 0] on [ads || []] *)
Definition length_positive (ads : t) : bool :=
  match ads with
  | Absent => false
  | Entries entries => negb (Nat.eqb (length entries) 0)
  | NotArray p => p
  end.

(** [ads.forEach(ad => ... ad.title ...)] on an array: the entries
    read, or the error thrown at the first one that is null or
    undefined. *)
Fixpoint records (entries : list (option Ad.t)) : JsError + list Ad.t :=
  match entries with
  | [] => inr []
  | None :: _ =>
      inl (MkError TypeError
             "Cannot read properties of null (reading 'title')" None)
  | Some ad :: rest =>
      match records rest with
      | inl e => inl e
      | inr l => inr (ad :: l)
      end
  end.

(** [(ads || []).forEach(...)] *)
Definition forEach (ads : t) : JsError + list Ad.t :=
  match ads with
  | Absent => inr []
  | Entries entries => records entries
  | NotArray _ =>
      inl (MkError TypeError "relevantAds.forEach is not a function" None)
  end.

(** [if (relevantAds.length > 0) { relevantAds.forEach(...) }]: the
    ads listed in the text being built. *)
Definition listed (ads : t) : JsError + list Ad.t :=
  if length_positive ads then forEach ads else inr [].

(** Every entry of an array can be read, and nothing else claims a
    positive length. *)
Definition well_formed (ads : t) : bool :=
  match ads with
  | Absent => true
  | Entries entries => forallb (fun e => bool_decide (is_Some e)) entries
  | NotArray p => negb p
  end.
End McpAds.

(** The keys of the free-form [metadata] map of a message that the code
    reads or writes. *)
Module Metadata.
Record t := mk {
  conversationId : option string;
  creatorId : option string;
  originalMessage : option string;
  adContext : option (list Ad.t);
  provider : option string;
  model : option string
}.
Definition empty : t := mk None None None None None None.
End Metadata.

Module AIMessage.
Record t := mk {
  id : string;
  content : string;
  role : string;
  timestamp : Z;
  metadata : option Metadata.t
}.
End AIMessage.

Module Usage.
Record t := mk {
  prompt_tokens : nat;
  completion_tokens : nat;
  total_tokens : nat
}.
End Usage.

Module ResponseMetadata.
Record t := mk {
  model : option string;
  usage : option Usage.t;
  responseTime : option Z;
  runId : option string;
  mcpAds : McpAds.t;
  mcpContent : option string;
  conversationLength : option nat
}.
End ResponseMetadata.

Module AIResponse.
Record t := mk {
  id : string;
  content : string;
  conversationId : string;
  source : string;
  metadata : ResponseMetadata.t
}.
End AIResponse.

(** [{role, content}] entries of a chat-completion request *)
Module ApiMessage.
Record t := mk { role : string; content : string }.
End ApiMessage.

Module AdPreferences.
Record t := mk {
  ad_types : option (list string);
  frequency : string;
  revenue_vs_relevance : jsval
}.
End AdPreferences.

Module ConversationInitConfig.
Record t := mk {
  ad_preferences : option AdPreferences.t;
  context : option string
}.
End ConversationInitConfig.

(* ===================================================================== *)
(** * The outside world *)
(* ===================================================================== *)

Module Remote.

(** A JSON object seen through the properties the code reads from it. *)
Record JsonObject := mkObject {
  results : option (list Ad.t);          (* data.results *)
  conversation_id : jsval;               (* result.conversation_id *)
  completion : option string;            (* data.choices[0].message.content *)
  usage : option Usage.t;                (* data.usage *)
  error_message : option string          (* errorData.error.message *)
}.

Definition emptyObject : JsonObject :=
  mkObject None VUndefined None None None.

(** What [response.json()] can resolve to. An array has none of the
    properties above, so it is [JsonObj emptyObject]. *)
Inductive Json :=
| JsonNull
| JsonBool (b : bool)
| JsonNumber (q : Q)
| JsonString (s : string)
| JsonObj (o : JsonObject).

(** Reading a property of a JSON value: it throws on [null]
    ([None]), and finds nothing on a boolean, a number or a string. *)
Definition props (j : Json) : option JsonObject :=
  match j with
  | JsonNull => None
  | JsonObj o => Some o
  | _ => Some emptyObject
  end.

Definition is_null (j : Json) : bool :=
  match j with
  | JsonNull => true
  | _ => false
  end.

(** Truthiness of a JSON value *)
Definition json_truthy (j : Json) : bool :=
  match j with
  | JsonNull => false
  | JsonBool b => b
  | JsonNumber q => negb (Qeq_bool q 0)
  | JsonString s => match s with EmptyString => false | _ => true end
  | JsonObj _ => true
  end.

Record Response := mkResponse {
  ok : bool;
  status : Z;
  statusText : string;
  json : JsError + Json;                 (* response.json() *)
  text : JsError + string;               (* response.text() *)
  (* response.body: the chunks its reader yields, then an optional
     failure of [read()] *)
  body : option (list string * option JsError)
}.

Inductive Request :=
| ReqAgent (authorization : option string) (message : string)
| ReqCompletion (apiKey model : string) (messages : list ApiMessage.t)
    (temperature : Q) (max_tokens : Z)
| ReqPing (apiKey model : string)
| ReqSearchAds (apiKey : string) (queries : list string)
    (creator_id : string) (conversation_id : option string)
| ReqInitConversation (conversation_id creator_id : string)
    (ad_preferences : option AdPreferences.t) (context : option string).

(** What [MCPClient.searchContentAds] of the SDK resolves to: null or
    undefined, a boolean, number or string, or an object, seen through
    its [content] (when it is a string) and its [ads]. *)
Inductive McpResponse :=
| McpNullish
| McpPrimitive
| McpObject (content : option string) (ads : McpAds.t).

End Remote.

(** Remote calls attempted, and collaborator operations invoked by the
    orchestration service, in the order they happen. *)
Inductive Event :=
| EFetch (url : string) (req : Remote.Request)
| EMcpSearch (mcpUrl : string) (queries : list string) (creatorId : string)
    (conversationId : option string)
| ECallInitializeConversation
| ECallSearchForMessage (message : string) (conversationId : option string)
| ECallProviderSendMessage (content : string) (metadata : Metadata.t)
| ECallValidateConfig (providerType : string)
| ECallInitialize (providerType : string)
| ECallShutdown (providerType : string).

Definition is_network_call (e : Event) : bool :=
  match e with
  | EFetch _ _ | EMcpSearch _ _ _ _ => true
  | _ => false
  end.

(** Every consultation of the world advances a counter; the world's answer
    may depend on it, so that equal requests can be answered differently
    over time. *)
Record World := mkWorld {
  Date_now : nat -> Z;
  (* Math.random().toString(36).substr(2, 9) *)
  Math_random_base36 : nat -> string;
  fetch : nat -> string -> Remote.Request -> JsError + Remote.Response;
  MCPClient_searchContentAds :
    nat -> string -> list string -> string -> option string ->
    Thrown + Remote.McpResponse;
  (* JSON.stringify(s) and JSON.stringify(s, null, 2) on a string *)
  JSON_stringify : string -> string;
  (* whether [new URL(s)] succeeds *)
  URL_parses : string -> bool
}.

(* ===================================================================== *)
(** * Effects: state, rejection, trace *)
(* ===================================================================== *)

Module Eff.

Inductive Outcome (A : Type) :=
| Resolved (a : A)
| Rejected (t : Thrown).
Arguments Resolved {A} a.
Arguments Rejected {A} t.

Record Res (St A : Type) := mkRes {
  outcome : Outcome A;
  state : St;
  clock : nat;
  trace : list Event
}.
Arguments mkRes {St A}.
Arguments outcome {St A}.
Arguments state {St A}.
Arguments clock {St A}.
Arguments trace {St A}.

Definition M (St A : Type) : Type := World -> St -> nat -> Res St A.

Definition ret {St A} (a : A) : M St A :=
  fun _ s n => mkRes (Resolved a) s n [].

Definition throw {St A} (t : Thrown) : M St A :=
  fun _ s n => mkRes (Rejected t) s n [].

Definition throwError {St A} (e : JsError) : M St A := throw (ThrowError e).

Definition bind {St A B} (m : M St A) (k : A -> M St B) : M St B :=
  fun w s n =>
    let r := m w s n in
    match outcome r with
    | Resolved a =>
        let r' := k a w (state r) (clock r) in
        mkRes (outcome r') (state r') (clock r') (trace r ++ trace r')
    | Rejected t => mkRes (Rejected t) (state r) (clock r) (trace r)
    end.

(** [try { m } catch (e) { h e }] *)
Definition try_catch {St A} (m : M St A) (h : Thrown -> M St A) : M St A :=
  fun w s n =>
    let r := m w s n in
    match outcome r with
    | Resolved a => r
    | Rejected t =>
        let r' := h t w (state r) (clock r) in
        mkRes (outcome r') (state r') (clock r') (trace r ++ trace r')
    end.

(** [try { m } finally { f }] *)
Definition try_finally {St A} (m : M St A) (f : M St unit) : M St A :=
  fun w s n =>
    let r := m w s n in
    let r' := f w (state r) (clock r) in
    match outcome r' with
    | Resolved _ =>
        mkRes (outcome r) (state r') (clock r') (trace r ++ trace r')
    | Rejected t =>
        mkRes (Rejected t) (state r') (clock r') (trace r ++ trace r')
    end.

Definition get {St} : M St St :=
  fun _ s n => mkRes (Resolved s) s n [].

Definition gets {St A} (f : St -> A) : M St A :=
  fun _ s n => mkRes (Resolved (f s)) s n [].

Definition modify {St} (f : St -> St) : M St unit :=
  fun _ s n => mkRes (Resolved tt) (f s) n [].

Definition emit {St} (e : Event) : M St unit :=
  fun _ s n => mkRes (Resolved tt) s n [e].

(** Run a computation of a component on the part of the state it owns. *)
Definition zoom {St T A} (proj : St -> T) (upd : T -> St -> St)
    (m : M T A) : M St A :=
  fun w s n =>
    let r := m w (proj s) n in
    mkRes (outcome r) (upd (state r) s) (clock r) (trace r).

(** [Date.now()] / [new Date()] *)
Definition now {St} : M St Z :=
  fun w s n => mkRes (Resolved (Date_now w n)) s (S n) [].

(** [Math.random().toString(36).substr(2, 9)] *)
Definition random_base36 {St} : M St string :=
  fun w s n => mkRes (Resolved (Math_random_base36 w n)) s (S n) [].

(** [JSON.stringify] *)
Definition stringify {St} (v : string) : M St string :=
  fun w s n => mkRes (Resolved (JSON_stringify w v)) s n [].

(** [await fetch(url, req)] *)
Definition do_fetch {St} (url : string) (req : Remote.Request)
    : M St Remote.Response :=
  fun w s n =>
    mkRes (match fetch w n url req with
           | inl e => Rejected (ThrowError e)
           | inr r => Resolved r
           end) s (S n) [EFetch url req].

(** [await mcpClient.searchContentAds(queries, creatorId, conversationId)] *)
Definition do_searchContentAds {St} (mcpUrl : string)
    (queries : list string) (creatorId : string)
    (conversationId : option string) : M St Remote.McpResponse :=
  fun w s n =>
    mkRes (match MCPClient_searchContentAds w n mcpUrl queries creatorId
                   conversationId with
           | inl t => Rejected t
           | inr r => Resolved r
           end) s (S n) [EMcpSearch mcpUrl queries creatorId conversationId].

(** [new URL(s)] does not throw *)
Definition url_parses {St} (v : string) : M St bool :=
  fun w s n => mkRes (Resolved (URL_parses w v)) s n [].

(** A settled promise or a JavaScript result lifted into [M]. *)
Definition of_sum {St A} (r : JsError + A) : M St A :=
  match r with
  | inl e => throwError e
  | inr a => ret a
  end.

Definition rejected {A} (o : Outcome A) : Prop :=
  exists t, o = Rejected t.

End Eff.

Import Eff.

Declare Scope eff_scope.
Delimit Scope eff_scope with eff.
Notation "'let*' x ':=' m 'in' k" := (bind m (fun x => k))
  (at level 10, x name, m at level 100, k at level 200,
   format "'[v' 'let*'  x  ':='  m  'in' '/' k ']'") : eff_scope.
Notation "'do' m 'then' k" := (bind m (fun _ => k))
  (at level 10, m at level 100, k at level 200,
   format "'[v' 'do'  m  'then' '/' k ']'") : eff_scope.
Local Open Scope eff_scope.

(** Characters that cannot be written inside a string literal. *)
Definition nl : string := String (ascii_of_nat 10) EmptyString.
Definition dquote : string := String (ascii_of_nat 34) EmptyString.

Definition nonempty (s : string) : bool :=
  match s with EmptyString => false | String _ _ => true end.

(* ===================================================================== *)
(** * Provider capability contract: [BaseAIProvider] *)
(* ===================================================================== *)

Module ProviderMetrics.
Record t := mk {
  requestCount : nat;
  errorCount : nat;
  averageResponseTime : PrimFloat.float;
  lastRequestTime : option Z;
  lastErrorTime : option Z
}.
Definition initial : t := mk 0 0 PrimFloat.zero None None.
End ProviderMetrics.

Module ProviderStatus.
Record t := mk {
  isHealthy : bool;
  isInitialized : bool;
  lastHealthCheck : Z;
  metrics : ProviderMetrics.t
}.
End ProviderStatus.

Module BaseAIProvider.

(** What a concrete adapter supplies to the methods it inherits. *)
Class Provider (St : Type) := {
  name : string;
  (* this.config !== undefined *)
  has_config : St -> bool;
  metrics : St -> ProviderMetrics.t;
  set_metrics : ProviderMetrics.t -> St -> St
}.

Section Methods.
Context {St : Type} `{Provider St}.

Definition updateMetrics (responseTime : Z) (isError : bool) : M St unit :=
  let* t := now in
  do modify (fun s =>
       let m := metrics s in
       set_metrics
         (ProviderMetrics.mk (S (ProviderMetrics.requestCount m))
            (ProviderMetrics.errorCount m)
            (ProviderMetrics.averageResponseTime m)
            (Some t)
            (ProviderMetrics.lastErrorTime m)) s) then
  if isError then
    let* t' := now in
    modify (fun s =>
      let m := metrics s in
      set_metrics
        (ProviderMetrics.mk (ProviderMetrics.requestCount m)
           (S (ProviderMetrics.errorCount m))
           (ProviderMetrics.averageResponseTime m)
           (ProviderMetrics.lastRequestTime m)
           (Some t')) s)
  else
    modify (fun s =>
      let m := metrics s in
      let count :=
        number_of_Z (Z.of_nat (ProviderMetrics.requestCount m)) in
      let totalTime :=
        PrimFloat.mul (ProviderMetrics.averageResponseTime m)
          (PrimFloat.sub count PrimFloat.one) in
      set_metrics
        (ProviderMetrics.mk (ProviderMetrics.requestCount m)
           (ProviderMetrics.errorCount m)
           (PrimFloat.div (PrimFloat.add totalTime (number_of_Z responseTime))
              count)
           (ProviderMetrics.lastRequestTime m)
           (ProviderMetrics.lastErrorTime m)) s).

Definition getStatus : M St ProviderStatus.t :=
  let* configured := gets has_config in
  let* lastHealthCheck := now in
  let* m := gets metrics in
  ret (ProviderStatus.mk configured configured lastHealthCheck m).

(** [handleError(error, context): never] *)
Definition handleError {A} (error : JsError) : M St A :=
  do updateMetrics 0 true then
  throwError error.

(** [!content || content.trim().length === 0] *)
Definition content_empty (content : string) : bool :=
  negb (nonempty content) || Nat.eqb (String.length (trim content)) 0.

(** [['user', 'assistant', 'system'].includes(role)] *)
Definition role_valid (role : string) : bool :=
  existsb (String.eqb role) ["user"; "assistant"; "system"].

(** The message object itself is always present in this model, so the
    [!message] test is never taken. *)
Definition validateMessage (message : AIMessage.t) : M St unit :=
  if content_empty (AIMessage.content message) then
    throwError (MkError Error "Message content cannot be empty" None)
  else if negb (role_valid (AIMessage.role message)) then
    throwError
      (MkError Error "Message role must be user, assistant, or system" None)
  else ret tt.

End Methods.

End BaseAIProvider.

(** [AIResponseEntity.create(content, conversationId, source, metadata).toJSON()] *)
Definition AIResponseEntity_create {St} (content conversationId source : string)
    (metadata : ResponseMetadata.t) : M St AIResponse.t :=
  let* t := now in
  let* r := random_base36 in
  ret (AIResponse.mk ("resp_" +:+ pretty t +:+ "_" +:+ r)
         content conversationId source metadata).

(** [error instanceof Error ? error : new Error('Unknown error')] *)
Definition errorOrUnknown (t : Thrown) : JsError :=
  match asError t with
  | Some e => e
  | None => MkError Error "Unknown error" None
  end.

(* ===================================================================== *)
(** * Tool-augmented agent adapter: [ToolhouseProvider] *)
(* ===================================================================== *)

Module ToolhouseConfig.
Record t := mk {
  baseUrl : string;
  agentId : option string;
  apiKey : option string;
  agentUrl : option string
}.
End ToolhouseConfig.

Module MCPClient.
Record t := mk { mcpUrl : string; apiKey : string }.
End MCPClient.

(** A string-typed property read from a loosely typed value. *)
Definition jsval_string (v : jsval) : option string :=
  match v with
  | VString s => Some s
  | _ => None
  end.

(** The numbered resource list both prompts of the adapter embed:
    [ads.forEach((ad, index) => ...)]. *)
Fixpoint numbered_resources (index : nat) (ads : list Ad.t) : string :=
  match ads with
  | [] => EmptyString
  | ad :: rest =>
      pretty (S index) +:+ ". " +:+ Ad.title ad +:+ " - "
      +:+ Ad.description ad +:+ nl
      +:+ (if nonempty (Ad.url ad)
           then "   Link: " +:+ Ad.url ad +:+ nl
           else EmptyString)
      +:+ numbered_resources (S index) rest
  end.

Module ToolhouseProvider.

Record t := mk {
  config : option ToolhouseConfig.t;
  metrics : ProviderMetrics.t;
  toolhouseConfig : option ToolhouseConfig.t;
  mcpClient : option MCPClient.t;
  runId : option string;
  conversationHistory : list AIMessage.t
}.

(** [new ToolhouseProvider()] *)
Definition fresh : t :=
  mk None ProviderMetrics.initial None None None [].

Definition set_metrics (m : ProviderMetrics.t) (s : t) : t :=
  mk (config s) m (toolhouseConfig s) (mcpClient s) (runId s)
     (conversationHistory s).

Definition set_conversationHistory (h : list AIMessage.t) (s : t) : t :=
  mk (config s) (metrics s) (toolhouseConfig s) (mcpClient s) (runId s) h.

#[global] Instance provider : BaseAIProvider.Provider t := {
  BaseAIProvider.name := "toolhouse";
  BaseAIProvider.has_config := fun s => bool_decide (is_Some (config s));
  BaseAIProvider.metrics := metrics;
  BaseAIProvider.set_metrics := set_metrics
}.

Definition name : string := "toolhouse".

Definition test_creator_id : string := "d64a4899-20e4-4ecd-a53e-057aceed54cf".

Definition validateConfig (cfg : ToolhouseConfig.t) : M t bool :=
  if negb (nonempty (ToolhouseConfig.baseUrl cfg)) then ret false
  else url_parses (ToolhouseConfig.baseUrl cfg).

Definition isValidConversationId (conversationId : string) : bool :=
  uuidRegex_test conversationId.

(** [message.metadata?.conversationId] and [message.metadata?.creatorId] *)
Definition metadata_conversationId (message : AIMessage.t) : option string :=
  match AIMessage.metadata message with
  | Some md => Metadata.conversationId md
  | None => None
  end.

Definition metadata_creatorId (message : AIMessage.t) : option string :=
  match AIMessage.metadata message with
  | Some md => Metadata.creatorId md
  | None => None
  end.

(** The properties the adapter reads of an MCP response that is an
    object: its [content], when that is a string, and its [ads],
    whatever they are. *)
Record McpResult := mkMcp {
  mcp_content : option string;
  mcp_ads : McpAds.t
}.

Definition searchMCPContent (message : AIMessage.t) : M t McpResult :=
  let* client := gets mcpClient in
  match client with
  | None => throwError (MkError Error "MCP client not initialized" None)
  | Some client =>
      try_catch
        (let conversationId := metadata_conversationId message in
         if negb (truthy conversationId) then
           throwError
             (MkError Error "Conversation ID is required for MCP integration"
                None)
         else if negb (isValidConversationId
                         (default EmptyString conversationId)) then
           throwError (MkError Error "Invalid conversation ID format" None)
         else
           let* response :=
             do_searchContentAds (MCPClient.mcpUrl client)
               [AIMessage.content message]
               (or_else (metadata_creatorId message) "default")
               conversationId in
           match response with
           | Remote.McpNullish =>
               (* [response.ads?.length] in the log line *)
               throwError
                 (MkError TypeError
                    "Cannot read properties of null (reading 'ads')" None)
           | Remote.McpPrimitive =>
               throwError (MkError Error "Invalid MCP response format" None)
           | Remote.McpObject c a => ret (mkMcp c a)
           end)
        (fun error => throw error)
  end.

(** Drains [response.body] chunk by chunk. *)
Definition read_stream (chunks : list string * option JsError) : M t string :=
  match snd chunks with
  | Some e => throwError e
  | None => ret (fold_left (fun acc c => acc +:+ c) (fst chunks) EmptyString)
  end.

Definition callToolhouseAgent (message : string) : M t string :=
  let* cfg := gets toolhouseConfig in
  match cfg with
  | None => throwError (MkError Error "Toolhouse agent URL not configured" None)
  | Some cfg =>
      if negb (truthy (ToolhouseConfig.agentUrl cfg)) then
        throwError (MkError Error "Toolhouse agent URL not configured" None)
      else
        let agentUrl := default EmptyString (ToolhouseConfig.agentUrl cfg) in
        let authorization :=
          if truthy (ToolhouseConfig.apiKey cfg)
          then ToolhouseConfig.apiKey cfg else None in
        let* startTime := now in
        try_catch
          (let* response :=
             do_fetch agentUrl (Remote.ReqAgent authorization message) in
           let* t1 := now in
           if negb (Remote.ok response) then
             do try_catch
                  (let* errorText := of_sum (Remote.text response) in ret tt)
                  (fun _ => ret tt) then
             throwError
               (MkError Error
                  ("Toolhouse agent responded with "
                   +:+ pretty (Remote.status response) +:+ ": "
                   +:+ Remote.statusText response) None)
           else
             match Remote.body response with
             | None =>
                 throwError
                   (MkError Error "No response body from Toolhouse agent" None)
             | Some chunks => read_stream chunks
             end)
          (fun error =>
             let* t2 := now in
             throw error)
  end.

Definition resources_block (mcpContext : string) (relevantAds : list Ad.t)
    (stringified : string) : string :=
  if nonempty mcpContext || negb (Nat.eqb (length relevantAds) 0) then
    nl +:+ nl +:+ "Relevant context and resources:" +:+ nl
    +:+ (if nonempty mcpContext
         then "MCP Content: " +:+ stringified +:+ nl +:+ nl
         else EmptyString)
    +:+ (if negb (Nat.eqb (length relevantAds) 0)
         then "Available resources:" +:+ nl
              +:+ numbered_resources 0 relevantAds +:+ nl
         else EmptyString)
    +:+ "Please provide a helpful response incorporating this context and any relevant resources."
  else EmptyString.

(** The prompt delivered to the agent endpoint. *)
Definition enhancedMessage (message : AIMessage.t) (mcpContext : string)
    (relevantAds : list Ad.t) (stringified : string) : string :=
  AIMessage.content message
  +:+ resources_block mcpContext relevantAds stringified.

(** The templated answer used when the agent call fails. *)
Definition templateResponse (message : AIMessage.t) (mcpContext : string)
    (relevantAds : list Ad.t) (stringified : string) : string :=
  "I understand you're asking about: " +:+ dquote
  +:+ AIMessage.content message +:+ dquote +:+ nl +:+ nl
  +:+ (if nonempty mcpContext
       then "Based on relevant information: " +:+ stringified +:+ nl +:+ nl
       else EmptyString)
  +:+ (if negb (Nat.eqb (length relevantAds) 0)
       then "Here are some relevant resources:" +:+ nl
            +:+ numbered_resources 0 relevantAds
       else "I don't have specific resources for this topic, but I'm happy to help with general information.").

(** [mcpResponse.ads] is listed in the [try] block and again in the
    [catch] block; what makes the first walk throw makes the second
    throw too, and then the call rejects. *)
Definition generateAIResponse (message : AIMessage.t) (mcpResponse : McpResult)
    : M t (string * Usage.t) :=
  let mcpContext := or_else (mcp_content mcpResponse) EmptyString in
  try_catch
    (let* stringified := stringify mcpContext in
     let* relevantAds := of_sum (McpAds.listed (mcp_ads mcpResponse)) in
     let enhanced := enhancedMessage message mcpContext relevantAds stringified in
     let* toolhouseResponse := callToolhouseAgent enhanced in
     ret (toolhouseResponse,
          Usage.mk (String.length enhanced) (String.length toolhouseResponse)
            (String.length enhanced + String.length toolhouseResponse)))
    (fun error =>
       let* stringified := stringify mcpContext in
       let* relevantAds := of_sum (McpAds.listed (mcp_ads mcpResponse)) in
       let responseContent :=
         templateResponse message mcpContext relevantAds stringified in
       ret (responseContent,
            Usage.mk (String.length (AIMessage.content message))
              (String.length responseContent)
              (String.length (AIMessage.content message)
               + String.length responseContent))).

Definition generateConversationId : M t string :=
  let* t := now in
  let* r := random_base36 in
  ret ("local_toolhouse_" +:+ pretty t +:+ "_" +:+ r).

Definition initialized (s : t) : bool :=
  match toolhouseConfig s, mcpClient s with
  | Some _, Some _ => true
  | _, _ => false
  end.

Definition sendMessage (message : AIMessage.t) : M t AIResponse.t :=
  let* startTime := now in
  try_catch
    (do BaseAIProvider.validateMessage message then
     let* ready := gets initialized in
     if negb ready then
       throwError (newProviderRequestError name "Provider not initialized" None)
     else
       (* Add message to conversation history *)
       do modify (fun s =>
            set_conversationHistory (conversationHistory s ++ [message]) s) then
       (* Step 1: Search for relevant content via MCP *)
       let* mcpResponse := searchMCPContent message in
       (* Step 2: Generate AI response with MCP context *)
       let* aiResponse := generateAIResponse message mcpResponse in
       let* t1 := now in
       let responseTime := (t1 - startTime)%Z in
       do BaseAIProvider.updateMetrics responseTime false then
       let* run := gets runId in
       let* conversationId :=
         (if truthy run then ret (default EmptyString run)
          else generateConversationId) in
       AIResponseEntity_create (fst aiResponse) conversationId "toolhouse"
         (ResponseMetadata.mk (Some "local-toolhouse-mcp")
            (Some (snd aiResponse)) (Some responseTime) run
            (mcp_ads mcpResponse) (mcp_content mcpResponse) None))
    (fun error =>
       let* t2 := now in
       BaseAIProvider.handleError (errorOrUnknown error)).

Definition initializeTestConversation : M t jsval :=
  try_catch
    (let* t0 := now in
     let* response :=
       do_fetch "http://localhost:8000/api/conversations/initialize"
         (Remote.ReqInitConversation ("test-mcp-" +:+ pretty t0)
            test_creator_id
            (Some (AdPreferences.mk (Some ["hyperlink"; "popup"]) "normal"
                     (VNumber (1 # 2))))
            None) in
     if negb (Remote.ok response) then
       let* errorText := of_sum (Remote.text response) in
       throwError
         (MkError Error
            ("Backend responded with " +:+ pretty (Remote.status response)
             +:+ ": " +:+ Remote.statusText response +:+ " - " +:+ errorText)
            None)
     else
       let* result := of_sum (Remote.json response) in
       match Remote.props result with
       | None =>
           throwError
             (MkError TypeError
                "Cannot read properties of null (reading 'conversation_id')"
                None)
       | Some o => ret (Remote.conversation_id o)
       end)
    (fun error => throw error).

(** Never rejects: a failed probe is only logged. *)
Definition testMCPConnection : M t unit :=
  try_catch
    (let* client := gets mcpClient in
     match client with
     | None => throwError (MkError Error "MCP client not initialized" None)
     | Some client =>
         let* testConversationId := initializeTestConversation in
         let* testResponse :=
           do_searchContentAds (MCPClient.mcpUrl client) ["test"]
             test_creator_id (jsval_string testConversationId) in
         match testResponse with
         | Remote.McpNullish =>
             throwError
               (MkError TypeError
                  "Cannot read properties of null (reading 'ads')" None)
         | _ => ret tt
         end
     end)
    (fun error => ret tt).

Definition initialize (cfg : ToolhouseConfig.t) : M t unit :=
  try_catch
    (let* valid := validateConfig cfg in
     if negb valid then
       throwError
         (newProviderInitializationError name "Invalid Toolhouse configuration"
            None)
     else
       do modify (fun s =>
            mk (Some cfg) (metrics s) (Some cfg)
               (Some (MCPClient.mk (ToolhouseConfig.baseUrl cfg +:+ "/mcp")
                        (or_else (ToolhouseConfig.apiKey cfg) "local-dev-key")))
               (runId s) (conversationHistory s)) then
       testMCPConnection)
    (fun error =>
       throwError
         (newProviderInitializationError name
            (messageOr error "Unknown initialization error")
            (asError error))).

Definition isHealthy : M t bool :=
  try_catch
    (let* ready := gets initialized in
     if negb ready then ret false
     else
       do testMCPConnection then
       ret true)
    (fun _ => ret false).

Definition shutdown : M t unit :=
  modify (fun s => mk None (metrics s) None None None []).

Definition resetConversation : M t unit :=
  modify (fun s =>
    mk (config s) (metrics s) (toolhouseConfig s) (mcpClient s) None []).

Definition getConversationHistory (s : t) : list AIMessage.t :=
  conversationHistory s.

End ToolhouseProvider.

(* ===================================================================== *)
(** * Direct-completion adapter: [OpenRouterProvider] *)
(* ===================================================================== *)

Module OpenRouterConfig.
Record t := mk {
  apiKey : string;
  model : string;
  baseUrl : string;
  temperature : option Q;
  maxTokens : option Z
}.
End OpenRouterConfig.

(** [l.slice(-n)] for a positive [n]: the last [n] elements, or all of [l]
    when it has fewer. *)
Definition slice_last {A} (n : nat) (l : list A) : list A :=
  drop (length l - n) l.

Module OpenRouterProvider.

Record t := mk {
  config : option OpenRouterConfig.t;
  metrics : ProviderMetrics.t;
  openRouterConfig : option OpenRouterConfig.t;
  conversationHistory : list AIMessage.t
}.

(** [new OpenRouterProvider()] *)
Definition fresh : t := mk None ProviderMetrics.initial None [].

Definition set_metrics (m : ProviderMetrics.t) (s : t) : t :=
  mk (config s) m (openRouterConfig s) (conversationHistory s).

Definition set_conversationHistory (h : list AIMessage.t) (s : t) : t :=
  mk (config s) (metrics s) (openRouterConfig s) h.

#[global] Instance provider : BaseAIProvider.Provider t := {
  BaseAIProvider.name := "openrouter";
  BaseAIProvider.has_config := fun s => bool_decide (is_Some (config s));
  BaseAIProvider.metrics := metrics;
  BaseAIProvider.set_metrics := set_metrics
}.

Definition name : string := "openrouter".

Definition validateConfig (cfg : OpenRouterConfig.t) : bool :=
  if negb (nonempty (OpenRouterConfig.apiKey cfg)) then false
  else if negb (nonempty (OpenRouterConfig.model cfg)) then false
  else if negb (nonempty (OpenRouterConfig.baseUrl cfg)) then false
  else if match OpenRouterConfig.temperature cfg with
          | Some temp => negb (Qle_bool 0 temp) || negb (Qle_bool temp 2)
          | None => false
          end then false
  else if match OpenRouterConfig.maxTokens cfg with
          | Some mt => (mt <? 1)%Z
          | None => false
          end then false
  else true.

Definition system_instruction : ApiMessage.t :=
  ApiMessage.mk "system"
    "You are a helpful assistant with access to contextual information and resources. When relevant information or resources are provided, you can naturally reference them in your responses to help the user.".

Definition api_message (msg : AIMessage.t) : ApiMessage.t :=
  ApiMessage.mk (AIMessage.role msg) (AIMessage.content msg).

Definition buildMessagesArray (currentMessage : AIMessage.t)
    : M t (list ApiMessage.t) :=
  let* conversationHistory := gets conversationHistory in
  (* Add system message if this is the first message or for context *)
  let messages :=
    if Nat.eqb (length conversationHistory) 0
    then [system_instruction] else [] in
  (* Add conversation history (excluding the current message) *)
  let history :=
    List.filter (fun msg =>
                   negb (String.eqb (AIMessage.id msg)
                           (AIMessage.id currentMessage)))
                conversationHistory in
  (* Add current message *)
  ret (messages ++ map api_message history ++ [api_message currentMessage]).

(** [errorData.error?.message || response.statusText], where [errorData]
    is [await response.json().catch(() => fallback)] *)
Definition error_detail (response : Remote.Response) : M t string :=
  match Remote.json response with
  | inl _ => ret (Remote.statusText response)
  | inr errorData =>
      match Remote.props errorData with
      | None =>
          throwError
            (MkError TypeError
               "Cannot read properties of null (reading 'error')" None)
      | Some o =>
          ret (or_else (Remote.error_message o) (Remote.statusText response))
      end
  end.

Definition callOpenRouterAPI (message : AIMessage.t)
    : M t (string * option Usage.t) :=
  let* cfg := gets openRouterConfig in
  match cfg with
  | None =>
      throwError
        (MkError TypeError
           "Cannot read properties of undefined (reading 'baseUrl')" None)
  | Some cfg =>
      let endpoint := OpenRouterConfig.baseUrl cfg +:+ "/chat/completions" in
      let* messages := buildMessagesArray message in
      let temperature :=
        match OpenRouterConfig.temperature cfg with
        | Some temp => if Qeq_bool temp 0 then (7 # 10)%Q else temp
        | None => (7 # 10)%Q
        end in
      let max_tokens :=
        match OpenRouterConfig.maxTokens cfg with
        | Some mt => if (mt =? 0)%Z then 1000%Z else mt
        | None => 1000%Z
        end in
      let* response :=
        do_fetch endpoint
          (Remote.ReqCompletion (OpenRouterConfig.apiKey cfg)
             (OpenRouterConfig.model cfg) messages temperature max_tokens) in
      if negb (Remote.ok response) then
        let* detail := error_detail response in
        throwError
          (newProviderRequestError name
             ("HTTP " +:+ pretty (Remote.status response) +:+ ": " +:+ detail)
             None)
      else
        let* data := of_sum (Remote.json response) in
        match Remote.props data with
        | None =>
            throwError
              (MkError TypeError
                 "Cannot read properties of null (reading 'choices')" None)
        | Some o =>
            if negb (truthy (Remote.completion o)) then
              throwError
                (newProviderRequestError name
                   "Invalid response format from OpenRouter API" None)
            else
              ret (default EmptyString (Remote.completion o), Remote.usage o)
        end
  end.

Definition generateMessageId : M t string :=
  let* t := now in
  let* r := random_base36 in
  ret ("msg_" +:+ pretty t +:+ "_" +:+ r).

Definition generateConversationId : M t string :=
  let* t := now in
  let* r := random_base36 in
  ret ("openrouter_" +:+ pretty t +:+ "_" +:+ r).

Definition initialized (s : t) : bool :=
  match openRouterConfig s with
  | Some _ => true
  | None => false
  end.

Definition config_model (s : t) : string :=
  match openRouterConfig s with
  | Some cfg => OpenRouterConfig.model cfg
  | None => EmptyString
  end.

Definition sendMessage (message : AIMessage.t) : M t AIResponse.t :=
  let* startTime := now in
  try_catch
    (do BaseAIProvider.validateMessage message then
     let* ready := gets initialized in
     if negb ready then
       throwError (newProviderRequestError name "Provider not initialized" None)
     else
       (* Add message to conversation history *)
       do modify (fun s =>
            set_conversationHistory (conversationHistory s ++ [message]) s) then
       (* Keep conversation history manageable (last 20 messages) *)
       do modify (fun s =>
            if Nat.ltb 20 (length (conversationHistory s))
            then set_conversationHistory
                   (slice_last 20 (conversationHistory s)) s
            else s) then
       let* response := callOpenRouterAPI message in
       let* t1 := now in
       let responseTime := (t1 - startTime)%Z in
       do BaseAIProvider.updateMetrics responseTime false then
       (* Add assistant response to history *)
       let* assistantId := generateMessageId in
       let* assistantTime := now in
       let* model := gets config_model in
       let assistantMessage :=
         AIMessage.mk assistantId (fst response) "assistant" assistantTime
           (Some (Metadata.mk None None None None (Some name) (Some model))) in
       do modify (fun s =>
            set_conversationHistory
              (conversationHistory s ++ [assistantMessage]) s) then
       let* conversationId := generateConversationId in
       let* conversationLength := gets (fun s => length (conversationHistory s)) in
       AIResponseEntity_create (fst response) conversationId "openrouter"
         (ResponseMetadata.mk (Some model) (snd response) (Some responseTime)
            None McpAds.Absent None (Some conversationLength)))
    (fun error =>
       let* t2 := now in
       BaseAIProvider.handleError (errorOrUnknown error)).

Definition testConnection : M t unit :=
  try_catch
    (let* cfg := gets openRouterConfig in
     match cfg with
     | None =>
         throwError
           (MkError TypeError
              "Cannot read properties of undefined (reading 'baseUrl')" None)
     | Some cfg =>
         let* response :=
           do_fetch (OpenRouterConfig.baseUrl cfg +:+ "/chat/completions")
             (Remote.ReqPing (OpenRouterConfig.apiKey cfg)
                (OpenRouterConfig.model cfg)) in
         if negb (Remote.ok response) then
           let* detail := error_detail response in
           throwError
             (MkError Error
                ("Connection test failed: " +:+ pretty (Remote.status response)
                 +:+ " " +:+ detail) None)
         else ret tt
     end)
    (fun error =>
       throwError
         (MkError Error
            ("Connection test failed: " +:+ messageOr error "Unknown error")
            None)).

Definition initialize (cfg : OpenRouterConfig.t) : M t unit :=
  try_catch
    (if negb (validateConfig cfg) then
       throwError
         (newProviderInitializationError name "Invalid OpenRouter configuration"
            None)
     else
       do modify (fun s =>
            mk (Some cfg) (metrics s) (Some cfg) (conversationHistory s)) then
       testConnection)
    (fun error =>
       throwError
         (newProviderInitializationError name
            (messageOr error "Unknown initialization error")
            (asError error))).

Definition isHealthy : M t bool :=
  let* cfg := gets openRouterConfig in
  match cfg with
  | None => ret false
  | Some cfg => ret (validateConfig cfg)
  end.

Definition shutdown : M t unit :=
  modify (fun s => mk None (metrics s) None []).

Definition getConversationHistory (s : t) : list AIMessage.t :=
  conversationHistory s.

Definition clearConversationHistory : M t unit :=
  modify (set_conversationHistory []).

End OpenRouterProvider.

(* ===================================================================== *)
(** * Ad search component: [SearchAdsUseCase] and the [useAdSearch] hook *)
(* ===================================================================== *)

Module AdSearchResult.
Record t := mk {
  ads : list Ad.t;
  query : string;
  responseTime : Z;
  timestamp : Z;
  (* metadata *)
  conversationId : option string;
  creatorId : string;
  queryCount : nat
}.
End AdSearchResult.

(** [new AdSearchError(message, cause)] *)
Definition newAdSearchError (message : string) (cause : option JsError)
    : JsError :=
  MkError AdSearchError message cause.

Module SearchAdsUseCase.

Record t := mk {
  mcpUrl : string;
  apiKey : string;
  creatorId : string
}.

Section Methods.
Context {St : Type}.

Definition execute (this : t) (queries : list string)
    (conversationId : option string) : M St AdSearchResult.t :=
  let* startTime := now in
  try_catch
    (let* response :=
       do_fetch (mcpUrl this)
         (Remote.ReqSearchAds (apiKey this) queries (creatorId this)
            conversationId) in
     if negb (Remote.ok response) then
       throwError
         (MkError Error
            ("MCP server responded with " +:+ pretty (Remote.status response)
             +:+ ": " +:+ Remote.statusText response) None)
     else
       let* data := of_sum (Remote.json response) in
       let* t1 := now in
       let responseTime := (t1 - startTime)%Z in
       match Remote.props data with
       | None =>
           throwError
             (MkError TypeError
                "Cannot read properties of null (reading 'results')" None)
       | Some o =>
           let* timestamp := now in
           ret (AdSearchResult.mk (default [] (Remote.results o))
                  (String.concat " " queries) responseTime timestamp
                  conversationId (creatorId this) (length queries))
       end)
    (fun error =>
       let* t2 := now in
       throwError
         (newAdSearchError
            ("Failed to search ads: " +:+ messageOr error "Unknown error")
            (asError error))).

Definition executeForMessage (this : t) (message : string)
    (conversationId : option string) : M St AdSearchResult.t :=
  execute this [message] conversationId.

End Methods.

End SearchAdsUseCase.

Module useAdSearch.

(** The state cells of the hook and its use-case ref. *)
Record t := mk {
  ads : list Ad.t;
  isLoading : bool;
  error : option string;
  lastSearchResult : option AdSearchResult.t;
  searchHistory : list AdSearchResult.t;
  searchUseCaseRef : option SearchAdsUseCase.t
}.

(** The hook on its first render: the use case is created by an effect
    only once the configuration differs from the one first seen. *)
Definition initial : t := mk [] false None None [] None.

Definition setAds (v : list Ad.t) (s : t) : t :=
  mk v (isLoading s) (error s) (lastSearchResult s) (searchHistory s)
     (searchUseCaseRef s).
Definition setIsLoading (v : bool) (s : t) : t :=
  mk (ads s) v (error s) (lastSearchResult s) (searchHistory s)
     (searchUseCaseRef s).
Definition setError (v : option string) (s : t) : t :=
  mk (ads s) (isLoading s) v (lastSearchResult s) (searchHistory s)
     (searchUseCaseRef s).
Definition setLastSearchResult (v : option AdSearchResult.t) (s : t) : t :=
  mk (ads s) (isLoading s) (error s) v (searchHistory s)
     (searchUseCaseRef s).
(** [setSearchHistory(prev => f(prev))] *)
Definition setSearchHistory
    (f : list AdSearchResult.t -> list AdSearchResult.t) (s : t) : t :=
  mk (ads s) (isLoading s) (error s) (lastSearchResult s)
     (f (searchHistory s)) (searchUseCaseRef s).

(** [searchAds(queries, options)]; [conversationId] is the argument the
    hook was rendered with, [options_conversationId] is
    [options?.conversationId]. *)
Definition searchAds (conversationId : option string)
    (queries : list string) (options_conversationId : option string)
    : M t AdSearchResult.t :=
  let* useCase := gets searchUseCaseRef in
  match useCase with
  | None => throwError (MkError Error "Ad search use case not initialized" None)
  | Some useCase =>
      do modify (setIsLoading true) then
      do modify (setError None) then
      try_finally
        (try_catch
           (let searchConversationId :=
              if truthy options_conversationId
              then options_conversationId else conversationId in
            let* result :=
              SearchAdsUseCase.execute useCase queries searchConversationId in
            do modify (setAds (AdSearchResult.ads result)) then
            do modify (setLastSearchResult (Some result)) then
            (* Keep last 10 searches *)
            do modify (setSearchHistory
                         (fun prev => slice_last 9 prev ++ [result])) then
            ret result)
           (fun err =>
              do modify (setError (Some (messageOr err "Ad search failed"))) then
              throw err))
        (modify (setIsLoading false))
  end.

Definition searchForMessage (conversationId : option string)
    (message : string) (options_conversationId : option string)
    : M t AdSearchResult.t :=
  searchAds conversationId [message] options_conversationId.

Definition clearAds : M t unit :=
  do modify (setAds []) then
  do modify (setLastSearchResult None) then
  modify (setError None).

Definition clearHistory : M t unit :=
  modify (setSearchHistory (fun _ => [])).

Definition getAdsByType (s : t) (adType : string) : list Ad.t :=
  List.filter (fun ad => String.eqb (Ad.ad_type ad) adType) (ads s).

Definition getAdsByMinSimilarity (s : t) (minSimilarity : Q) : list Ad.t :=
  List.filter (fun ad => Qle_bool minSimilarity (Ad.similarity ad)) (ads s).

Definition hasAds (s : t) : bool := Nat.ltb 0 (length (ads s)).

Definition isHealthy (s : t) : bool :=
  match error s, searchUseCaseRef s with
  | None, Some _ => true
  | _, _ => false
  end.

End useAdSearch.

(* ===================================================================== *)
(** * Conversation session manager *)
(* ===================================================================== *)

Module ConversationResult.
Record t := mk {
  conversationId : jsval;
  creatorId : string;
  config : ConversationInitConfig.t;
  isHealthy : bool;
  responseTime : Z;
  timestamp : Z;
  backendInitialized : bool;
  (* metadata *)
  source : string;
  backendResponse : Remote.Json
}.
End ConversationResult.

(** [new ConversationError(message, cause)] *)
Definition newConversationError (message : string) (cause : option JsError)
    : JsError :=
  MkError ConversationError message cause.

Module InitializeConversationUseCase.

Record t := mk {
  baseUrl : string;
  creatorId : string;
  defaultConfig : ConversationInitConfig.t
}.

(** [{...defaultConfig, ...config}] *)
Definition merge (defaults : ConversationInitConfig.t)
    (config : option ConversationInitConfig.t) : ConversationInitConfig.t :=
  match config with
  | None => defaults
  | Some c =>
      ConversationInitConfig.mk
        (match ConversationInitConfig.ad_preferences c with
         | Some p => Some p
         | None => ConversationInitConfig.ad_preferences defaults
         end)
        (match ConversationInitConfig.context c with
         | Some x => Some x
         | None => ConversationInitConfig.context defaults
         end)
  end.

Definition validateConfig (config : ConversationInitConfig.t) : bool :=
  match ConversationInitConfig.ad_preferences config with
  | None => false
  | Some p =>
      match AdPreferences.ad_types p with
      | None => false
      | Some _ =>
          match AdPreferences.revenue_vs_relevance p with
          | VNumber q => Qle_bool 0 q && Qle_bool q 1
          | _ => false
          end
      end
  end.

Section Methods.
Context {St : Type}.

Definition generateConversationId : M St string :=
  let* timestamp := now in
  let* random := random_base36 in
  ret ("conv_" +:+ pretty timestamp +:+ "_" +:+ random).

Definition initializeWithBackend (this : t)
    (config : ConversationInitConfig.t) : M St Remote.Json :=
  let endpoint := baseUrl this +:+ "/api/conversations/initialize" in
  (* Generate a temporary ID for the request *)
  let* tempConversationId := generateConversationId in
  let* response :=
    do_fetch endpoint
      (Remote.ReqInitConversation tempConversationId (creatorId this)
         (ConversationInitConfig.ad_preferences config)
         (ConversationInitConfig.context config)) in
  if negb (Remote.ok response) then
    throwError
      (MkError Error
         ("Backend responded with " +:+ pretty (Remote.status response)
          +:+ ": " +:+ Remote.statusText response) None)
  else of_sum (Remote.json response).

(** The inner [try]/[catch] of [execute]: the value left in
    [backendResult], which starts as [null], and the identifier
    chosen. Reading [conversation_id] of a [null] body throws inside
    the [try], so that case falls back too, with [backendResult]
    [null]; on a boolean, a number or a string the read gives
    [undefined]. *)
Definition backend_or_local (this : t)
    (conversationConfig : ConversationInitConfig.t)
    : M St (Remote.Json * jsval) :=
  try_catch
    (let* backendResult := initializeWithBackend this conversationConfig in
     match Remote.props backendResult with
     | None =>
         throwError
           (MkError TypeError
              "Cannot read properties of null (reading 'conversation_id')"
              None)
     | Some o =>
         (* Use the UUID from backend *)
         ret (backendResult, Remote.conversation_id o)
     end)
    (fun error =>
       (* Fallback to local generation only if backend fails *)
       let* conversationId := generateConversationId in
       ret (Remote.JsonNull, VString conversationId)).

Definition execute (this : t) (config : option ConversationInitConfig.t)
    : M St ConversationResult.t :=
  let* startTime := now in
  try_catch
    (let conversationConfig := merge (defaultConfig this) config in
     let* chosen := backend_or_local this conversationConfig in
     let backendResult := fst chosen in
     let conversationId := snd chosen in
     let* t1 := now in
     let responseTime := (t1 - startTime)%Z in
     let* timestamp := now in
     ret (ConversationResult.mk conversationId (creatorId this)
            conversationConfig true responseTime timestamp
            (negb (Remote.is_null backendResult))
            (if Remote.json_truthy backendResult
             then "backend" else "local")
            backendResult))
    (fun error =>
       let* t2 := now in
       throwError
         (newConversationError
            ("Failed to initialize conversation: "
             +:+ messageOr error "Unknown error")
            (asError error))).

End Methods.

End InitializeConversationUseCase.

Module useConversationManager.

Record t := mk {
  conversationId : option jsval;
  isLoading : bool;
  error : option string;
  isHealthy : bool;
  conversationResult : option ConversationResult.t;
  initUseCaseRef : option InitializeConversationUseCase.t
}.

Definition initializeConversation
    (customConfig : option ConversationInitConfig.t) : M t jsval :=
  let* useCase := gets initUseCaseRef in
  match useCase with
  | None =>
      throwError (MkError Error "Conversation use case not initialized" None)
  | Some useCase =>
      do modify (fun s =>
           mk (conversationId s) true None (isHealthy s)
              (conversationResult s) (initUseCaseRef s)) then
      try_finally
        (try_catch
           (let* result :=
              InitializeConversationUseCase.execute useCase customConfig in
            do modify (fun s =>
                 mk (Some (ConversationResult.conversationId result))
                    (isLoading s) (error s)
                    (ConversationResult.isHealthy result)
                    (Some result) (initUseCaseRef s)) then
            ret (ConversationResult.conversationId result))
           (fun err =>
              do modify (fun s =>
                   mk (conversationId s) (isLoading s)
                      (Some (messageOr err
                               "Conversation initialization failed"))
                      false (conversationResult s) (initUseCaseRef s)) then
              throw err))
        (modify (fun s =>
           mk (conversationId s) false (error s) (isHealthy s)
              (conversationResult s) (initUseCaseRef s)))
  end.

Definition resetConversation : M t unit :=
  modify (fun s => mk None (isLoading s) None false None (initUseCaseRef s)).

(** [conversationResult?.backendInitialized || false] *)
Definition backendInitialized (s : t) : bool :=
  match conversationResult s with
  | Some r => ConversationResult.backendInitialized r
  | None => false
  end.

End useConversationManager.

(* ===================================================================== *)
(** * Provider plugins, registry and factory *)
(* ===================================================================== *)

(** [OpenAIConfig], [AnthropicConfig] and [GeminiConfig] *)
Module ModelConfig.
Record t := mk {
  apiKey : string;
  model : string;
  baseUrl : option string;
  temperature : option Q;
  maxTokens : option Z
}.
End ModelConfig.

Module CustomConfig.
Record t := mk { endpoint : string; apiKey : option string }.
End CustomConfig.

Module AIConfig.
Record t := mk {
  provider : string;
  toolhouse : option ToolhouseConfig.t;
  openrouter : option OpenRouterConfig.t;
  openai : option ModelConfig.t;
  anthropic : option ModelConfig.t;
  gemini : option ModelConfig.t;
  custom : option CustomConfig.t
}.
End AIConfig.

(** [ProviderConfig] is an untyped bag of keys; these are the shapes the
    factory can hand to a plugin. *)
Inductive ProviderConfig :=
| PCToolhouse (c : ToolhouseConfig.t)
| PCOpenRouter (c : OpenRouterConfig.t)
| PCModel (c : ModelConfig.t)
| PCCustom (c : CustomConfig.t).

(** [config as ToolhouseConfig]: the keys the Toolhouse adapter reads. *)
Definition as_ToolhouseConfig (c : ProviderConfig) : ToolhouseConfig.t :=
  match c with
  | PCToolhouse c => c
  | PCOpenRouter c =>
      ToolhouseConfig.mk (OpenRouterConfig.baseUrl c) None
        (Some (OpenRouterConfig.apiKey c)) None
  | PCModel c =>
      ToolhouseConfig.mk (default EmptyString (ModelConfig.baseUrl c)) None
        (Some (ModelConfig.apiKey c)) None
  | PCCustom c => ToolhouseConfig.mk EmptyString None (CustomConfig.apiKey c) None
  end.

(** [config as OpenRouterConfig]: the keys the OpenRouter adapter reads;
    an absent key reads as a falsy value. *)
Definition as_OpenRouterConfig (c : ProviderConfig) : OpenRouterConfig.t :=
  match c with
  | PCOpenRouter c => c
  | PCToolhouse c =>
      OpenRouterConfig.mk (default EmptyString (ToolhouseConfig.apiKey c))
        EmptyString (ToolhouseConfig.baseUrl c) None None
  | PCModel c =>
      OpenRouterConfig.mk (ModelConfig.apiKey c) (ModelConfig.model c)
        (default EmptyString (ModelConfig.baseUrl c))
        (ModelConfig.temperature c) (ModelConfig.maxTokens c)
  | PCCustom c =>
      OpenRouterConfig.mk (default EmptyString (CustomConfig.apiKey c))
        EmptyString EmptyString None None
  end.

Module AIProviderPlugin.

(** The plugin interface, with the [getStatus] of [BaseAIProvider] that
    the provider hook calls on every plugin it receives. *)
Class Plugin (P : Type) := {
  name : P -> string;
  initialize : ProviderConfig -> M P unit;
  sendMessage : AIMessage.t -> M P AIResponse.t;
  shutdown : option (M P unit);
  isHealthy : M P bool;
  validateConfig : ProviderConfig -> M P bool;
  getStatus : M P ProviderStatus.t
}.

End AIProviderPlugin.

(** The two plugins [registerAIProviders] creates. *)
Module Registered.

Inductive t :=
| Toolhouse (s : ToolhouseProvider.t)
| OpenRouter (s : OpenRouterProvider.t).

(** Dynamic dispatch on the class of the receiver. *)
Definition dispatch {A} (mt : M ToolhouseProvider.t A)
    (mo : M OpenRouterProvider.t A) : M t A :=
  fun w p n =>
    match p with
    | Toolhouse s =>
        let r := mt w s n in
        mkRes (outcome r) (Toolhouse (state r)) (clock r) (trace r)
    | OpenRouter s =>
        let r := mo w s n in
        mkRes (outcome r) (OpenRouter (state r)) (clock r) (trace r)
    end.

#[global] Instance plugin : AIProviderPlugin.Plugin t := {
  AIProviderPlugin.name p :=
    match p with
    | Toolhouse _ => ToolhouseProvider.name
    | OpenRouter _ => OpenRouterProvider.name
    end;
  AIProviderPlugin.initialize c :=
    dispatch (ToolhouseProvider.initialize (as_ToolhouseConfig c))
             (OpenRouterProvider.initialize (as_OpenRouterConfig c));
  AIProviderPlugin.sendMessage m :=
    dispatch (ToolhouseProvider.sendMessage m)
             (OpenRouterProvider.sendMessage m);
  AIProviderPlugin.shutdown :=
    Some (dispatch ToolhouseProvider.shutdown OpenRouterProvider.shutdown);
  AIProviderPlugin.isHealthy :=
    dispatch ToolhouseProvider.isHealthy OpenRouterProvider.isHealthy;
  AIProviderPlugin.validateConfig c :=
    dispatch (ToolhouseProvider.validateConfig (as_ToolhouseConfig c))
             (ret (OpenRouterProvider.validateConfig (as_OpenRouterConfig c)));
  AIProviderPlugin.getStatus :=
    dispatch BaseAIProvider.getStatus BaseAIProvider.getStatus
}.

End Registered.

Module ProviderRegistry.

(** [Map<string, AIProviderPlugin>]: keys in insertion order, values are
    references to plugin objects. *)
Definition t := list (string * nat).

Fixpoint get (name : string) (providers : t) : option nat :=
  match providers with
  | [] => None
  | (k, v) :: rest => if String.eqb k name then Some v else get name rest
  end.

Definition isRegistered (name : string) (providers : t) : bool :=
  match get name providers with Some _ => true | None => false end.

(** [providers.set(name, ref)]: an existing key keeps its position. *)
Fixpoint set (name : string) (ref : nat) (providers : t) : t :=
  match providers with
  | [] => [(name, ref)]
  | (k, v) :: rest =>
      if String.eqb k name then (k, ref) :: rest
      else (k, v) :: set name ref rest
  end.

Definition getProviderNames (providers : t) : list string :=
  map fst providers.

Definition list (providers : t) : list nat := map snd providers.

End ProviderRegistry.

Module ProviderFactory.

Section Factory.
Context {P : Type} `{AIProviderPlugin.Plugin P}.

(** The process-wide state the factory works on: the plugin objects by
    address, the registry singleton and the factory's own cache. *)
Record t := mk {
  objects : nat -> P;
  providerRegistry : ProviderRegistry.t;
  activeProviders : gmap string nat
}.

(** Invoke a method on the object at [ref]. *)
Definition on_object {A} (ref : nat) (m : M P A) : M t A :=
  zoom (fun s => objects s ref)
       (fun o s =>
          mk (fun a => if Nat.eqb a ref then o else objects s a)
             (providerRegistry s) (activeProviders s))
       m.

Definition extractProviderConfig (providerType : string)
    (config : AIConfig.t) : M t ProviderConfig :=
  let missing (label : string) :=
    throwError (MkError Error (label +:+ " configuration is missing") None) in
  if String.eqb providerType "toolhouse" then
    match AIConfig.toolhouse config with
    | Some c => ret (PCToolhouse c) | None => missing "Toolhouse" end
  else if String.eqb providerType "openrouter" then
    match AIConfig.openrouter config with
    | Some c => ret (PCOpenRouter c) | None => missing "OpenRouter" end
  else if String.eqb providerType "openai" then
    match AIConfig.openai config with
    | Some c => ret (PCModel c) | None => missing "OpenAI" end
  else if String.eqb providerType "anthropic" then
    match AIConfig.anthropic config with
    | Some c => ret (PCModel c) | None => missing "Anthropic" end
  else if String.eqb providerType "gemini" then
    match AIConfig.gemini config with
    | Some c => ret (PCModel c) | None => missing "Gemini" end
  else if String.eqb providerType "custom" then
    match AIConfig.custom config with
    | Some c => ret (PCCustom c) | None => missing "Custom" end
  else
    throwError
      (MkError Error ("Unknown provider type: " +:+ providerType) None).

Definition create (providerType : string) (config : AIConfig.t)
    : M t nat :=
  (* Check if provider is already active *)
  let* existingProvider :=
    gets (fun s => activeProviders s !! providerType) in
  match existingProvider with
  | Some existingProvider => ret existingProvider
  | None =>
      (* Get provider class from registry *)
      let* registry := gets providerRegistry in
      match ProviderRegistry.get providerType registry with
      | None =>
          throwError
            (newProviderInitializationError providerType
               ("Provider " +:+ providerType
                +:+ " is not registered. Available providers: "
                +:+ String.concat ", "
                      (ProviderRegistry.getProviderNames registry))
               None)
      | Some providerClass =>
          try_catch
            (let* providerConfig :=
               extractProviderConfig providerType config in
             do emit (ECallValidateConfig providerType) then
             let* valid :=
               on_object providerClass
                 (AIProviderPlugin.validateConfig providerConfig) in
             if negb valid then
               throwError
                 (newProviderInitializationError providerType
                    "Invalid configuration provided" None)
             else
               do emit (ECallInitialize providerType) then
               do on_object providerClass
                    (AIProviderPlugin.initialize providerConfig) then
               (* Cache active provider *)
               do modify (fun s =>
                    mk (objects s) (providerRegistry s)
                       (<[providerType := providerClass]>
                          (activeProviders s))) then
               ret providerClass)
            (fun error =>
               throwError
                 (newProviderInitializationError providerType
                    (messageOr error "Unknown error") (asError error)))
      end
  end.

Definition getActiveProvider (providerType : string) (s : t) : option nat :=
  activeProviders s !! providerType.

Definition shutdownProvider (providerType : string) : M t unit :=
  let* provider := gets (fun s => activeProviders s !! providerType) in
  do match provider, AIProviderPlugin.shutdown with
     | Some provider, Some shutdown =>
         do emit (ECallShutdown providerType) then
         on_object provider shutdown
     | _, _ => ret tt
     end then
  modify (fun s =>
    mk (objects s) (providerRegistry s)
       (delete providerType (activeProviders s))).

End Factory.

Arguments t P : clear implicits.

End ProviderFactory.

(* ===================================================================== *)
(** * Sending through a plugin: [SendMessageUseCase] and [useAIProvider] *)
(* ===================================================================== *)

Module SendMessageUseCase.

Section UseCase.
Context {P : Type} `{AIProviderPlugin.Plugin P}.

(** [AIMessageEntity.createUserMessage(content, metadata).toJSON()] *)
Definition createUserMessage (content : string)
    (metadata : option Metadata.t) : M P AIMessage.t :=
  let* t := now in
  let* r := random_base36 in
  let* timestamp := now in
  ret (AIMessage.mk ("msg_" +:+ pretty t +:+ "_" +:+ r) content "user"
         timestamp (Some (default Metadata.empty metadata))).

(** The receiver is the plugin the use case was constructed with. *)
Definition execute (content : string) (metadata : option Metadata.t)
    : M P AIResponse.t :=
  let* startTime := now in
  let* providerName := gets AIProviderPlugin.name in
  try_catch
    ((* Create message entity *)
     let* message := createUserMessage content metadata in
     (* Validate provider is healthy *)
     let* isHealthy := AIProviderPlugin.isHealthy in
     if negb isHealthy then
       throwError
         (newProviderRequestError providerName "Provider is not healthy" None)
     else
       (* Send message to provider *)
       let* response := AIProviderPlugin.sendMessage message in
       (* Add response time to metadata *)
       let* t1 := now in
       let responseTime := (t1 - startTime)%Z in
       let md := AIResponse.metadata response in
       ret (AIResponse.mk (AIResponse.id response)
              (AIResponse.content response)
              (AIResponse.conversationId response)
              (AIResponse.source response)
              (ResponseMetadata.mk (ResponseMetadata.model md)
                 (ResponseMetadata.usage md) (Some responseTime)
                 (ResponseMetadata.runId md) (ResponseMetadata.mcpAds md)
                 (ResponseMetadata.mcpContent md)
                 (ResponseMetadata.conversationLength md))))
    (fun error =>
       let* t2 := now in
       if isRequestError error then throw error
       else
         throwError
           (newProviderRequestError providerName
              (messageOr error "Unknown error") (asError error))).

End UseCase.

End SendMessageUseCase.

Module useAIProvider.

Section Hook.
Context {P : Type} `{AIProviderPlugin.Plugin P}.

(** The state cells of the hook. The [provider] cell and the use case
    in [sendMessageUseCaseRef] refer to one plugin object, held here
    in the ref; [provider] records whether the cell is set. *)
Record t := mk {
  provider : bool;
  isLoading : bool;
  error : option string;
  isInitialized : bool;
  status : option ProviderStatus.t;
  sendMessageUseCaseRef : option P
}.

Definition setIsLoading (v : bool) (s : t) : t :=
  mk (provider s) v (error s) (isInitialized s) (status s)
     (sendMessageUseCaseRef s).
Definition setError (v : option string) (s : t) : t :=
  mk (provider s) (isLoading s) v (isInitialized s) (status s)
     (sendMessageUseCaseRef s).
Definition setStatus (v : option ProviderStatus.t) (s : t) : t :=
  mk (provider s) (isLoading s) (error s) (isInitialized s) v
     (sendMessageUseCaseRef s).

(** Invoke a method of the plugin the use case holds. *)
Definition on_plugin {A} (m : M P A) : M t A :=
  fun w s n =>
    match sendMessageUseCaseRef s with
    | Some obj =>
        let r := m w obj n in
        mkRes (outcome r)
              (mk (provider s) (isLoading s) (error s) (isInitialized s)
                  (status s) (Some (state r)))
              (clock r) (trace r)
    | None =>
        mkRes (Rejected (ThrowError (MkError Error "Provider not initialized" None)))
              s n []
    end.

Definition sendMessage (content : string) (metadata : option Metadata.t)
    : M t AIResponse.t :=
  let* useCase := gets sendMessageUseCaseRef in
  match useCase with
  | None => throwError (MkError Error "Provider not initialized" None)
  | Some _ =>
      do modify (setIsLoading true) then
      do modify (setError None) then
      try_finally
        (try_catch
           (let* response :=
              on_plugin (SendMessageUseCase.execute content metadata) in
            (* Update status after successful request *)
            let* has_provider := gets provider in
            do (if has_provider then
                  let* newStatus := on_plugin AIProviderPlugin.getStatus in
                  modify (setStatus (Some newStatus))
                else ret tt) then
            ret response)
           (fun err =>
              do modify (setError
                           (Some (messageOr err "Failed to send message"))) then
              throw err))
        (modify (setIsLoading false))
  end.

End Hook.

Arguments t P : clear implicits.

End useAIProvider.

(* ===================================================================== *)
(** * Orchestration service: [ChatApplicationService] *)
(* ===================================================================== *)

Module ChatMessageResult.
Record t := mk {
  content : string;
  source : string;
  ads : list Ad.t;
  responseTime : Z;
  (* metadata *)
  providerMetadata : option ResponseMetadata.t;   (* ...aiResponse.metadata *)
  conversationId : option string;
  strategy : string;
  error : option string;
  adSearchTime : option Z;
  adCount : option nat;
  hasAds : option bool
}.
End ChatMessageResult.

(** What the service holds of each hook: the values of the render it was
    constructed in, and the hook's operations. *)
Module ConversationManagerView.
Record t (St : Type) := mk {
  conversationId : option string;
  creatorId : string;
  initializeConversation : M St jsval
}.
Arguments mk {St}.
Arguments conversationId {St}.
Arguments creatorId {St}.
Arguments initializeConversation {St}.
End ConversationManagerView.

Module AdSearchView.
Record t (St : Type) := mk {
  ads : list Ad.t;
  hasAds : bool;
  searchForMessage : string -> option string -> M St AdSearchResult.t
}.
Arguments mk {St}.
Arguments ads {St}.
Arguments hasAds {St}.
Arguments searchForMessage {St}.
End AdSearchView.

Module AIProviderView.
Record t (St : Type) := mk {
  providerName : string;
  sendMessage : string -> option Metadata.t -> M St AIResponse.t
}.
Arguments mk {St}.
Arguments providerName {St}.
Arguments sendMessage {St}.
End AIProviderView.

(** [ChatContainer] hands the service what [useAIProvider] returned: the
    configured provider name and the hook's [sendMessage]. *)
Module ChatContainer.

Definition aiProvider {P : Type} `{AIProviderPlugin.Plugin P}
    (config_provider : string) : AIProviderView.t (useAIProvider.t P) :=
  AIProviderView.mk config_provider useAIProvider.sendMessage.

End ChatContainer.

Module ChatApplicationService.

(** The [index + 1. title: description] lines of the manual prompt *)
Fixpoint numbered_ads (index : nat) (ads : list Ad.t) : string :=
  match ads with
  | [] => EmptyString
  | ad :: rest =>
      pretty (S index) +:+ ". " +:+ Ad.title ad +:+ ": "
      +:+ Ad.description ad +:+ nl +:+ numbered_ads (S index) rest
  end.

Definition buildEnhancedMessage (userMessage : string) (ads : list Ad.t)
    : string :=
  "User message: " +:+ userMessage +:+ nl +:+ nl
  +:+ (if Nat.ltb 0 (length ads)
       then "Relevant advertisements that might be helpful:" +:+ nl
            +:+ numbered_ads 0 ads +:+ nl
       else EmptyString)
  +:+ "Please respond to the user's message naturally, and if relevant, you can mention the available resources or tools that might help them.".

Section Service.
Context {St : Type}.

Record t := mk {
  conversationManager : ConversationManagerView.t St;
  adSearch : AdSearchView.t St;
  aiProvider : AIProviderView.t St
}.

Definition sendMessageWithToolhouse (this : t) (message : string)
    (startTime : Z) : M St ChatMessageResult.t :=
  try_catch
    (let metadata :=
       Metadata.mk (ConversationManagerView.conversationId (conversationManager this))
         (Some (ConversationManagerView.creatorId (conversationManager this))) None None None None in
     do emit (ECallProviderSendMessage message metadata) then
     let* aiResponse :=
       AIProviderView.sendMessage (aiProvider this) message (Some metadata) in
     let* t1 := now in
     let responseTime := (t1 - startTime)%Z in
     ret (ChatMessageResult.mk (AIResponse.content aiResponse)
            "toolhouse_mcp" [] responseTime
            (Some (AIResponse.metadata aiResponse))
            (Some (AIResponse.conversationId aiResponse))
            "toolhouse_auto_mcp" None None None None))
    (fun error => throw error).

Definition sendMessageWithManualMCP (this : t) (message : string)
    (startTime : Z) : M St ChatMessageResult.t :=
  try_catch
    ((* Step 1: Search for relevant ads *)
     let conversationId := ConversationManagerView.conversationId (conversationManager this) in
     do emit (ECallSearchForMessage message conversationId) then
     let* adSearchResult :=
       AdSearchView.searchForMessage (adSearch this) message conversationId in
     (* Step 2: Enhance message with MCP context *)
     let enhancedMessage :=
       buildEnhancedMessage message (AdSearchResult.ads adSearchResult) in
     (* Step 3: Send enhanced message to AI *)
     let metadata :=
       Metadata.mk conversationId None (Some message)
         (Some (AdSearchResult.ads adSearchResult)) None None in
     do emit (ECallProviderSendMessage enhancedMessage metadata) then
     let* aiResponse :=
       AIProviderView.sendMessage (aiProvider this) enhancedMessage (Some metadata) in
     let* t1 := now in
     let responseTime := (t1 - startTime)%Z in
     ret (ChatMessageResult.mk (AIResponse.content aiResponse)
            "manual_mcp" (AdSearchResult.ads adSearchResult) responseTime
            (Some (AIResponse.metadata aiResponse))
            (Some (AIResponse.conversationId aiResponse))
            "manual_mcp_enhancement" None
            (Some (AdSearchResult.responseTime adSearchResult))
            (Some (length (AdSearchResult.ads adSearchResult))) None))
    (fun error => throw error).

Definition fallbackContent (message : string) : string :=
  "I received your message: " +:+ dquote +:+ message +:+ dquote
  +:+ ". I apologize, but I'm experiencing some technical difficulties right now. Please try again in a moment.".

Definition createFallbackResponse (this : t) (message : string)
    (error : Thrown) (startTime : Z) : M St ChatMessageResult.t :=
  let* t1 := now in
  let responseTime := (t1 - startTime)%Z in
  ret (ChatMessageResult.mk (fallbackContent message) "fallback"
         (AdSearchView.ads (adSearch this))      (* Use any cached ads *)
         responseTime None None "fallback"
         (Some (messageOr error "Unknown error")) None None
         (Some (AdSearchView.hasAds (adSearch this)))).

Definition sendMessage (this : t) (message : string)
    : M St ChatMessageResult.t :=
  let* startTime := now in
  try_catch
    ((* Ensure conversation is initialized *)
     do (if negb (truthy (ConversationManagerView.conversationId (conversationManager this))) then
           do emit ECallInitializeConversation then
           let* id := ConversationManagerView.initializeConversation (conversationManager this) in
           ret tt
         else ret tt) then
     (* Strategy 1: Try AI with MCP enhancement *)
     if String.eqb (AIProviderView.providerName (aiProvider this)) "toolhouse" then
       sendMessageWithToolhouse this message startTime
     else
       (* Strategy 2: Manual MCP + AI integration *)
       sendMessageWithManualMCP this message startTime)
    (fun error =>
       (* Final fallback: Basic response with any available ads *)
       createFallbackResponse this message error startTime).

End Service.

Arguments t St : clear implicits.

End ChatApplicationService.

(* ===================================================================== *)
(** * Reasoning about computations *)
(* ===================================================================== *)

Section Frames.
Context {St T : Type} (f : St -> T).

(** [m] leaves the part [f] of the state as it found it, whatever its
    outcome. *)
Definition preserves {A} (m : M St A) : Prop :=
  forall w s n, f (state (m w s n)) = f s.

Lemma preserves_ret {A} (a : A) : preserves (ret a).
Proof. intros w s n. reflexivity. Qed.

Lemma preserves_throw {A} t : preserves (@throw St A t).
Proof. intros w s n. reflexivity. Qed.

Lemma preserves_throwError {A} e : preserves (@throwError St A e).
Proof. intros w s n. reflexivity. Qed.

Lemma preserves_gets {A} (g : St -> A) : preserves (gets g).
Proof. intros w s n. reflexivity. Qed.

Lemma preserves_emit e : preserves (emit e).
Proof. intros w s n. reflexivity. Qed.

Lemma preserves_now : preserves now.
Proof. intros w s n. reflexivity. Qed.

Lemma preserves_random_base36 : preserves random_base36.
Proof. intros w s n. reflexivity. Qed.

Lemma preserves_stringify v : preserves (stringify v).
Proof. intros w s n. reflexivity. Qed.

Lemma preserves_url_parses v : preserves (url_parses v).
Proof. intros w s n. reflexivity. Qed.

Lemma preserves_do_fetch url req : preserves (do_fetch url req).
Proof. intros w s n. reflexivity. Qed.

Lemma preserves_do_searchContentAds u q c i :
  preserves (do_searchContentAds u q c i).
Proof. intros w s n. reflexivity. Qed.

Lemma preserves_of_sum {A} (r : JsError + A) : preserves (of_sum r).
Proof. intros w s n. destruct r; reflexivity. Qed.

Lemma preserves_modify (g : St -> St) :
  (forall s, f (g s) = f s) -> preserves (modify g).
Proof. intros H w s n. apply H. Qed.

Lemma preserves_bind {A B} (m : M St A) (k : A -> M St B) :
  preserves m -> (forall a, preserves (k a)) -> preserves (bind m k).
Proof.
  intros Hm Hk w s n. unfold bind.
  destruct (outcome (m w s n)) eqn:E; cbn.
  - rewrite Hk. apply Hm.
  - apply Hm.
Qed.

Lemma preserves_try_catch {A} (m : M St A) (h : Thrown -> M St A) :
  preserves m -> (forall t, preserves (h t)) -> preserves (try_catch m h).
Proof.
  intros Hm Hh w s n. unfold try_catch.
  destruct (outcome (m w s n)) eqn:E; cbn.
  - apply Hm.
  - rewrite Hh. apply Hm.
Qed.

Lemma preserves_try_finally {A} (m : M St A) (fin : M St unit) :
  preserves m -> preserves fin -> preserves (try_finally m fin).
Proof.
  intros Hm Hf w s n. unfold try_finally.
  destruct (outcome (fin w (state (m w s n)) (clock (m w s n)))) eqn:E;
    cbn; rewrite Hf; apply Hm.
Qed.

End Frames.

Section Rejections.
Context {St : Type}.

(** In the world [w], [m] rejects from every state and at every time. *)
Definition always_rejects {A} (m : M St A) (w : World) : Prop :=
  forall s n, rejected (outcome (m w s n)).

Lemma always_rejects_throw {A} t w : always_rejects (@throw St A t) w.
Proof. intros s n. exists t. reflexivity. Qed.

Lemma always_rejects_throwError {A} e w :
  always_rejects (@throwError St A e) w.
Proof. intros s n. exists (ThrowError e). reflexivity. Qed.

Lemma always_rejects_bind_l {A B} (m : M St A) (k : A -> M St B) w :
  always_rejects m w -> always_rejects (bind m k) w.
Proof.
  intros Hm s n. destruct (Hm s n) as [t Ht].
  exists t. unfold bind. rewrite Ht. reflexivity.
Qed.

Lemma always_rejects_bind_r {A B} (m : M St A) (k : A -> M St B) w :
  (forall a, always_rejects (k a) w) -> always_rejects (bind m k) w.
Proof.
  intros Hk s n. unfold bind.
  destruct (outcome (m w s n)) eqn:E; cbn.
  - apply Hk.
  - eexists. reflexivity.
Qed.

Lemma always_rejects_try_catch {A} (m : M St A) (h : Thrown -> M St A) w :
  always_rejects m w -> (forall t, always_rejects (h t) w) ->
  always_rejects (try_catch m h) w.
Proof.
  intros Hm Hh s n. destruct (Hm s n) as [t Ht].
  unfold try_catch. rewrite Ht. cbn. apply Hh.
Qed.

(** A [catch] block that rethrows leaves the rejection in place. *)
Lemma always_rejects_rethrow {A} (m : M St A) w :
  always_rejects m w -> always_rejects (try_catch m (fun e => throw e)) w.
Proof.
  intros Hm. apply always_rejects_try_catch; [assumption|].
  intros t. apply always_rejects_throw.
Qed.

End Rejections.

Section RejectionsWithin.
Context {St : Type} (inv : St -> Prop).

(** [m] rejects from every state satisfying [inv]. *)
Definition rejects_within {A} (m : M St A) (w : World) : Prop :=
  forall s n, inv s -> rejected (outcome (m w s n)).

(** [m] leaves [inv] standing. *)
Definition keeps {A} (m : M St A) : Prop :=
  forall w s n, inv s -> inv (state (m w s n)).

Lemma rejects_within_always {A} (m : M St A) w :
  always_rejects m w -> rejects_within m w.
Proof. intros H s n _. apply H. Qed.

Lemma rejects_within_bind_l {A B} (m : M St A) (k : A -> M St B) w :
  rejects_within m w -> rejects_within (bind m k) w.
Proof.
  intros Hm s n Hs. destruct (Hm s n Hs) as [t Ht].
  exists t. unfold bind. rewrite Ht. reflexivity.
Qed.

Lemma rejects_within_bind_r {A B} (m : M St A) (k : A -> M St B) w :
  keeps m -> (forall a, rejects_within (k a) w) ->
  rejects_within (bind m k) w.
Proof.
  intros Hm Hk s n Hs. unfold bind.
  destruct (outcome (m w s n)) eqn:E; cbn.
  - apply Hk, Hm, Hs.
  - eexists. reflexivity.
Qed.

Lemma rejects_within_try_catch {A} (m : M St A) (h : Thrown -> M St A) w :
  rejects_within m w -> (forall t, always_rejects (h t) w) ->
  rejects_within (try_catch m h) w.
Proof.
  intros Hm Hh s n Hs. destruct (Hm s n Hs) as [t Ht].
  unfold try_catch. rewrite Ht. cbn. apply Hh.
Qed.

Lemma keeps_preserves {A} (m : M St A) :
  preserves (fun s => s) m -> keeps m.
Proof. intros H w s n Hs. rewrite H. exact Hs. Qed.

End RejectionsWithin.

Section Silence.
Context {St : Type}.

(** [m] attempts no remote call and invokes no collaborator. *)
Definition silent {A} (m : M St A) : Prop :=
  forall w s n, trace (m w s n) = [].

Lemma silent_ret {A} (a : A) : silent (ret a).
Proof. intros w s n. reflexivity. Qed.

Lemma silent_throw {A} t : silent (@throw St A t).
Proof. intros w s n. reflexivity. Qed.

Lemma silent_throwError {A} e : silent (@throwError St A e).
Proof. intros w s n. reflexivity. Qed.

Lemma silent_gets {A} (g : St -> A) : silent (gets g).
Proof. intros w s n. reflexivity. Qed.

Lemma silent_modify (g : St -> St) : silent (modify g).
Proof. intros w s n. reflexivity. Qed.

Lemma silent_now : silent (@now St).
Proof. intros w s n. reflexivity. Qed.

Lemma silent_random_base36 : silent (@random_base36 St).
Proof. intros w s n. reflexivity. Qed.

Lemma silent_stringify v : silent (@stringify St v).
Proof. intros w s n. reflexivity. Qed.

Lemma silent_url_parses v : silent (@url_parses St v).
Proof. intros w s n. reflexivity. Qed.

Lemma silent_of_sum {A} (r : JsError + A) : silent (@of_sum St A r).
Proof. intros w s n. destruct r; reflexivity. Qed.

Lemma silent_bind {A B} (m : M St A) (k : A -> M St B) :
  silent m -> (forall a, silent (k a)) -> silent (bind m k).
Proof.
  intros Hm Hk w s n. unfold bind.
  destruct (outcome (m w s n)); cbn; rewrite Hm; [apply Hk | reflexivity].
Qed.

Lemma silent_try_catch {A} (m : M St A) (h : Thrown -> M St A) :
  silent m -> (forall t, silent (h t)) -> silent (try_catch m h).
Proof.
  intros Hm Hh w s n. unfold try_catch.
  destruct (outcome (m w s n)); cbn; rewrite ?Hm; [reflexivity | apply Hh].
Qed.

Lemma silent_try_finally {A} (m : M St A) (fin : M St unit) :
  silent m -> silent fin -> silent (try_finally m fin).
Proof.
  intros Hm Hf w s n. unfold try_finally.
  destruct (outcome (fin w (state (m w s n)) (clock (m w s n))));
    cbn; rewrite Hm, Hf; reflexivity.
Qed.

Lemma trace_bind_silent {A B} (m : M St A) (k : A -> M St B) w s n :
  (forall a, silent (k a)) -> trace (bind m k w s n) = trace (m w s n).
Proof.
  intros Hk. unfold bind. destruct (outcome (m w s n)); cbn; [|reflexivity].
  rewrite Hk. apply app_nil_r.
Qed.

Lemma trace_try_catch_silent {A} (m : M St A) h w s n :
  (forall t, silent (h t)) -> trace (try_catch m h w s n) = trace (m w s n).
Proof.
  intros Hh. unfold try_catch. destruct (outcome (m w s n)); cbn; [reflexivity|].
  rewrite Hh. apply app_nil_r.
Qed.

Lemma trace_try_finally_silent {A} (m : M St A) fin w s n :
  silent fin -> trace (try_finally m fin w s n) = trace (m w s n).
Proof.
  intros Hf. unfold try_finally.
  destruct (outcome (fin w (state (m w s n)) (clock (m w s n))));
    cbn; rewrite Hf; apply app_nil_r.
Qed.

End Silence.

Ltac silent_step :=
  cbv beta zeta;
  lazymatch goal with
  | |- silent (bind _ _) => apply silent_bind; [|intros ?]
  | |- silent (try_catch _ _) => apply silent_try_catch; [|intros ?]
  | |- silent (try_finally _ _) => apply silent_try_finally
  | |- silent (ret _) => apply silent_ret
  | |- silent (throw _) => apply silent_throw
  | |- silent (throwError _) => apply silent_throwError
  | |- silent (gets _) => apply silent_gets
  | |- silent (modify _) => apply silent_modify
  | |- silent now => apply silent_now
  | |- silent random_base36 => apply silent_random_base36
  | |- silent (stringify _) => apply silent_stringify
  | |- silent (url_parses _) => apply silent_url_parses
  | |- silent (of_sum _) => apply silent_of_sum
  | |- silent (match ?x with _ => _ end) => destruct x
  end.

Ltac quiet := repeat silent_step.

(** Every ad-search call of the SDK client fails in [w]. *)
Definition mcp_search_throws (w : World) : Prop :=
  forall n url queries creator conversation,
    exists t, MCPClient_searchContentAds w n url queries creator conversation
              = inl t.

Lemma do_searchContentAds_rejects {St} w url queries creator conversation :
  mcp_search_throws w ->
  always_rejects (@do_searchContentAds St url queries creator conversation) w.
Proof.
  intros H s n. destruct (H n url queries creator conversation) as [t Ht].
  exists t. unfold do_searchContentAds. cbn. rewrite Ht. reflexivity.
Qed.


Section Runs.
Context {St : Type}.

Lemma bind_ret {A B} (a : A) (k : A -> M St B) w s n :
  bind (ret a) k w s n = k a w s n.
Proof. unfold bind, ret. cbn. destruct (k a w s n); reflexivity. Qed.

Lemma bind_gets {A B} (g : St -> A) (k : A -> M St B) w s n :
  bind (gets g) k w s n = k (g s) w s n.
Proof. unfold bind, gets. cbn. destruct (k (g s) w s n); reflexivity. Qed.

Lemma bind_modify {B} (g : St -> St) (k : unit -> M St B) w s n :
  bind (modify g) k w s n = k tt w (g s) n.
Proof. unfold bind, modify. cbn. destruct (k tt w (g s) n); reflexivity. Qed.

Lemma bind_now {B} (k : Z -> M St B) w s n :
  bind now k w s n = k (Date_now w n) w s (S n).
Proof.
  unfold bind, now. cbn. destruct (k (Date_now w n) w s (S n)); reflexivity.
Qed.

Lemma bind_random_base36 {B} (k : string -> M St B) w s n :
  bind random_base36 k w s n = k (Math_random_base36 w n) w s (S n).
Proof.
  unfold bind, random_base36. cbn.
  destruct (k (Math_random_base36 w n) w s (S n)); reflexivity.
Qed.

Lemma bind_throw {A B} t (k : A -> M St B) w s n :
  bind (throw t) k w s n = mkRes (Rejected t) s n [].
Proof. reflexivity. Qed.

Lemma bind_throwError {A B} e (k : A -> M St B) w s n :
  bind (throwError e) k w s n = mkRes (Rejected (ThrowError e)) s n [].
Proof. reflexivity. Qed.

Lemma bind_emit {B} e (k : unit -> M St B) w s n :
  bind (emit e) k w s n
  = mkRes (outcome (k tt w s n)) (state (k tt w s n)) (clock (k tt w s n))
          (e :: trace (k tt w s n)).
Proof. reflexivity. Qed.

Lemma bind_pure {A B} (m : M St A) (k : A -> M St B) w s n a :
  m w s n = mkRes (Resolved a) s n [] -> bind m k w s n = k a w s n.
Proof.
  intros H. unfold bind. rewrite H. cbn. destruct (k a w s n); reflexivity.
Qed.

Lemma bind_do_fetch_inl {B} url req (k : Remote.Response -> M St B)
    w s n e :
  fetch w n url req = inl e ->
  bind (do_fetch url req) k w s n
  = mkRes (Rejected (ThrowError e)) s (S n) [EFetch url req].
Proof. intros H. unfold bind, do_fetch. cbn. rewrite H. reflexivity. Qed.

Lemma bind_do_fetch_inr {B} url req (k : Remote.Response -> M St B)
    w s n r :
  fetch w n url req = inr r ->
  bind (do_fetch url req) k w s n
  = mkRes (outcome (k r w s (S n))) (state (k r w s (S n)))
          (clock (k r w s (S n))) (EFetch url req :: trace (k r w s (S n))).
Proof. intros H. unfold bind, do_fetch. cbn. rewrite H. reflexivity. Qed.

Lemma try_catch_eq_rejected {A} (m : M St A) h w s n t s' n' tr :
  m w s n = mkRes (Rejected t) s' n' tr ->
  try_catch m h w s n
  = mkRes (outcome (h t w s' n')) (state (h t w s' n'))
          (clock (h t w s' n')) (tr ++ trace (h t w s' n')).
Proof. intros H. unfold try_catch. rewrite H. reflexivity. Qed.

Lemma try_catch_eq_resolved {A} (m : M St A) h w s n a s' n' tr :
  m w s n = mkRes (Resolved a) s' n' tr ->
  try_catch m h w s n = mkRes (Resolved a) s' n' tr.
Proof. intros H. unfold try_catch. rewrite H. reflexivity. Qed.

Lemma bind_eq_resolved {A B} (m : M St A) (k : A -> M St B)
    w s n a s' n' tr :
  m w s n = mkRes (Resolved a) s' n' tr ->
  bind m k w s n
  = mkRes (outcome (k a w s' n')) (state (k a w s' n'))
          (clock (k a w s' n')) (tr ++ trace (k a w s' n')).
Proof. intros H. unfold bind. rewrite H. reflexivity. Qed.

Lemma bind_eq_rejected {A B} (m : M St A) (k : A -> M St B)
    w s n t s' n' tr :
  m w s n = mkRes (Rejected t) s' n' tr ->
  bind m k w s n = mkRes (Rejected t) s' n' tr.
Proof. intros H. unfold bind. rewrite H. reflexivity. Qed.

Lemma bind_resolved {A B} (m : M St A) (k : A -> M St B) w s n a :
  outcome (m w s n) = Resolved a ->
  bind m k w s n
  = let r := m w s n in
    let r' := k a w (state r) (clock r) in
    mkRes (outcome r') (state r') (clock r') (trace r ++ trace r').
Proof. intros H. unfold bind. rewrite H. reflexivity. Qed.

Lemma bind_rejected {A B} (m : M St A) (k : A -> M St B) w s n t :
  outcome (m w s n) = Rejected t ->
  bind m k w s n
  = let r := m w s n in mkRes (Rejected t) (state r) (clock r) (trace r).
Proof. intros H. unfold bind. rewrite H. reflexivity. Qed.

Lemma try_catch_resolved {A} (m : M St A) h w s n a :
  outcome (m w s n) = Resolved a -> try_catch m h w s n = m w s n.
Proof. intros H. unfold try_catch. rewrite H. reflexivity. Qed.

Lemma try_catch_rejected {A} (m : M St A) h w s n t :
  outcome (m w s n) = Rejected t ->
  try_catch m h w s n
  = let r := m w s n in
    let r' := h t w (state r) (clock r) in
    mkRes (outcome r') (state r') (clock r') (trace r ++ trace r').
Proof. intros H. unfold try_catch. rewrite H. reflexivity. Qed.

Lemma try_catch_bind_rejected {A B} (m : M St A) (k : A -> M St B) h
    w s n t :
  outcome (m w s n) = Rejected t ->
  try_catch (bind m k) h w s n
  = let r := m w s n in
    let r' := h t w (state r) (clock r) in
    mkRes (outcome r') (state r') (clock r') (trace r ++ trace r').
Proof.
  intros H. unfold try_catch, bind. rewrite H. reflexivity.
Qed.

Lemma try_catch_bind_resolved {A B} (m : M St A) (k : A -> M St B) h
    w s n a :
  outcome (m w s n) = Resolved a ->
  try_catch (bind m k) h w s n
  = let r := m w s n in
    let r' := try_catch (k a) h w (state r) (clock r) in
    mkRes (outcome r') (state r') (clock r') (trace r ++ trace r').
Proof.
  intros H. unfold try_catch, bind. rewrite H. cbn.
  destruct (outcome (k a w (state (m w s n)) (clock (m w s n)))) eqn:E;
    cbn; rewrite ?E; [reflexivity|].
  rewrite app_assoc. reflexivity.
Qed.

Lemma try_finally_modify {A} (m : M St A) (g : St -> St) w s n :
  try_finally m (modify g) w s n
  = mkRes (outcome (m w s n)) (g (state (m w s n))) (clock (m w s n))
          (trace (m w s n) ++ []).
Proof. reflexivity. Qed.

(** The state a computation ends in, seen through [f], when everything
    after its first step leaves [f] alone. *)
Lemma state_bind_frame {A B T} (f : St -> T) (m : M St A)
    (k : A -> M St B) w s n :
  (forall a, preserves f (k a)) ->
  f (state (bind m k w s n)) = f (state (m w s n)).
Proof.
  intros Hk. unfold bind. destruct (outcome (m w s n)); cbn; [|reflexivity].
  apply Hk.
Qed.

Lemma state_try_catch_frame {A T} (f : St -> T) (m : M St A) h w s n :
  (forall t, preserves f (h t)) ->
  f (state (try_catch m h w s n)) = f (state (m w s n)).
Proof.
  intros Hh. unfold try_catch. destruct (outcome (m w s n)); cbn.
  - reflexivity.
  - apply Hh.
Qed.

End Runs.

Ltac frame_step :=
  cbv beta zeta;
  lazymatch goal with
  | |- preserves _ (bind _ _) => apply preserves_bind; [|intros ?]
  | |- preserves _ (try_catch _ _) => apply preserves_try_catch; [|intros ?]
  | |- preserves _ (try_finally _ _) => apply preserves_try_finally
  | |- preserves _ (ret _) => apply preserves_ret
  | |- preserves _ (throw _) => apply preserves_throw
  | |- preserves _ (throwError _) => apply preserves_throwError
  | |- preserves _ (gets _) => apply preserves_gets
  | |- preserves _ (emit _) => apply preserves_emit
  | |- preserves _ now => apply preserves_now
  | |- preserves _ random_base36 => apply preserves_random_base36
  | |- preserves _ (stringify _) => apply preserves_stringify
  | |- preserves _ (url_parses _) => apply preserves_url_parses
  | |- preserves _ (do_fetch _ _) => apply preserves_do_fetch
  | |- preserves _ (do_searchContentAds _ _ _ _) =>
      apply preserves_do_searchContentAds
  | |- preserves _ (of_sum _) => apply preserves_of_sum
  | |- preserves _ (modify _) =>
      apply preserves_modify; intros; try reflexivity
  | |- preserves _ (match ?x with _ => _ end) => destruct x
  end.

Create HintDb frame.

Ltac frame := repeat frame_step; eauto with frame.

(* ===================================================================== *)
(** * Strings and the UUID pattern *)
(* ===================================================================== *)

Lemma trimStart_whitespace_only s :
  whitespace_only s = true -> trimStart s = EmptyString.
Proof.
  induction s as [|c r IH]; simpl; [reflexivity|].
  intros H. apply andb_true_iff in H as [Hc Hr]. rewrite Hc. auto.
Qed.

Lemma trimStart_empty_inv s :
  trimStart s = EmptyString -> whitespace_only s = true.
Proof.
  induction s as [|c r IH]; simpl; [reflexivity|].
  destruct (is_whitespace c); [auto | discriminate].
Qed.

Lemma whitespace_only_trimStart s :
  whitespace_only (trimStart s) = true -> whitespace_only s = true.
Proof.
  induction s as [|c r IH]; simpl; [reflexivity|].
  destruct (is_whitespace c) eqn:E; simpl.
  - exact IH.
  - rewrite E. discriminate.
Qed.

Lemma whitespace_only_rev_app s acc :
  whitespace_only (string_rev_app s acc)
  = whitespace_only s && whitespace_only acc.
Proof.
  revert acc. induction s as [|c r IH]; intros acc; simpl; [reflexivity|].
  rewrite IH. simpl.
  destruct (is_whitespace c), (whitespace_only r), (whitespace_only acc);
    reflexivity.
Qed.

Lemma string_rev_app_empty_inv s acc :
  string_rev_app s acc = EmptyString -> s = EmptyString /\ acc = EmptyString.
Proof.
  revert acc. induction s as [|c r IH]; intros acc; simpl; [auto|].
  intros H. apply IH in H as [_ H]. discriminate.
Qed.

(** [trim] leaves nothing exactly when the string is white space only. *)
Lemma trim_empty_iff s :
  trim s = EmptyString <-> whitespace_only s = true.
Proof.
  split.
  - unfold trim, trimEnd, string_rev. intros H.
    apply string_rev_app_empty_inv in H as [H _].
    apply trimStart_empty_inv in H.
    rewrite whitespace_only_rev_app in H.
    apply andb_true_iff in H as [H _].
    apply whitespace_only_trimStart. exact H.
  - intros H. unfold trim. rewrite (trimStart_whitespace_only s H).
    reflexivity.
Qed.

Lemma content_empty_iff s :
  BaseAIProvider.content_empty s = true <-> whitespace_only s = true.
Proof.
  unfold BaseAIProvider.content_empty. split.
  - intros H. apply orb_true_iff in H as [H | H].
    + destruct s; [reflexivity | discriminate].
    + apply trim_empty_iff. apply Nat.eqb_eq in H.
      destruct (trim s); [reflexivity | discriminate].
  - intros H. apply trim_empty_iff in H. rewrite H. apply orb_true_r.
Qed.

Lemma append_cons c s r : String c s +:+ r = String c (s +:+ r).
Proof. reflexivity. Qed.

Lemma append_empty_r s : s +:+ EmptyString = s.
Proof.
  induction s as [|c s IH]; [reflexivity|].
  rewrite append_cons, IH. reflexivity.
Qed.

Lemma match_hex_sound n : forall s r,
  match_hex n s = Some r ->
  exists a, s = a +:+ r /\ String.length a = n /\ all_hex a = true.
Proof.
  induction n as [|n IH]; intros s r H; simpl in H.
  - inversion H; subst. exists EmptyString. auto.
  - destruct s as [|c s']; [discriminate|].
    destruct (is_hex c) eqn:Hc; [|discriminate].
    apply IH in H as (a & -> & Hl & Ha).
    exists (String c a). rewrite append_cons. simpl. rewrite Hc, Ha, Hl. auto.
Qed.

Lemma match_hex_complete a : forall r,
  all_hex a = true -> match_hex (String.length a) (a +:+ r) = Some r.
Proof.
  induction a as [|c a IH]; intros r H; [reflexivity|].
  simpl in H. apply andb_true_iff in H as [Hc Ha].
  rewrite append_cons. simpl. rewrite Hc. apply IH, Ha.
Qed.

(** The regular expression accepts exactly the canonical UUID shape. *)
Lemma uuidRegex_test_spec s :
  uuidRegex_test s = true <-> canonical_uuid s.
Proof.
  unfold uuidRegex_test, canonical_uuid. split.
  - cbn [match_groups]. intros H.
    destruct (match_hex 8 s) as [[|x1 r1]|] eqn:E1; try discriminate.
    destruct (Ascii.eqb_spec x1 "-"); [subst x1 | ].
    2:{ destruct x1 as [[] [] [] [] [] [] [] []]; try discriminate; congruence. }
    destruct (match_hex 4 r1) as [[|x2 r2]|] eqn:E2;
      try (destruct r1; discriminate); try discriminate.
    destruct (Ascii.eqb_spec x2 "-"); [subst x2 | ].
    2:{ destruct x2 as [[] [] [] [] [] [] [] []]; try discriminate; congruence. }
    destruct (match_hex 4 r2) as [[|x3 r3]|] eqn:E3; try discriminate.
    destruct (Ascii.eqb_spec x3 "-"); [subst x3 | ].
    2:{ destruct x3 as [[] [] [] [] [] [] [] []]; try discriminate; congruence. }
    destruct (match_hex 4 r3) as [[|x4 r4]|] eqn:E4; try discriminate.
    destruct (Ascii.eqb_spec x4 "-"); [subst x4 | ].
    2:{ destruct x4 as [[] [] [] [] [] [] [] []]; try discriminate; congruence. }
    destruct (match_hex 12 r4) as [[|x5 r5]|] eqn:E5; try discriminate.
    apply match_hex_sound in E1 as (a & -> & La & Ha).
    apply match_hex_sound in E2 as (b & -> & Lb & Hb).
    apply match_hex_sound in E3 as (c & -> & Lc & Hc).
    apply match_hex_sound in E4 as (d & -> & Ld & Hd).
    apply match_hex_sound in E5 as (e & Ee & Le & He).
    rewrite append_empty_r in Ee. subst r4.
    exists a, b, c, d, e. repeat split; assumption.
  - intros (a & b & c & d & e & -> & La & Lb & Lc & Ld & Le
            & Ha & Hb & Hc & Hd & He).
    cbn [match_groups].
    pose proof (fun r => match_hex_complete a r Ha) as Xa. rewrite La in Xa.
    pose proof (fun r => match_hex_complete b r Hb) as Xb. rewrite Lb in Xb.
    pose proof (fun r => match_hex_complete c r Hc) as Xc. rewrite Lc in Xc.
    pose proof (fun r => match_hex_complete d r Hd) as Xd. rewrite Ld in Xd.
    pose proof (match_hex_complete e EmptyString He) as Xe.
    rewrite Le, append_empty_r in Xe.
    rewrite Xa. change ("-" +:+ ?x) with (String "-" x). cbv beta iota.
    rewrite Xb. change ("-" +:+ ?x) with (String "-" x). cbv beta iota.
    rewrite Xc. change ("-" +:+ ?x) with (String "-" x). cbv beta iota.
    rewrite Xd. change ("-" +:+ ?x) with (String "-" x). cbv beta iota.
    rewrite Xe. reflexivity.
Qed.


(* ===================================================================== *)
(** * Inherited methods *)
(* ===================================================================== *)

Section BaseFrames.
Context {St T : Type} `{BaseAIProvider.Provider St} (f : St -> T).
Hypothesis f_metrics : forall m s, f (BaseAIProvider.set_metrics m s) = f s.

Lemma preserves_updateMetrics responseTime isError :
  preserves f (BaseAIProvider.updateMetrics responseTime isError).
Proof using f_metrics.
  unfold BaseAIProvider.updateMetrics. frame; apply f_metrics.
Qed.

Lemma preserves_handleError {A} error :
  preserves f (@BaseAIProvider.handleError St _ A error).
Proof using f_metrics.
  unfold BaseAIProvider.handleError. frame. apply preserves_updateMetrics.
Qed.

Lemma preserves_validateMessage message :
  preserves f (BaseAIProvider.validateMessage message).
Proof. unfold BaseAIProvider.validateMessage. frame. Qed.

Lemma preserves_getStatus : preserves f BaseAIProvider.getStatus.
Proof. unfold BaseAIProvider.getStatus. frame. Qed.

End BaseFrames.

Section BaseRuns.
Context {St : Type} `{BaseAIProvider.Provider St}.

Lemma updateMetrics_run responseTime isError w s n :
  outcome (BaseAIProvider.updateMetrics responseTime isError w s n)
  = Resolved tt
  /\ trace (BaseAIProvider.updateMetrics responseTime isError w s n) = [].
Proof. unfold BaseAIProvider.updateMetrics. destruct isError; cbn; auto. Qed.

Lemma handleError_run {A} error w s n :
  outcome (@BaseAIProvider.handleError St _ A error w s n)
  = Rejected (ThrowError error)
  /\ trace (@BaseAIProvider.handleError St _ A error w s n) = [].
Proof. unfold BaseAIProvider.handleError. cbn. auto. Qed.

Lemma handleError_always_rejects {A} error w :
  always_rejects (@BaseAIProvider.handleError St _ A error) w.
Proof. intros s n. eexists. apply handleError_run. Qed.

Lemma validateMessage_empty message :
  BaseAIProvider.content_empty (AIMessage.content message) = true ->
  @BaseAIProvider.validateMessage St message
  = throwError (MkError Error "Message content cannot be empty" None).
Proof. intros E. unfold BaseAIProvider.validateMessage. rewrite E. reflexivity. Qed.

Lemma validateMessage_ok message :
  BaseAIProvider.content_empty (AIMessage.content message) = false ->
  BaseAIProvider.role_valid (AIMessage.role message) = true ->
  @BaseAIProvider.validateMessage St message = ret tt.
Proof.
  intros E1 E2. unfold BaseAIProvider.validateMessage. rewrite E1, E2.
  reflexivity.
Qed.

(** The shape both adapters give [sendMessage]: a rejection inside the
    [try] block is counted in the metrics and thrown on unchanged. *)
Lemma guarded_rejected {A} (body : Z -> M St A) w s n t :
  outcome (body (Date_now w n) w s (S n)) = Rejected t ->
  trace (body (Date_now w n) w s (S n)) = [] ->
  let r := (let* startTime := now in
            try_catch (body startTime)
              (fun error =>
                 let* t2 := now in
                 BaseAIProvider.handleError (errorOrUnknown error))) w s n in
  outcome r = Rejected (ThrowError (errorOrUnknown t)) /\ trace r = [].
Proof.
  intros Ho Ht. cbv zeta. rewrite bind_now.
  rewrite (try_catch_rejected _ _ _ _ _ _ Ho). cbv zeta. cbn [outcome trace].
  rewrite Ht, bind_now.
  match goal with
  | |- context [BaseAIProvider.handleError ?e ?w' ?s' ?n'] =>
      destruct (handleError_run (A:=A) e w' s' n') as [-> ->]
  end.
  auto.
Qed.

Lemma silent_updateMetrics responseTime isError :
  silent (BaseAIProvider.updateMetrics responseTime isError).
Proof. unfold BaseAIProvider.updateMetrics. quiet. Qed.

Lemma silent_handleError {A} error :
  silent (@BaseAIProvider.handleError St _ A error).
Proof.
  unfold BaseAIProvider.handleError. quiet. apply silent_updateMetrics.
Qed.

Lemma silent_validateMessage message :
  silent (@BaseAIProvider.validateMessage St message).
Proof. unfold BaseAIProvider.validateMessage. quiet. Qed.

End BaseRuns.

(* ===================================================================== *)
(** * Tool-augmented agent adapter *)
(* ===================================================================== *)

Module ToolhouseFacts.
Import ToolhouseProvider.

Lemma history_set_metrics m s :
  conversationHistory (BaseAIProvider.set_metrics m s)
  = conversationHistory s.
Proof. reflexivity. Qed.

Lemma preserves_searchMCPContent message :
  preserves conversationHistory (searchMCPContent message).
Proof. unfold searchMCPContent. frame. Qed.

Lemma preserves_callToolhouseAgent message :
  preserves conversationHistory (callToolhouseAgent message).
Proof. unfold callToolhouseAgent, read_stream. frame. Qed.

Lemma preserves_generateAIResponse message mcpResponse :
  preserves conversationHistory (generateAIResponse message mcpResponse).
Proof.
  unfold generateAIResponse. frame. apply preserves_callToolhouseAgent.
Qed.

Lemma preserves_generateConversationId :
  preserves conversationHistory generateConversationId.
Proof. unfold generateConversationId. frame. Qed.

Lemma preserves_AIResponseEntity_create content conversationId source md :
  preserves conversationHistory (AIResponseEntity_create content conversationId source md).
Proof. unfold AIResponseEntity_create. frame. Qed.

(** Whether the session join key of [message] passes the two checks
    that precede the ad search. *)
Definition conversation_id_accepted (message : AIMessage.t) : bool :=
  truthy (metadata_conversationId message)
  && isValidConversationId
       (default EmptyString (metadata_conversationId message)).

Definition conversation_id_error (message : AIMessage.t) : JsError :=
  MkError Error
    (if truthy (metadata_conversationId message)
     then "Invalid conversation ID format"
     else "Conversation ID is required for MCP integration") None.

Lemma searchMCPContent_bad_id message w s n :
  conversation_id_accepted message = false ->
  initialized s = true ->
  searchMCPContent message w s n
  = mkRes (Rejected (ThrowError (conversation_id_error message))) s n [].
Proof.
  intros Hid Hs. unfold searchMCPContent. rewrite bind_gets.
  unfold initialized in Hs.
  destruct (toolhouseConfig s); [|discriminate].
  destruct (mcpClient s); [|discriminate].
  unfold conversation_id_accepted in Hid. unfold conversation_id_error.
  destruct (truthy (metadata_conversationId message)); cbn in Hid |- *.
  - rewrite Hid. reflexivity.
  - reflexivity.
Qed.

Lemma searchMCPContent_always_rejects message w :
  mcp_search_throws w -> always_rejects (searchMCPContent message) w.
Proof.
  intros Hw. unfold searchMCPContent.
  apply always_rejects_bind_r. intros [client|].
  - apply always_rejects_rethrow.
    destruct (negb (truthy _)); [apply always_rejects_throwError|].
    destruct (negb (isValidConversationId _));
      [apply always_rejects_throwError|].
    apply always_rejects_bind_l, do_searchContentAds_rejects, Hw.
  - apply always_rejects_throwError.
Qed.

(** Without a working ad search the adapter cannot answer. *)
Lemma sendMessage_always_rejects message w :
  mcp_search_throws w -> always_rejects (sendMessage message) w.
Proof.
  intros Hw. unfold sendMessage.
  apply always_rejects_bind_r. intros startTime.
  apply always_rejects_try_catch.
  - apply always_rejects_bind_r. intros _.
    apply always_rejects_bind_r. intros ready.
    destruct (negb ready); [apply always_rejects_throwError|].
    apply always_rejects_bind_r. intros _.
    apply always_rejects_bind_l, searchMCPContent_always_rejects, Hw.
  - intros t. apply always_rejects_bind_r. intros _.
    apply handleError_always_rejects.
Qed.

Lemma sendMessage_blank message w s n :
  whitespace_only (AIMessage.content message) = true ->
  let r := sendMessage message w s n in
  outcome r
  = Rejected (ThrowError (MkError Error "Message content cannot be empty" None))
  /\ trace r = []
  /\ getConversationHistory (state r) = getConversationHistory s.
Proof.
  intros Hc. apply content_empty_iff in Hc. cbv zeta.
  unfold sendMessage, getConversationHistory.
  rewrite (validateMessage_empty message Hc).
  match goal with
  | |- context [bind now (fun st => try_catch (@?b st) _)] =>
      destruct (guarded_rejected b w s n
                  (ThrowError (MkError Error "Message content cannot be empty" None))
                  eq_refl eq_refl) as [Ho Ht]
  end.
  split; [exact Ho | split; [exact Ht | reflexivity]].
Qed.

Lemma sendMessage_bad_id message w s n :
  BaseAIProvider.content_empty (AIMessage.content message) = false ->
  BaseAIProvider.role_valid (AIMessage.role message) = true ->
  initialized s = true ->
  conversation_id_accepted message = false ->
  let r := sendMessage message w s n in
  outcome r = Rejected (ThrowError (conversation_id_error message))
  /\ trace r = [].
Proof.
  intros Hc Hr Hs Hid. unfold sendMessage.
  rewrite (validateMessage_ok message Hc Hr).
  match goal with
  | |- context [bind now (fun st => try_catch (@?b st) _)] =>
      assert (Hb : b (Date_now w n) w s (S n)
                   = mkRes (Rejected (ThrowError (conversation_id_error message)))
                       (set_conversationHistory
                          (conversationHistory s ++ [message]) s) (S n) []);
      [ | apply (guarded_rejected b w s n
                   (ThrowError (conversation_id_error message)));
          rewrite Hb; reflexivity ]
  end.
  cbv beta.
  rewrite bind_ret, bind_gets, Hs. cbn [negb]. rewrite bind_modify.
  erewrite bind_rejected;
    rewrite searchMCPContent_bad_id; try reflexivity; assumption.
Qed.

Lemma sendMessage_history message w s n :
  BaseAIProvider.content_empty (AIMessage.content message) = false ->
  BaseAIProvider.role_valid (AIMessage.role message) = true ->
  initialized s = true ->
  getConversationHistory (state (sendMessage message w s n))
  = getConversationHistory s ++ [message].
Proof.
  intros Hc Hr Hs. unfold sendMessage, getConversationHistory.
  rewrite bind_now.
  rewrite (state_try_catch_frame conversationHistory).
  2:{ intros t. frame. apply preserves_handleError, history_set_metrics. }
  rewrite (validateMessage_ok message Hc Hr).
  rewrite bind_ret, bind_gets, Hs. cbn [negb].
  rewrite (state_bind_frame conversationHistory).
  - reflexivity.
  - intros _. frame.
    + apply preserves_searchMCPContent.
    + apply preserves_generateAIResponse.
    + apply preserves_updateMetrics, history_set_metrics.
    + apply preserves_generateConversationId.
    + apply preserves_AIResponseEntity_create.
Qed.

End ToolhouseFacts.


(* ===================================================================== *)
(** * Direct-completion adapter *)
(* ===================================================================== *)

Lemma slice_last_app_one {A} (n : nat) (l : list A) (x : A) :
  slice_last (S n) (l ++ [x]) = slice_last n l ++ [x].
Proof.
  unfold slice_last. rewrite length_app. cbn [length].
  replace (length l + 1 - S n)%nat with (length l - n)%nat by lia.
  rewrite drop_app_le by lia. reflexivity.
Qed.

Lemma slice_last_all {A} (n : nat) (l : list A) :
  (length l <= n)%nat -> slice_last n l = l.
Proof.
  intros H. unfold slice_last.
  replace (length l - n)%nat with 0%nat by lia. reflexivity.
Qed.

Lemma slice_last_length {A} (n : nat) (l : list A) :
  length (slice_last n l) = Nat.min n (length l).
Proof. unfold slice_last. rewrite length_drop. lia. Qed.

Lemma slice_last_In {A} (n : nat) (l : list A) (x : A) :
  In x (slice_last n l) -> In x l.
Proof.
  unfold slice_last. intros H.
  rewrite <- (take_drop (length l - n) l). apply in_or_app. right. exact H.
Qed.

Module OpenRouterFacts.
Import OpenRouterProvider.

Lemma sendMessage_blank_or message w s n :
  whitespace_only (AIMessage.content message) = true ->
  let r := sendMessage message w s n in
  outcome r
  = Rejected (ThrowError (MkError Error "Message content cannot be empty" None))
  /\ trace r = []
  /\ getConversationHistory (state r) = getConversationHistory s.
Proof.
  intros Hc. apply content_empty_iff in Hc. cbv zeta.
  unfold sendMessage, getConversationHistory.
  rewrite (validateMessage_empty message Hc).
  match goal with
  | |- context [bind now (fun st => try_catch (@?b st) _)] =>
      destruct (guarded_rejected b w s n
                  (ThrowError (MkError Error "Message content cannot be empty" None))
                  eq_refl eq_refl) as [Ho Ht]
  end.
  split; [exact Ho | split; [exact Ht | reflexivity]].
Qed.

(** The history the request is built from: the message is pushed, then
    the list is cut to its last 20 entries. *)
Definition window (h : list AIMessage.t) (message : AIMessage.t)
    : list AIMessage.t :=
  if Nat.ltb 20 (length (h ++ [message]))
  then slice_last 20 (h ++ [message]) else h ++ [message].

Lemma window_eq h message : window h message = slice_last 19 h ++ [message].
Proof.
  unfold window. rewrite slice_last_app_one.
  destruct (Nat.ltb_spec 20 (length (h ++ [message]))) as [H|H];
    [reflexivity|].
  rewrite length_app in H. cbn in H.
  rewrite slice_last_all by lia. reflexivity.
Qed.

Definition fresh_id (h : list AIMessage.t) (message : AIMessage.t) : Prop :=
  forall old, In old h -> AIMessage.id old <> AIMessage.id message.

Lemma filter_window h message :
  fresh_id h message ->
  List.filter (fun msg => negb (String.eqb (AIMessage.id msg)
                                  (AIMessage.id message)))
              (window h message)
  = slice_last 19 h.
Proof.
  intros Hf. rewrite window_eq, List.filter_app. cbn [List.filter].
  rewrite String.eqb_refl. cbn [negb]. rewrite app_nil_r.
  apply forallb_filter_id. apply forallb_forall. intros x Hx.
  apply negb_true_iff, String.eqb_neq, Hf, (slice_last_In 19), Hx.
Qed.

(** The messages array of the completion request. *)
Definition outgoing (h : list AIMessage.t) (message : AIMessage.t)
    : list ApiMessage.t :=
  (if Nat.eqb (length (window h message)) 0 then [system_instruction] else [])
  ++ map api_message
       (List.filter (fun msg => negb (String.eqb (AIMessage.id msg)
                                        (AIMessage.id message)))
                    (window h message))
  ++ [api_message message].

Definition request (cfg : OpenRouterConfig.t) (h : list AIMessage.t)
    (message : AIMessage.t) : Event :=
  EFetch (OpenRouterConfig.baseUrl cfg +:+ "/chat/completions")
    (Remote.ReqCompletion (OpenRouterConfig.apiKey cfg)
       (OpenRouterConfig.model cfg) (outgoing h message)
       (match OpenRouterConfig.temperature cfg with
        | Some temp => if Qeq_bool temp 0 then (7 # 10)%Q else temp
        | None => (7 # 10)%Q
        end)
       (match OpenRouterConfig.maxTokens cfg with
        | Some mt => if (mt =? 0)%Z then 1000%Z else mt
        | None => 1000%Z
        end)).

Lemma silent_error_detail response : silent (error_detail response).
Proof. unfold error_detail. quiet. Qed.

Lemma callOpenRouterAPI_trace message w s n cfg :
  openRouterConfig s = Some cfg ->
  trace (callOpenRouterAPI message w s n)
  = [EFetch (OpenRouterConfig.baseUrl cfg +:+ "/chat/completions")
       (Remote.ReqCompletion (OpenRouterConfig.apiKey cfg)
          (OpenRouterConfig.model cfg)
          ((if Nat.eqb (length (conversationHistory s)) 0
            then [system_instruction] else [])
           ++ map api_message
                (List.filter
                   (fun msg => negb (String.eqb (AIMessage.id msg)
                                       (AIMessage.id message)))
                   (conversationHistory s))
           ++ [api_message message])
          (match OpenRouterConfig.temperature cfg with
           | Some temp => if Qeq_bool temp 0 then (7 # 10)%Q else temp
           | None => (7 # 10)%Q
           end)
          (match OpenRouterConfig.maxTokens cfg with
           | Some mt => if (mt =? 0)%Z then 1000%Z else mt
           | None => 1000%Z
           end))].
Proof.
  intros Hcfg. unfold callOpenRouterAPI. rewrite bind_gets, Hcfg.
  erewrite bind_pure by reflexivity.
  rewrite trace_bind_silent; [reflexivity|].
  intros response. quiet. apply silent_error_detail.
Qed.

Lemma silent_after_call :
  silent generateMessageId /\ silent generateConversationId.
Proof. split; [unfold generateMessageId | unfold generateConversationId]; quiet. Qed.

(** A valid message sent through an initialised adapter causes exactly
    one remote call, the completion request built from the windowed
    history, whatever the remote end answers. *)
Lemma sendMessage_trace message w s n cfg :
  BaseAIProvider.content_empty (AIMessage.content message) = false ->
  BaseAIProvider.role_valid (AIMessage.role message) = true ->
  openRouterConfig s = Some cfg ->
  trace (sendMessage message w s n)
  = [request cfg (conversationHistory s) message].
Proof.
  intros Hc Hr Hcfg. unfold sendMessage. rewrite bind_now.
  rewrite trace_try_catch_silent.
  2:{ intros t. quiet. apply silent_handleError. }
  rewrite (validateMessage_ok message Hc Hr).
  rewrite bind_ret, bind_gets. unfold initialized at 1. rewrite Hcfg.
  cbn [negb]. rewrite !bind_modify.
  rewrite trace_bind_silent.
  2:{ intros response. quiet; try apply silent_after_call. }
  unfold request, outgoing, window.
  cbn [conversationHistory set_conversationHistory].
  destruct (Nat.ltb 20 (length (conversationHistory s ++ [message])));
    rewrite (callOpenRouterAPI_trace _ _ _ _ cfg) by exact Hcfg;
    reflexivity.
Qed.

Lemma outgoing_fresh h message :
  fresh_id h message ->
  outgoing h message
  = map api_message (slice_last 19 h) ++ [api_message message].
Proof.
  intros Hf. unfold outgoing. rewrite (filter_window h message Hf).
  rewrite window_eq, length_app. cbn [length].
  replace (Nat.eqb (length (slice_last 19 h) + 1) 0) with false
    by (symmetry; apply Nat.eqb_neq; lia).
  reflexivity.
Qed.

End OpenRouterFacts.


(* ===================================================================== *)
(** * Ad search component *)
(* ===================================================================== *)

Lemma slice_last_app_ge {A} (n : nat) (l1 l2 : list A) :
  (n <= length l2)%nat -> slice_last n (l1 ++ l2) = slice_last n l2.
Proof.
  intros H. unfold slice_last. rewrite length_app.
  rewrite drop_app_ge by lia. f_equal. lia.
Qed.

Lemma slice_last_slice_last_app {A} (n : nat) (l1 l2 : list A) :
  slice_last n (slice_last n l1 ++ l2) = slice_last n (l1 ++ l2).
Proof.
  destruct (Nat.le_gt_cases n (length l2)) as [H|H].
  - rewrite !slice_last_app_ge by exact H. reflexivity.
  - unfold slice_last. rewrite !length_app, length_drop.
    rewrite !drop_app_le by (rewrite ?length_drop; lia).
    rewrite drop_drop. f_equal. f_equal. lia.
Qed.

Module AdSearchFacts.
Import useAdSearch.

(** The ways the remote query of [SearchAdsUseCase.execute] fails, each
    with the error raised inside the [try] block. *)
Inductive query_fails : JsError + Remote.Response -> JsError -> Prop :=
| network_failure e : query_fails (inl e) e
| error_status r :
    Remote.ok r = false ->
    query_fails (inr r)
      (MkError Error
         ("MCP server responded with " +:+ pretty (Remote.status r)
          +:+ ": " +:+ Remote.statusText r) None)
| unreadable_body r e :
    Remote.ok r = true -> Remote.json r = inl e -> query_fails (inr r) e
| null_body r :
    Remote.ok r = true -> Remote.json r = inr Remote.JsonNull ->
    query_fails (inr r)
      (MkError TypeError
         "Cannot read properties of null (reading 'results')" None).

Definition search_request (useCase : SearchAdsUseCase.t)
    (queries : list string) (conversationId : option string)
    : Remote.Request :=
  Remote.ReqSearchAds (SearchAdsUseCase.apiKey useCase) queries
    (SearchAdsUseCase.creatorId useCase) conversationId.

Lemma preserves_execute {St} useCase queries conversationId :
  preserves (fun s : St => s)
    (SearchAdsUseCase.execute useCase queries conversationId).
Proof. unfold SearchAdsUseCase.execute. frame. Qed.

Lemma execute_fails {St} useCase queries conversationId w (s : St) n cause :
  query_fails
    (fetch w (S n) (SearchAdsUseCase.mcpUrl useCase)
       (search_request useCase queries conversationId)) cause ->
  outcome (SearchAdsUseCase.execute useCase queries conversationId w s n)
  = Rejected
      (ThrowError
         (newAdSearchError ("Failed to search ads: " +:+ err_message cause)
            (Some cause))).
Proof.
  unfold search_request. intros H.
  unfold SearchAdsUseCase.execute. rewrite bind_now.
  remember (fetch w (S n) (SearchAdsUseCase.mcpUrl useCase)
              (Remote.ReqSearchAds (SearchAdsUseCase.apiKey useCase) queries
                 (SearchAdsUseCase.creatorId useCase) conversationId)) as fr
    eqn:Hfr.
  symmetry in Hfr.
  destruct H as [e | r Hok | r e Hok Hj | r Hok Hj].
  - rewrite try_catch_bind_rejected with (t := ThrowError e)
      by (cbn; rewrite Hfr; reflexivity).
    cbv zeta. rewrite bind_now. reflexivity.
  - rewrite try_catch_bind_resolved with (a := r)
      by (cbn; rewrite Hfr; reflexivity).
    cbv zeta. rewrite Hok. cbn [negb].
    erewrite try_catch_rejected by reflexivity.
    cbv zeta. rewrite bind_now. reflexivity.
  - rewrite try_catch_bind_resolved with (a := r)
      by (cbn; rewrite Hfr; reflexivity).
    cbv zeta. rewrite Hok, Hj. cbn [negb of_sum].
    erewrite try_catch_rejected by reflexivity.
    cbv zeta. rewrite bind_now. reflexivity.
  - rewrite try_catch_bind_resolved with (a := r)
      by (cbn; rewrite Hfr; reflexivity).
    cbv zeta. rewrite Hok, Hj. cbn [negb of_sum].
    rewrite try_catch_bind_resolved with (a := Remote.JsonNull)
      by reflexivity.
    cbv zeta. cbn [ret state clock].
    rewrite try_catch_bind_resolved with (a := Date_now w (S (S n)))
      by reflexivity.
    cbv zeta.
    erewrite try_catch_rejected by reflexivity.
    cbv zeta. rewrite bind_now. reflexivity.
Qed.

(** The conversation the query is made for:
    [options?.conversationId || conversationId]. *)
Definition searchConversationId (conversationId options : option string)
    : option string :=
  if truthy options then options else conversationId.

(** [searchAds] once the use case is known to exist, over the query it
    makes. *)
Definition searchAds_with (exec : M t AdSearchResult.t)
    : M t AdSearchResult.t :=
  do modify (setIsLoading true) then
  do modify (setError None) then
  try_finally
    (try_catch
       (let* result := exec in
        do modify (setAds (AdSearchResult.ads result)) then
        do modify (setLastSearchResult (Some result)) then
        do modify (setSearchHistory
                     (fun prev => slice_last 9 prev ++ [result])) then
        ret result)
       (fun err =>
          do modify (setError (Some (messageOr err "Ad search failed"))) then
          throw err))
    (modify (setIsLoading false)).

Lemma searchAds_unfold conversationId queries options w s n :
  searchAds conversationId queries options w s n
  = match searchUseCaseRef s with
    | Some useCase =>
        searchAds_with
          (SearchAdsUseCase.execute useCase queries
             (searchConversationId conversationId options)) w s n
    | None =>
        mkRes (Rejected (ThrowError
                 (MkError Error "Ad search use case not initialized" None)))
              s n []
    end.
Proof.
  unfold searchAds. rewrite bind_gets.
  destruct (searchUseCaseRef s); reflexivity.
Qed.

Section WithQuery.
Variable exec : M t AdSearchResult.t.
Hypothesis exec_state : forall w s n, state (exec w s n) = s.

Lemma searchAds_with_rejected w s n cause :
  (forall s0, outcome (exec w s0 n) = Rejected cause) ->
  let r := searchAds_with exec w s n in
  outcome r = Rejected cause
  /\ ads (state r) = ads s
  /\ searchHistory (state r) = searchHistory s
  /\ lastSearchResult (state r) = lastSearchResult s.
Proof using exec_state.
  intros He. cbv zeta. unfold searchAds_with.
  rewrite !bind_modify, try_finally_modify.
  cbn [outcome state].
  rewrite (try_catch_bind_rejected _ _ _ _ _ _ _ (He _)). cbv zeta.
  rewrite bind_modify. cbn [throw outcome state].
  rewrite exec_state. auto.
Qed.

Lemma searchAds_with_resolved w s n result :
  outcome (searchAds_with exec w s n) = Resolved result ->
  let s' := state (searchAds_with exec w s n) in
  searchHistory s' = slice_last 9 (searchHistory s) ++ [result]
  /\ ads s' = AdSearchResult.ads result
  /\ lastSearchResult s' = Some result.
Proof using exec_state.
  cbv zeta. unfold searchAds_with.
  rewrite !bind_modify, try_finally_modify. cbn [outcome state].
  destruct (outcome (exec w (setError None (setIsLoading true s)) n))
    as [res|t] eqn:He.
  - rewrite (try_catch_bind_resolved _ _ _ _ _ _ _ He). cbv zeta.
    cbn [outcome state]. rewrite exec_state.
    rewrite try_catch_resolved with (a := res)
      by (rewrite !bind_modify; reflexivity).
    rewrite !bind_modify. cbn [ret outcome state].
    intros H. inversion H; subst. auto.
  - rewrite (try_catch_bind_rejected _ _ _ _ _ _ _ He). cbv zeta.
    rewrite bind_modify. cbn [throw outcome]. discriminate.
Qed.

End WithQuery.

Lemma searchAds_fails conversationId queries options w s n useCase cause :
  searchUseCaseRef s = Some useCase ->
  query_fails
    (fetch w (S n) (SearchAdsUseCase.mcpUrl useCase)
       (search_request useCase queries
          (searchConversationId conversationId options))) cause ->
  let r := searchAds conversationId queries options w s n in
  outcome r
  = Rejected
      (ThrowError
         (newAdSearchError ("Failed to search ads: " +:+ err_message cause)
            (Some cause)))
  /\ ads (state r) = ads s
  /\ searchHistory (state r) = searchHistory s
  /\ lastSearchResult (state r) = lastSearchResult s.
Proof.
  intros Href Hq. cbv zeta. rewrite searchAds_unfold, Href.
  apply searchAds_with_rejected.
  - apply (preserves_execute (St:=t)).
  - intros s0. apply execute_fails, Hq.
Qed.

Lemma searchAds_succeeds conversationId queries options w s n result :
  outcome (searchAds conversationId queries options w s n) = Resolved result ->
  let s' := state (searchAds conversationId queries options w s n) in
  searchHistory s' = slice_last 9 (searchHistory s) ++ [result]
  /\ ads s' = AdSearchResult.ads result
  /\ lastSearchResult s' = Some result.
Proof.
  cbv zeta. rewrite searchAds_unfold.
  destruct (searchUseCaseRef s) as [useCase|]; [|discriminate].
  apply searchAds_with_resolved. apply (preserves_execute (St:=t)).
Qed.

(** A run of searches, each awaited before the next is issued. *)
Fixpoint searchAds_many (conversationId : option string)
    (calls : list (list string * option string))
    : M t (list AdSearchResult.t) :=
  match calls with
  | [] => ret []
  | (queries, options) :: rest =>
      let* result := searchAds conversationId queries options in
      let* results := searchAds_many conversationId rest in
      ret (result :: results)
  end.

Lemma searchAds_many_history conversationId calls : forall w s n results,
  outcome (searchAds_many conversationId calls w s n) = Resolved results ->
  length results = length calls
  /\ (calls <> [] ->
      searchHistory (state (searchAds_many conversationId calls w s n))
      = slice_last 10 (searchHistory s ++ results)).
Proof.
  induction calls as [|[queries options] rest IH]; intros w s n results H.
  - cbn in H. inversion H; subst. split; [reflexivity | congruence].
  - cbn [searchAds_many] in *.
    destruct (outcome (searchAds conversationId queries options w s n))
      as [result|t] eqn:E1.
    2:{ erewrite bind_rejected in H by exact E1. discriminate. }
    erewrite bind_resolved in H |- * by exact E1. cbv zeta in H |- *.
    cbn [outcome state] in H |- *.
    set (s1 := state (searchAds conversationId queries options w s n)) in *.
    set (n1 := clock (searchAds conversationId queries options w s n)) in *.
    destruct (outcome (searchAds_many conversationId rest w s1 n1))
      as [results'|t] eqn:E2.
    2:{ erewrite bind_rejected in H by exact E2. discriminate. }
    erewrite bind_resolved in H |- * by exact E2. cbv zeta in H |- *.
    cbn [ret outcome state] in H |- *. inversion H; subst results.
    destruct (IH w s1 n1 results' E2) as [Hlen Hhist].
    split; [cbn; congruence | intros _].
    destruct (searchAds_succeeds _ _ _ _ _ _ _ E1) as (Hh & _ & _).
    fold s1 in Hh.
    destruct rest as [|call rest'].
    + cbn in E2. inversion E2; subst results'. cbn [searchAds_many ret state].
      rewrite Hh. rewrite <- slice_last_app_one. reflexivity.
    + rewrite Hhist by discriminate. rewrite Hh.
      rewrite <- slice_last_app_one.
      rewrite slice_last_slice_last_app.
      rewrite <- app_assoc. reflexivity.
Qed.

End AdSearchFacts.


(* ===================================================================== *)
(** * Conversation session manager *)
(* ===================================================================== *)

Module ConversationFacts.
Import InitializeConversationUseCase.

(** The body of a successful backend answer, if there is one and it is
    not [null]. *)
Definition backend_answer (fr : JsError + Remote.Response)
    : option Remote.Json :=
  match fr with
  | inl _ => None
  | inr r =>
      if Remote.ok r then
        match Remote.json r with
        | inr j => if Remote.is_null j then None else Some j
        | inl _ => None
        end
      else None
  end.

(** [body.conversation_id] of a body that is not [null] *)
Definition answer_id (body : Remote.Json) : jsval :=
  match Remote.props body with
  | Some o => Remote.conversation_id o
  | None => VUndefined
  end.

(** The identifier [generateConversationId] builds at time [n]. *)
Definition local_id (w : World) (n : nat) : string :=
  "conv_" +:+ pretty (Date_now w n) +:+ "_" +:+ Math_random_base36 w (S n).

Lemma generateConversationId_run {St} w (s : St) n :
  generateConversationId w s n
  = mkRes (Resolved (local_id w n)) s (S (S n)) [].
Proof.
  unfold generateConversationId.
  rewrite bind_now, bind_random_base36. reflexivity.
Qed.


(** The request [initializeWithBackend] sends when started at time [n]. *)
Definition init_request (this : t) (config : ConversationInitConfig.t)
    (w : World) (n : nat) : Remote.Request :=
  Remote.ReqInitConversation (local_id w n) (creatorId this)
    (ConversationInitConfig.ad_preferences config)
    (ConversationInitConfig.context config).

Definition init_url (this : t) : string :=
  baseUrl this +:+ "/api/conversations/initialize".

Lemma initializeWithBackend_run {St} this config w (s : St) n :
  initializeWithBackend this config w s n
  = mkRes
      (match fetch w (S (S n)) (init_url this)
               (init_request this config w n) with
       | inl e => Rejected (ThrowError e)
       | inr r =>
           if Remote.ok r then
             match Remote.json r with
             | inl e => Rejected (ThrowError e)
             | inr j => Resolved j
             end
           else
             Rejected
               (ThrowError
                  (MkError Error
                     ("Backend responded with " +:+ pretty (Remote.status r)
                      +:+ ": " +:+ Remote.statusText r) None))
       end)
      s (S (S (S n))) [EFetch (init_url this) (init_request this config w n)].
Proof.
  unfold initializeWithBackend. fold (init_url this).
  erewrite bind_eq_resolved by apply generateConversationId_run.
  cbn [app]. fold (local_id w n). fold (init_request this config w n).
  destruct (fetch w (S (S n)) (init_url this) (init_request this config w n))
    as [e | r] eqn:Hfr.
  - rewrite (bind_do_fetch_inl _ _ _ _ _ _ _ Hfr). reflexivity.
  - rewrite (bind_do_fetch_inr _ _ _ _ _ _ _ Hfr).
    destruct (Remote.ok r); cbn [negb]; [|reflexivity].
    destruct (Remote.json r); reflexivity.
Qed.

Lemma backend_or_local_run {St} this config w (s : St) n :
  let fr := fetch w (S (S n)) (init_url this) (init_request this config w n) in
  exists n',
    backend_or_local this config w s n
    = mkRes (Resolved
               (match backend_answer fr with
                | Some body => (body, answer_id body)
                | None =>
                    (Remote.JsonNull, VString (local_id w (S (S (S n)))))
                end))
            s n' [EFetch (init_url this) (init_request this config w n)].
Proof.
  cbv zeta. unfold backend_or_local.
  pose proof (initializeWithBackend_run this config w s n) as Hrun.
  set (backend := initializeWithBackend this config) in *. clearbody backend.
  unfold backend_answer.
  destruct (fetch w (S (S n)) (init_url this) (init_request this config w n))
    as [e | r].
  - eexists. erewrite try_catch_eq_rejected
      by (erewrite bind_eq_rejected by exact Hrun; reflexivity).
    erewrite bind_eq_resolved by apply generateConversationId_run.
    reflexivity.
  - destruct (Remote.ok r).
    + destruct (Remote.json r) as [e | body].
      * eexists. erewrite try_catch_eq_rejected
          by (erewrite bind_eq_rejected by exact Hrun; reflexivity).
        erewrite bind_eq_resolved by apply generateConversationId_run.
        reflexivity.
      * destruct body;
          try (eexists; erewrite try_catch_eq_resolved
                 by (erewrite bind_eq_resolved by exact Hrun; reflexivity);
               reflexivity).
        eexists. erewrite try_catch_eq_rejected
          by (erewrite bind_eq_resolved by exact Hrun; reflexivity).
        erewrite bind_eq_resolved by apply generateConversationId_run.
        reflexivity.
    + eexists. erewrite try_catch_eq_rejected
        by (erewrite bind_eq_rejected by exact Hrun; reflexivity).
      erewrite bind_eq_resolved by apply generateConversationId_run.
      reflexivity.
Qed.

(** What [execute] returns, read off the backend's answer. *)
Definition chosen_id (fr : JsError + Remote.Response) (w : World) (n : nat)
    : jsval :=
  match backend_answer fr with
  | Some body => answer_id body
  | None => VString (local_id w n)
  end.

(** The value [execute] leaves in [backendResult]. *)
Definition backend_result (fr : JsError + Remote.Response) : Remote.Json :=
  default Remote.JsonNull (backend_answer fr).

Lemma truthy_not_null body :
  Remote.json_truthy body = true -> Remote.is_null body = false.
Proof. destruct body; [discriminate|reflexivity..]. Qed.

Lemma backend_answer_not_null fr body :
  backend_answer fr = Some body -> Remote.is_null body = false.
Proof.
  unfold backend_answer. destruct fr as [e | r]; [discriminate|].
  destruct (Remote.ok r); [|discriminate].
  destruct (Remote.json r) as [e | j]; [discriminate|].
  destruct (Remote.is_null j) eqn:Hj; [discriminate|].
  intros [= <-]. exact Hj.
Qed.

Lemma execute_run {St} this config w (s : St) n :
  let cfg := merge (defaultConfig this) config in
  let fr := fetch w (S (S (S n))) (init_url this)
              (init_request this cfg w (S n)) in
  exists result,
    outcome (execute this config w s n) = Resolved result
    /\ state (execute this config w s n) = s
    /\ trace (execute this config w s n)
       = [EFetch (init_url this) (init_request this cfg w (S n))]
    /\ ConversationResult.conversationId result
       = chosen_id fr w (S (S (S (S n))))
    /\ ConversationResult.backendInitialized result
       = bool_decide (is_Some (backend_answer fr))
    /\ ConversationResult.isHealthy result = true
    /\ ConversationResult.source result
       = (if Remote.json_truthy (backend_result fr)
          then "backend" else "local")
    /\ ConversationResult.backendResponse result = backend_result fr
    /\ ConversationResult.creatorId result = creatorId this
    /\ ConversationResult.config result = cfg.
Proof.
  cbv zeta. unfold execute. rewrite bind_now.
  destruct (backend_or_local_run this (merge (defaultConfig this) config)
              w s (S n)) as [n' Hrun].
  cbv zeta in Hrun.
  set (chooser := backend_or_local this (merge (defaultConfig this) config))
    in *.
  clearbody chooser. unfold chosen_id, backend_result.
  destruct (backend_answer _) as [body|] eqn:Hb;
    eexists;
    (erewrite try_catch_eq_resolved;
     [|erewrite bind_eq_resolved by exact Hrun; rewrite !bind_now;
       reflexivity]);
    cbn [outcome state trace ret app fst snd default
         ConversationResult.conversationId
         ConversationResult.backendInitialized ConversationResult.isHealthy
         ConversationResult.source ConversationResult.backendResponse
         ConversationResult.creatorId ConversationResult.config].
  - rewrite (backend_answer_not_null _ _ Hb). repeat split.
  - repeat split.
Qed.

Lemma initializeConversation_run customConfig w s n this :
  useConversationManager.initUseCaseRef s = Some this ->
  let cfg := merge (defaultConfig this) customConfig in
  let fr := fetch w (S (S (S n))) (init_url this)
              (init_request this cfg w (S n)) in
  let r := useConversationManager.initializeConversation customConfig w s n in
  outcome r = Resolved (chosen_id fr w (S (S (S (S n)))))
  /\ useConversationManager.conversationId (state r)
     = Some (chosen_id fr w (S (S (S (S n)))))
  /\ useConversationManager.backendInitialized (state r)
     = bool_decide (is_Some (backend_answer fr))
  /\ useConversationManager.isHealthy (state r) = true
  /\ useConversationManager.isLoading (state r) = false
  /\ trace r = [EFetch (init_url this) (init_request this cfg w (S n))]
  /\ useConversationManager.error (state r) = None.
Proof.
  intros Href. cbv zeta.
  unfold useConversationManager.initializeConversation.
  rewrite bind_gets, Href, bind_modify, try_finally_modify.
  match goal with
  | |- context [try_catch _ _ w ?s0 n] =>
      destruct (execute_run this customConfig w s0 n)
        as (result & Ho & Hs & Ht & Hid & Hbi & Hh & _)
  end.
  cbv zeta in Hid, Hbi, Ht.
  set (exec := execute this customConfig) in *. clearbody exec.
  rewrite (try_catch_bind_resolved _ _ _ _ _ _ _ Ho). cbv zeta.
  rewrite Hs, Ht.
  rewrite try_catch_resolved with (a := ConversationResult.conversationId result)
    by (rewrite bind_modify; reflexivity).
  rewrite bind_modify.
  cbn [ret outcome state trace app useConversationManager.conversationId
       useConversationManager.backendInitialized
       useConversationManager.isHealthy useConversationManager.isLoading
       useConversationManager.conversationResult
       useConversationManager.error].
  rewrite Hid, Hbi, Hh. repeat split.
Qed.

End ConversationFacts.


(* ===================================================================== *)
(** * Factory *)
(* ===================================================================== *)

Module FactoryFacts.
Import ProviderFactory.

Section Generic.
Context {P : Type} `{AIProviderPlugin.Plugin P}.

Lemma create_cached providerType config w (s : ProviderFactory.t P) n
    existing :
  activeProviders s !! providerType = Some existing ->
  create providerType config w s n = mkRes (Resolved existing) s n [].
Proof.
  intros Hc. unfold create. rewrite bind_gets, Hc. reflexivity.
Qed.

(** A [create] that resolves leaves its result in the cache under the
    requested type. *)
Lemma create_resolved providerType config w (s : ProviderFactory.t P) n p :
  outcome (create providerType config w s n) = Resolved p ->
  activeProviders (state (create providerType config w s n))
    !! providerType = Some p.
Proof.
  unfold create. rewrite bind_gets.
  destruct (activeProviders s !! providerType) as [existing|] eqn:Hc.
  { cbn. intros [= <-]. exact Hc. }
  rewrite bind_gets.
  destruct (ProviderRegistry.get providerType (providerRegistry s))
    as [providerClass|]; [|discriminate].
  match goal with
  | |- context [try_catch ?b ?h] => set (body := b); set (handler := h)
  end.
  destruct (outcome (body w s n)) as [q|t] eqn:Hb.
  2:{ rewrite (try_catch_rejected _ _ _ _ _ _ Hb). discriminate. }
  rewrite (try_catch_resolved _ _ _ _ _ _ Hb). rewrite Hb.
  intros [= <-]. clear handler. revert Hb. unfold body. clear body.
  destruct (outcome (extractProviderConfig providerType config w s n))
    as [providerConfig|t] eqn:Hx.
  2:{ rewrite (bind_rejected _ _ _ _ _ _ Hx). discriminate. }
  rewrite (bind_resolved _ _ _ _ _ _ Hx). cbv zeta.
  set (s1 := state (extractProviderConfig providerType config w s n)).
  set (n1 := clock (extractProviderConfig providerType config w s n)).
  rewrite bind_emit.
  destruct (outcome (on_object providerClass
                       (AIProviderPlugin.validateConfig providerConfig)
                       w s1 n1)) as [valid|t] eqn:Hv.
  2:{ rewrite (bind_rejected _ _ _ _ _ _ Hv). discriminate. }
  rewrite (bind_resolved _ _ _ _ _ _ Hv). cbv zeta.
  destruct valid; cbn [negb]; [|discriminate].
  rewrite bind_emit.
  match goal with
  | |- context [bind (on_object providerClass ?m) ?k ?w0 ?s0 ?n0] =>
      destruct (outcome (on_object providerClass m w0 s0 n0))
        as [u|t] eqn:Hi;
      [ rewrite (bind_resolved _ _ _ _ _ _ Hi)
      | rewrite (bind_rejected _ _ _ _ _ _ Hi); discriminate ]
  end.
  cbv zeta. rewrite bind_modify.
  cbn [ret outcome state activeProviders].
  intros [= <-]. apply lookup_insert_eq.
Qed.

End Generic.

End FactoryFacts.

(* ===================================================================== *)
(** * Sending through the provider hook *)
(* ===================================================================== *)

Module HookFacts.

Definition is_toolhouse (p : Registered.t) : Prop :=
  exists s, p = Registered.Toolhouse s.

Lemma keeps_dispatch {A} (mt : M ToolhouseProvider.t A)
    (mo : M OpenRouterProvider.t A) :
  keeps is_toolhouse (Registered.dispatch mt mo).
Proof.
  intros w p n [s ->]. unfold Registered.dispatch. cbn. eexists. reflexivity.
Qed.

Lemma dispatch_rejects {A} (mt : M ToolhouseProvider.t A)
    (mo : M OpenRouterProvider.t A) w :
  always_rejects mt w ->
  rejects_within is_toolhouse (Registered.dispatch mt mo) w.
Proof.
  intros Hm p n [s ->]. destruct (Hm s n) as [t Ht].
  exists t. unfold Registered.dispatch. cbn. exact Ht.
Qed.

Lemma preserves_createUserMessage content metadata :
  preserves (fun p : Registered.t => p)
    (SendMessageUseCase.createUserMessage content metadata).
Proof. unfold SendMessageUseCase.createUserMessage. frame. Qed.

(** Through the use case, a Toolhouse plugin whose ad search throws
    never produces a response. *)
Lemma execute_rejects content metadata w :
  mcp_search_throws w ->
  rejects_within is_toolhouse
    (SendMessageUseCase.execute (P:=Registered.t) content metadata) w.
Proof.
  intros Hw. unfold SendMessageUseCase.execute.
  apply rejects_within_bind_r;
    [apply keeps_preserves, preserves_now | intros startTime].
  apply rejects_within_bind_r;
    [apply keeps_preserves, preserves_gets | intros providerName].
  apply rejects_within_try_catch.
  - apply rejects_within_bind_r;
      [apply keeps_preserves, preserves_createUserMessage | intros message].
    apply rejects_within_bind_r; [apply keeps_dispatch | intros healthy].
    destruct (negb healthy).
    + apply rejects_within_always, always_rejects_throwError.
    + apply rejects_within_bind_l. cbn [AIProviderPlugin.sendMessage Registered.plugin].
      apply dispatch_rejects, ToolhouseFacts.sendMessage_always_rejects, Hw.
  - intros t. apply always_rejects_bind_r. intros _.
    destruct (isRequestError t);
      [apply always_rejects_throw | apply always_rejects_throwError].
Qed.

Section Hook.
Context {P : Type} `{AIProviderPlugin.Plugin P}.

Lemma on_plugin_rejects {A} (m : M P A) w (s : useAIProvider.t P) n p t :
  useAIProvider.sendMessageUseCaseRef s = Some p ->
  outcome (m w p n) = Rejected t ->
  outcome (useAIProvider.on_plugin m w s n) = Rejected t.
Proof.
  intros Href Ho. unfold useAIProvider.on_plugin. rewrite Href. exact Ho.
Qed.

(** [sendMessage] once the use case is known to exist, over the call
    it makes on the plugin. *)
Definition sendMessage_with (call : M (useAIProvider.t P) AIResponse.t)
    : M (useAIProvider.t P) AIResponse.t :=
  do modify (useAIProvider.setIsLoading true) then
  do modify (useAIProvider.setError None) then
  try_finally
    (try_catch
       (let* response := call in
        let* has_provider := gets useAIProvider.provider in
        do (if has_provider then
              let* newStatus :=
                useAIProvider.on_plugin AIProviderPlugin.getStatus in
              modify (useAIProvider.setStatus (Some newStatus))
            else ret tt) then
        ret response)
       (fun err =>
          do modify (useAIProvider.setError
                       (Some (messageOr err "Failed to send message"))) then
          throw err))
    (modify (useAIProvider.setIsLoading false)).

Lemma sendMessage_unfold content metadata w (s : useAIProvider.t P) n :
  useAIProvider.sendMessage content metadata w s n
  = match useAIProvider.sendMessageUseCaseRef s with
    | Some _ =>
        sendMessage_with
          (useAIProvider.on_plugin
             (SendMessageUseCase.execute content metadata)) w s n
    | None =>
        mkRes (Rejected (ThrowError
                 (MkError Error "Provider not initialized" None)))
              s n []
    end.
Proof.
  unfold useAIProvider.sendMessage. rewrite bind_gets.
  destruct (useAIProvider.sendMessageUseCaseRef s); reflexivity.
Qed.

Lemma sendMessage_with_rejected call w (s : useAIProvider.t P) n t :
  outcome (call w (useAIProvider.setError None
                     (useAIProvider.setIsLoading true s)) n)
  = Rejected t ->
  outcome (sendMessage_with call w s n) = Rejected t.
Proof.
  intros Ho. unfold sendMessage_with.
  rewrite !bind_modify, try_finally_modify. cbn [outcome].
  rewrite (try_catch_bind_rejected _ _ _ _ _ _ _ Ho).
  cbv zeta. rewrite bind_modify. reflexivity.
Qed.

(** The hook passes on the rejection of the use case. *)
Lemma sendMessage_rejects content metadata w (s : useAIProvider.t P) n :
  (forall p n',
      useAIProvider.sendMessageUseCaseRef s = Some p ->
      rejected (outcome (SendMessageUseCase.execute content metadata w p n'))) ->
  rejected (outcome (useAIProvider.sendMessage content metadata w s n)).
Proof.
  intros Hex. rewrite sendMessage_unfold.
  destruct (useAIProvider.sendMessageUseCaseRef s) as [p|] eqn:Href.
  - destruct (Hex p n eq_refl) as [t Ht]. exists t.
    apply sendMessage_with_rejected.
    apply (on_plugin_rejects _ _ _ _ p); [exact Href | exact Ht].
  - eexists. reflexivity.
Qed.

End Hook.

End HookFacts.

(* ===================================================================== *)
(** * Orchestration service *)
(* ===================================================================== *)

Module ServiceFacts.
Import ChatApplicationService.

Section Service.
Context {St : Type}.

(** The [try] block of [sendMessage]. *)
Definition attempt (this : ChatApplicationService.t St) (message : string)
    (startTime : Z) : M St ChatMessageResult.t :=
  do (if negb (truthy (ConversationManagerView.conversationId
                         (conversationManager this))) then
        do emit ECallInitializeConversation then
        let* id := ConversationManagerView.initializeConversation
                     (conversationManager this) in
        ret tt
      else ret tt) then
  if String.eqb (AIProviderView.providerName (aiProvider this)) "toolhouse"
  then sendMessageWithToolhouse this message startTime
  else sendMessageWithManualMCP this message startTime.

(** The result [createFallbackResponse] builds. *)
Definition fallback_result (this : ChatApplicationService.t St)
    (message : string) (error : Thrown) (responseTime : Z)
    : ChatMessageResult.t :=
  ChatMessageResult.mk (fallbackContent message) "fallback"
    (AdSearchView.ads (adSearch this)) responseTime None None "fallback"
    (Some (messageOr error "Unknown error")) None None
    (Some (AdSearchView.hasAds (adSearch this))).

Lemma sendMessage_catches this message w s n t :
  outcome (attempt this message (Date_now w n) w s (S n)) = Rejected t ->
  let a := attempt this message (Date_now w n) w s (S n) in
  sendMessage this message w s n
  = mkRes (Resolved
             (fallback_result this message t
                (Date_now w (clock a) - Date_now w n)%Z))
          (state a) (S (clock a)) (trace a ++ []).
Proof.
  intros Ho. cbv zeta. unfold sendMessage.
  rewrite bind_now. fold (attempt this message (Date_now w n)).
  set (body := attempt this message (Date_now w n)) in *. clearbody body.
  rewrite (try_catch_rejected _ _ _ _ _ _ Ho). cbv zeta.
  unfold createFallbackResponse. rewrite bind_now. reflexivity.
Qed.

Lemma sendMessage_passes this message w s n result :
  outcome (attempt this message (Date_now w n) w s (S n)) = Resolved result ->
  sendMessage this message w s n
  = attempt this message (Date_now w n) w s (S n).
Proof.
  intros Ho. unfold sendMessage.
  rewrite bind_now. fold (attempt this message (Date_now w n)).
  set (body := attempt this message (Date_now w n)) in *. clearbody body.
  apply (try_catch_resolved _ _ _ _ _ _ Ho).
Qed.

Lemma fallbackContent_contains message :
  contains (fallbackContent message) message.
Proof.
  unfold contains, fallbackContent.
  exists ("I received your message: " +:+ dquote). eexists. reflexivity.
Qed.

(** Manual strategy: a rejected ad search ends the attempt before the
    adapter is reached. *)
Lemma manual_search_rejected (this : ChatApplicationService.t St)
    message startTime w s n t :
  outcome (AdSearchView.searchForMessage (adSearch this) message
             (ConversationManagerView.conversationId
                (conversationManager this)) w s n) = Rejected t ->
  let q := AdSearchView.searchForMessage (adSearch this) message
             (ConversationManagerView.conversationId
                (conversationManager this)) w s n in
  sendMessageWithManualMCP this message startTime w s n
  = mkRes (Rejected t) (state q) (clock q)
      ((ECallSearchForMessage message
          (ConversationManagerView.conversationId
             (conversationManager this)) :: trace q) ++ []).
Proof.
  intros Ho. cbv zeta. unfold sendMessageWithManualMCP.
  set (search := AdSearchView.searchForMessage (adSearch this) message
                   (ConversationManagerView.conversationId
                      (conversationManager this))) in *.
  clearbody search.
  erewrite try_catch_eq_rejected.
  2:{ rewrite bind_emit. erewrite bind_rejected by exact Ho. reflexivity. }
  reflexivity.
Qed.

(** The strategy of a turn, chosen by the adapter's name. *)
Definition strategy (this : ChatApplicationService.t St) (message : string)
    (startTime : Z) : M St ChatMessageResult.t :=
  if String.eqb (AIProviderView.providerName (aiProvider this)) "toolhouse"
  then sendMessageWithToolhouse this message startTime
  else sendMessageWithManualMCP this message startTime.

(** With a session id held, the attempt is the strategy itself. *)
Lemma attempt_held this message startTime w s n :
  truthy (ConversationManagerView.conversationId (conversationManager this))
  = true ->
  attempt this message startTime w s n
  = strategy this message startTime w s n.
Proof.
  intros Hcid. unfold attempt, strategy. rewrite Hcid. cbn [negb].
  rewrite bind_ret. reflexivity.
Qed.

(** Without one, a session is asked for first; once that call has
    resolved the strategy runs from where it left off. *)
Lemma attempt_initialized this message startTime w s n id :
  truthy (ConversationManagerView.conversationId (conversationManager this))
  = false ->
  outcome (ConversationManagerView.initializeConversation
             (conversationManager this) w s n) = Resolved id ->
  let i := ConversationManagerView.initializeConversation
             (conversationManager this) w s n in
  let r := strategy this message startTime w (state i) (clock i) in
  attempt this message startTime w s n
  = mkRes (outcome r) (state r) (clock r)
      (ECallInitializeConversation :: trace i ++ trace r).
Proof.
  intros Hcid Hi. cbv zeta. unfold attempt.
  fold (strategy this message startTime).
  rewrite Hcid. cbn [negb].
  set (init := ConversationManagerView.initializeConversation
                 (conversationManager this)) in *.
  clearbody init.
  rewrite bind_resolved with (a := tt)
    by (rewrite bind_emit; cbn [outcome];
        rewrite (bind_resolved _ _ _ _ _ _ Hi); reflexivity).
  cbv zeta. rewrite bind_emit. cbn [state clock trace].
  rewrite (bind_resolved _ _ _ _ _ _ Hi).
  cbn [ret state clock trace]. rewrite app_nil_r. reflexivity.
Qed.

End Service.

End ServiceFacts.


(* ===================================================================== *)
(** * Concrete worlds and states *)
(* ===================================================================== *)

Module Fixtures.

Definition session_uuid : string := "3f2b8c1e-9a4d-4e6f-8b7a-0c1d2e3f4a5b".

Definition toolkit_ad : Ad.t :=
  Ad.mk "ad-1" "AI Toolkit" "Tools for building assistants"
    "https://example.com/toolkit" "hyperlink" (9 # 10).

(** Every remote service is unreachable. *)
Definition offline : World :=
  mkWorld (fun n => Z.of_nat n) (fun n => "r" +:+ pretty n)
    (fun _ _ _ => inl (MkError TypeError "Failed to fetch" None))
    (fun _ _ _ _ _ =>
       inl (ThrowError (MkError Error "MCP server unreachable" None)))
    (fun s => dquote +:+ s +:+ dquote) (fun _ => true).

Definition answer (conversation_id : jsval) : Remote.Response :=
  Remote.mkResponse true 200 "OK"
    (inr (Remote.JsonObj
            (Remote.mkObject (Some [toolkit_ad]) conversation_id
               (Some "Here is an answer.") None None)))
    (inr "ok") (Some (["Here is "; "an answer."], None)).

(** Every remote service answers; the session service issues
    [conversation_id]. *)
Definition online (conversation_id : jsval) : World :=
  mkWorld (fun n => Z.of_nat n) (fun n => "r" +:+ pretty n)
    (fun _ _ _ => inr (answer conversation_id))
    (fun _ _ _ _ _ =>
       inr (Remote.McpObject (Some "context")
              (McpAds.Entries [Some toolkit_ad])))
    (fun s => dquote +:+ s +:+ dquote) (fun _ => true).

Definition toolhouse_config : ToolhouseConfig.t :=
  ToolhouseConfig.mk "http://localhost:8001" None None
    (Some "http://localhost:8001/agent").

(** A Toolhouse adapter after [initialize]. *)
Definition toolhouse : ToolhouseProvider.t :=
  ToolhouseProvider.mk (Some toolhouse_config) ProviderMetrics.initial
    (Some toolhouse_config)
    (Some (MCPClient.mk "http://localhost:8001/mcp" "local-dev-key"))
    None [].

Definition openrouter_config : OpenRouterConfig.t :=
  OpenRouterConfig.mk "sk-key" "google/gemini-pro"
    "https://openrouter.ai/api/v1" None None.

(** An OpenRouter adapter after [initialize]. *)
Definition openrouter : OpenRouterProvider.t :=
  OpenRouterProvider.mk (Some openrouter_config) ProviderMetrics.initial
    (Some openrouter_config) [].

Definition user_message (id content : string)
    (conversationId : option string) : AIMessage.t :=
  AIMessage.mk id content "user" 0
    (Some (Metadata.mk conversationId None None None None None)).

Definition question (i : nat) : AIMessage.t :=
  user_message ("user_" +:+ pretty i) ("question " +:+ pretty i) None.

(** The adapter and the time after the given messages were sent one
    after the other. *)
Fixpoint after_turns (messages : list AIMessage.t) (w : World)
    (s : OpenRouterProvider.t) (n : nat) : OpenRouterProvider.t * nat :=
  match messages with
  | [] => (s, n)
  | m :: rest =>
      let r := OpenRouterProvider.sendMessage m w s n in
      after_turns rest w (state r) (clock r)
  end.

Definition after_25_turns : OpenRouterProvider.t * nat :=
  Eval vm_compute in
    after_turns (map question (seq 1 25)) (online VNull) openrouter 0.

Definition search_use_case : SearchAdsUseCase.t :=
  SearchAdsUseCase.mk "http://localhost:8001/mcp" "key"
    "d64a4899-20e4-4ecd-a53e-057aceed54cf".

Definition ad_search : useAdSearch.t :=
  useAdSearch.mk [toolkit_ad] false None None [] (Some search_use_case).

Definition init_config : ConversationInitConfig.t :=
  ConversationInitConfig.mk
    (Some (AdPreferences.mk (Some ["hyperlink"; "popup"]) "normal"
             (VNumber (1 # 2))))
    None.

Definition conversation_manager : useConversationManager.t :=
  useConversationManager.mk None false None false None
    (Some (InitializeConversationUseCase.mk "http://localhost:8000"
             "d64a4899-20e4-4ecd-a53e-057aceed54cf" init_config)).

Definition provider_hook (p : Registered.t) : useAIProvider.t Registered.t :=
  useAIProvider.mk true false None true None (Some p).

Definition factory : ProviderFactory.t Registered.t :=
  ProviderFactory.mk
    (fun a => if Nat.eqb a 0 then Registered.Toolhouse toolhouse
              else Registered.OpenRouter openrouter)
    [("toolhouse", 0%nat); ("openrouter", 1%nat)]
    {["toolhouse" := 0%nat]}.

Definition unused_config : AIConfig.t :=
  AIConfig.mk "toolhouse" None None None None None None.

(** Both adapters registered, none created yet. *)
Definition fresh_factory : ProviderFactory.t Registered.t :=
  ProviderFactory.mk
    (fun a => if Nat.eqb a 0 then Registered.Toolhouse ToolhouseProvider.fresh
              else Registered.OpenRouter OpenRouterProvider.fresh)
    [("toolhouse", 0%nat); ("openrouter", 1%nat)] ∅.

Definition app_config : AIConfig.t :=
  AIConfig.mk "toolhouse" (Some toolhouse_config) (Some openrouter_config)
    None None None None.

End Fixtures.

(* ===================================================================== *)
(** * The fallback guarantee of the orchestration service *)
(* ===================================================================== *)

Section FallbackGuarantee.
Import Fixtures.

(** The state of the provider hook over the registered plugins. *)
Definition Hook : Type := useAIProvider.t Registered.t.

(** C1. Whatever the text, the session held and the active adapter: when
    the session initialization throws and the ad search call throws (the
    ad search hook's and the one the agent adapter makes itself),
    [sendMessage] of the service resolves with a result tagged
    ["fallback"] whose content contains the text verbatim. The service
    is wired as [ChatContainer] does, the provider hook holding the
    plugin its configuration names. *)
Theorem C1_fallback_guarantee
    (text providerName : string)
    (conversationManager : ConversationManagerView.t Hook)
    (adSearch : AdSearchView.t Hook)
    (w : World) (s : Hook) (n : nat) :
  always_rejects
    (ConversationManagerView.initializeConversation conversationManager) w ->
  (forall message conversationId,
      always_rejects
        (AdSearchView.searchForMessage adSearch message conversationId) w) ->
  mcp_search_throws w ->
  (forall p, useAIProvider.sendMessageUseCaseRef s = Some p ->
             AIProviderPlugin.name p = providerName) ->
  exists result,
    outcome
      (ChatApplicationService.sendMessage
         (ChatApplicationService.mk conversationManager adSearch
            (ChatContainer.aiProvider providerName)) text w s n)
    = Resolved result
    /\ ChatMessageResult.source result = "fallback"
    /\ contains (ChatMessageResult.content result) text.
Proof.
  intros Hinit Hsearch Hmcp Hwired.
  set (svc := ChatApplicationService.mk conversationManager adSearch
                (ChatContainer.aiProvider providerName)).
  assert (Hrej : rejected
                   (outcome (ServiceFacts.attempt svc text (Date_now w n)
                               w s (S n)))).
  { unfold ServiceFacts.attempt. cbn [svc ChatApplicationService.conversationManager
      ChatApplicationService.aiProvider ChatContainer.aiProvider
      AIProviderView.providerName].
    destruct (truthy (ConversationManagerView.conversationId
                        conversationManager)) eqn:Hcid; cbn [negb].
    - rewrite bind_ret.
      destruct (String.eqb providerName "toolhouse") eqn:Hname.
      + apply String.eqb_eq in Hname.
        unfold ChatApplicationService.sendMessageWithToolhouse.
        cbn [svc ChatApplicationService.conversationManager
             ChatApplicationService.aiProvider ChatContainer.aiProvider
             AIProviderView.sendMessage].
        match goal with
        | |- context [useAIProvider.sendMessage text ?md] =>
            destruct (HookFacts.sendMessage_rejects text md w s (S n))
              as [t Ht]
        end.
        { intros p n' Hp. apply HookFacts.execute_rejects; [exact Hmcp|].
          specialize (Hwired p Hp). rewrite Hname in Hwired.
          destruct p as [ts | os]; [eexists; reflexivity | discriminate]. }
        exists t.
        erewrite try_catch_eq_rejected.
        2:{ rewrite bind_emit. erewrite bind_rejected by exact Ht.
            reflexivity. }
        reflexivity.
      + apply always_rejects_rethrow.
        apply always_rejects_bind_r. intros _.
        apply always_rejects_bind_l, Hsearch.
    - apply always_rejects_bind_l.
      apply always_rejects_bind_r. intros _.
      apply always_rejects_bind_l, Hinit. }
  destruct Hrej as [t Ht].
  rewrite (ServiceFacts.sendMessage_catches svc text w s n t Ht).
  eexists. split; [reflexivity|]. split; [reflexivity|].
  apply ServiceFacts.fallbackContent_contains.
Qed.

Definition failing_conversationManager : ConversationManagerView.t Hook :=
  ConversationManagerView.mk None "d64a4899-20e4-4ecd-a53e-057aceed54cf"
    (throwError (MkError Error "Conversation use case not initialized" None)).

Definition failing_adSearch : AdSearchView.t Hook :=
  AdSearchView.mk [] false
    (fun _ _ =>
       throwError (newAdSearchError "Failed to search ads: Failed to fetch"
                     None)).

Lemma C1_fallback_guarantee_witness :
  exists result,
    outcome
      (ChatApplicationService.sendMessage
         (ChatApplicationService.mk failing_conversationManager
            failing_adSearch (ChatContainer.aiProvider "toolhouse"))
         "Tell me about AI tools" offline
         (provider_hook (Registered.Toolhouse toolhouse)) 0)
    = Resolved result
    /\ ChatMessageResult.source result = "fallback"
    /\ contains (ChatMessageResult.content result) "Tell me about AI tools".
Proof.
  apply (C1_fallback_guarantee "Tell me about AI tools" "toolhouse"
           failing_conversationManager failing_adSearch offline
           (provider_hook (Registered.Toolhouse toolhouse)) 0).
  - intros s n. eexists. reflexivity.
  - intros message conversationId s n. eexists. reflexivity.
  - intros n url queries creator conversation. eexists. reflexivity.
  - intros p Hp. inversion Hp. reflexivity.
Defined.

End FallbackGuarantee.

(* ===================================================================== *)
(** * The agent adapter and the session join key *)
(* ===================================================================== *)

Section AgentAdapter.
Import Fixtures.

(** C2, as the code has it. A well-formed message whose
    [metadata.conversationId] is absent (or empty) or is not a canonical
    UUID makes [sendMessage] of an initialised agent adapter fail before
    any remote call is attempted; the error thrown is a plain [Error]
    ("Conversation ID is required for MCP integration" or "Invalid
    conversation ID format"), not a [ProviderRequestError]. *)
Theorem C2_bad_conversation_id_fails_fast
    (message : AIMessage.t) (w : World) (s : ToolhouseProvider.t) (n : nat) :
  BaseAIProvider.content_empty (AIMessage.content message) = false ->
  BaseAIProvider.role_valid (AIMessage.role message) = true ->
  ToolhouseProvider.initialized s = true ->
  ToolhouseFacts.conversation_id_accepted message = false ->
  let r := ToolhouseProvider.sendMessage message w s n in
  outcome r
  = Rejected (ThrowError (ToolhouseFacts.conversation_id_error message))
  /\ isRequestError
       (ThrowError (ToolhouseFacts.conversation_id_error message)) = false
  /\ trace r = [].
Proof.
  intros Hc Hr Hs Hid. cbv zeta.
  destruct (ToolhouseFacts.sendMessage_bad_id message w s n Hc Hr Hs Hid)
    as [Ho Ht].
  split; [exact Ho | split; [reflexivity | exact Ht]].
Qed.

Lemma C2_bad_conversation_id_witness :
  let message := user_message "m1" "Tell me about AI tools" (Some "not-a-uuid") in
  let r := ToolhouseProvider.sendMessage message (online VNull) toolhouse 0 in
  outcome r
  = Rejected (ThrowError (MkError Error "Invalid conversation ID format" None))
  /\ isRequestError
       (ThrowError (MkError Error "Invalid conversation ID format" None))
     = false
  /\ trace r = [].
Proof.
  exact (C2_bad_conversation_id_fails_fast
           (user_message "m1" "Tell me about AI tools" (Some "not-a-uuid"))
           (online VNull) toolhouse 0 eq_refl eq_refl eq_refl eq_refl).
Defined.

(** C8. A message whose content is empty or white space only makes
    [sendMessage] of either adapter fail with the validation error
    "Message content cannot be empty", with no remote call attempted and
    the conversation history left as it was; this holds for every state
    of the adapter, initialised or not. *)
Theorem C8_blank_content_rejected
    (message : AIMessage.t) (w : World) (n : nat) :
  whitespace_only (AIMessage.content message) = true ->
  (forall s : ToolhouseProvider.t,
      let r := ToolhouseProvider.sendMessage message w s n in
      outcome r
      = Rejected
          (ThrowError (MkError Error "Message content cannot be empty" None))
      /\ trace r = []
      /\ ToolhouseProvider.getConversationHistory (state r)
         = ToolhouseProvider.getConversationHistory s)
  /\ (forall s : OpenRouterProvider.t,
        let r := OpenRouterProvider.sendMessage message w s n in
        outcome r
        = Rejected
            (ThrowError (MkError Error "Message content cannot be empty" None))
        /\ trace r = []
        /\ OpenRouterProvider.getConversationHistory (state r)
           = OpenRouterProvider.getConversationHistory s).
Proof.
  intros Hblank. split; intros s.
  - apply ToolhouseFacts.sendMessage_blank, Hblank.
  - apply OpenRouterFacts.sendMessage_blank_or, Hblank.
Qed.

Definition blank_message : AIMessage.t :=
  user_message "m0" "   " (Some session_uuid).

Lemma C8_blank_content_witness :
  whitespace_only (AIMessage.content blank_message) = true
  /\ outcome (ToolhouseProvider.sendMessage blank_message (online VNull)
                toolhouse 0)
     = Rejected
         (ThrowError (MkError Error "Message content cannot be empty" None))
  /\ trace (OpenRouterProvider.sendMessage blank_message (online VNull)
              openrouter 0) = [].
Proof.
  split; [reflexivity|].
  pose proof (C8_blank_content_rejected blank_message (online VNull) 0 eq_refl)
    as [Ht Ho].
  split; [apply (Ht toolhouse) | apply (Ho openrouter)].
Defined.

(** C9. The agent adapter appends the incoming message to its history
    before it attempts ad retrieval: once a well-formed message has
    reached an initialised adapter, the history read back after
    [sendMessage] is the old history followed by that message, whether
    the call resolved or failed; nothing is rolled back on error. *)
Theorem C9_history_kept_on_failure
    (message : AIMessage.t) (w : World) (s : ToolhouseProvider.t) (n : nat) :
  BaseAIProvider.content_empty (AIMessage.content message) = false ->
  BaseAIProvider.role_valid (AIMessage.role message) = true ->
  ToolhouseProvider.initialized s = true ->
  let r := ToolhouseProvider.sendMessage message w s n in
  ToolhouseProvider.getConversationHistory (state r)
  = ToolhouseProvider.getConversationHistory s ++ [message]
  /\ (rejected (outcome r) ->
      In message (ToolhouseProvider.getConversationHistory (state r))).
Proof.
  intros Hc Hr Hs. cbv zeta.
  pose proof (ToolhouseFacts.sendMessage_history message w s n Hc Hr Hs) as H.
  split; [exact H|]. intros _. rewrite H. apply in_or_app. right. left.
  reflexivity.
Qed.

Definition tools_question : AIMessage.t :=
  user_message "m1" "Tell me about AI tools" (Some session_uuid).

Lemma C9_history_kept_witness :
  rejected (outcome (ToolhouseProvider.sendMessage tools_question offline
                       toolhouse 0))
  /\ ToolhouseProvider.getConversationHistory
       (state (ToolhouseProvider.sendMessage tools_question offline
                 toolhouse 0))
     = [tools_question].
Proof.
  split.
  - eexists. reflexivity.
  - exact (proj1 (C9_history_kept_on_failure tools_question offline toolhouse
                    0 eq_refl eq_refl eq_refl)).
Defined.

End AgentAdapter.

(* ===================================================================== *)
(** * The direct-completion adapter's context window *)
(* ===================================================================== *)

Section ContextWindow.
Import Fixtures.

(** The messages array of the one completion request a call made. *)
Definition requested_messages (tr : list Event) : option (list ApiMessage.t) :=
  match tr with
  | [EFetch _ (Remote.ReqCompletion _ _ messages _ _)] => Some messages
  | _ => None
  end.

(** C3 as stated fails: after 25 prior turns the request for the next
    message holds 20 entries, none of them the system instruction, and
    its first entry is an assistant turn. *)
Lemma C3_no_leading_system_message :
  exists messages,
    requested_messages
      (trace (OpenRouterProvider.sendMessage (question 26) (online VNull)
                (fst after_25_turns) (snd after_25_turns)))
    = Some messages
    /\ length messages = 20%nat
    /\ hd_error messages
       = Some (ApiMessage.mk "assistant" "Here is an answer.")
    /\ ~ In OpenRouterProvider.system_instruction messages.
Proof.
  eexists. split; [vm_compute; reflexivity|].
  split; [reflexivity|]. split; [reflexivity|].
  intros H. vm_compute in H.
  repeat (destruct H as [H | H]; [discriminate H|]). exact H.
Qed.

(** C3, amended. With a non-empty prior history and a new well-formed
    message whose id is not in it, an initialised adapter makes exactly
    one remote call, and its messages array is the role and content of
    the last 20 entries of the history with the new message appended,
    in order and nothing else: the 19 most recent prior messages, then
    the new one. It holds one entry more than the history up to the
    limit of 20, which it never exceeds. *)
Theorem C3_outgoing_is_last_twenty
    (message : AIMessage.t) (w : World) (s : OpenRouterProvider.t) (n : nat)
    (cfg : OpenRouterConfig.t) :
  BaseAIProvider.content_empty (AIMessage.content message) = false ->
  BaseAIProvider.role_valid (AIMessage.role message) = true ->
  OpenRouterProvider.openRouterConfig s = Some cfg ->
  OpenRouterProvider.conversationHistory s <> [] ->
  OpenRouterFacts.fresh_id (OpenRouterProvider.conversationHistory s) message ->
  let sent :=
    map OpenRouterProvider.api_message
      (slice_last 20 (OpenRouterProvider.conversationHistory s ++ [message])) in
  requested_messages (trace (OpenRouterProvider.sendMessage message w s n))
  = Some sent
  /\ (length sent <= 20)%nat
  /\ length sent
     = Nat.min 20 (S (length (OpenRouterProvider.conversationHistory s)))
  /\ sent
     = map OpenRouterProvider.api_message
         (slice_last 19 (OpenRouterProvider.conversationHistory s))
       ++ [OpenRouterProvider.api_message message].
Proof.
  intros Hc Hr Hcfg _ Hfresh. cbv zeta.
  rewrite (OpenRouterFacts.sendMessage_trace message w s n cfg Hc Hr Hcfg).
  unfold OpenRouterFacts.request. cbn [requested_messages].
  rewrite (OpenRouterFacts.outgoing_fresh _ _ Hfresh).
  rewrite slice_last_app_one, map_app. cbn [map].
  split; [reflexivity|].
  rewrite length_app, length_map, slice_last_length. cbn [length].
  split; [lia|]. split; [lia|reflexivity].
Qed.

Lemma C3_outgoing_witness :
  requested_messages
    (trace (OpenRouterProvider.sendMessage (question 26) (online VNull)
              (fst after_25_turns) (snd after_25_turns)))
  = Some (map OpenRouterProvider.api_message
            (slice_last 20
               (OpenRouterProvider.conversationHistory (fst after_25_turns)
                ++ [question 26]))).
Proof.
  refine (proj1 (C3_outgoing_is_last_twenty (question 26) (online VNull)
                   (fst after_25_turns) (snd after_25_turns)
                   openrouter_config eq_refl eq_refl eq_refl _ _)).
  - vm_compute. discriminate.
  - intros old Hin. vm_compute in Hin.
    repeat (destruct Hin as [<- | Hin]; [vm_compute; discriminate|]).
    destruct Hin.
Defined.

End ContextWindow.

(* ===================================================================== *)
(** * The manual strategy when the ad search fails *)
(* ===================================================================== *)

Section ManualStrategy.
Import Fixtures.

Definition canned_response : AIResponse.t :=
  AIResponse.mk "resp_1" "Here is an answer." "openrouter_1" "openrouter"
    (ResponseMetadata.mk (Some "google/gemini-pro") None (Some 1%Z) None
       McpAds.Absent None (Some 2%nat)).

(** A service over stubs: a session is held, the adapter would answer,
    the ad search fails. *)
Definition service_with_failing_search : ChatApplicationService.t unit :=
  ChatApplicationService.mk
    (ConversationManagerView.mk (Some session_uuid)
       "d64a4899-20e4-4ecd-a53e-057aceed54cf" (ret (VString session_uuid)))
    (AdSearchView.mk [toolkit_ad] true
       (fun _ _ =>
          throwError
            (newAdSearchError "Failed to search ads: Failed to fetch"
               (Some (MkError TypeError "Failed to fetch" None)))))
    (AIProviderView.mk "openrouter" (fun _ _ => ret canned_response)).

(** C4 as stated fails: with the ad search failing, the turn is not
    completed by the adapter with an empty ad list. The adapter is never
    invoked and the result is the fallback one. *)
Lemma C4_manual_strategy_aborts :
  let r := ChatApplicationService.sendMessage service_with_failing_search
             "Tell me about AI tools" offline tt 0 in
  trace r = [ECallSearchForMessage "Tell me about AI tools" (Some session_uuid)]
  /\ exists result,
       outcome r = Resolved result
       /\ ChatMessageResult.source result = "fallback"
       /\ ChatMessageResult.source result <> "manual_mcp"
       /\ ChatMessageResult.ads result = [toolkit_ad].
Proof.
  cbv zeta. split; [reflexivity|]. eexists.
  split; [reflexivity|]. split; [reflexivity|]. split; [discriminate|].
  reflexivity.
Qed.

(** C4, amended. In a manual-strategy turn (the active adapter is not
    the agent one) that reaches the ad search, either because a session
    id is held or because [initializeConversation] was called first and
    resolved, a rejected ad search ends the turn: the service invokes
    no adapter, its collaborator calls being the session initialisation
    (when no id was held) and the ad search, and [sendMessage] resolves
    with the fallback result, which carries the message of the search's
    error, the ads cached in the ad search hook and the text verbatim. *)
Theorem C4_failed_search_falls_back
    {St : Type} (this : ChatApplicationService.t St) (text : string)
    (w : World) (s : St) (n : nat) (error : Thrown) :
  let conversationId :=
    ConversationManagerView.conversationId
      (ChatApplicationService.conversationManager this) in
  let held := truthy conversationId in
  let init :=
    ConversationManagerView.initializeConversation
      (ChatApplicationService.conversationManager this) w s (S n) in
  let search :=
    AdSearchView.searchForMessage (ChatApplicationService.adSearch this)
      text conversationId w
      (if held then s else state init)
      (if held then S n else clock init) in
  String.eqb (AIProviderView.providerName
                (ChatApplicationService.aiProvider this)) "toolhouse" = false ->
  (held = false -> exists id, outcome init = Resolved id) ->
  outcome search = Rejected error ->
  let r := ChatApplicationService.sendMessage this text w s n in
  trace r
  = (if held then [] else ECallInitializeConversation :: trace init)
    ++ ECallSearchForMessage text conversationId :: trace search
  /\ exists result,
       outcome r = Resolved result
       /\ ChatMessageResult.source result = "fallback"
       /\ ChatMessageResult.error result
          = Some (messageOr error "Unknown error")
       /\ ChatMessageResult.ads result
          = AdSearchView.ads (ChatApplicationService.adSearch this)
       /\ contains (ChatMessageResult.content result) text.
Proof.
  cbv zeta. intros Hname Hinit Hsearch.
  assert (Hstrategy : forall s0 n0,
             ServiceFacts.strategy this text (Date_now w n) w s0 n0
             = ChatApplicationService.sendMessageWithManualMCP this text
                 (Date_now w n) w s0 n0).
  { intros s0 n0. unfold ServiceFacts.strategy. rewrite Hname. reflexivity. }
  pose proof (fun s0 n0 =>
                ServiceFacts.manual_search_rejected this text (Date_now w n)
                  w s0 n0 error) as Hm.
  cbv zeta in Hm.
  destruct (truthy (ConversationManagerView.conversationId
                      (ChatApplicationService.conversationManager this)))
    eqn:Hcid.
  - specialize (Hm _ _ Hsearch). rewrite <- Hstrategy in Hm.
    rewrite <- (ServiceFacts.attempt_held this text _ w s (S n) Hcid) in Hm.
    rewrite (ServiceFacts.sendMessage_catches this text w s n error)
      by (rewrite Hm; reflexivity).
    rewrite Hm. cbn [trace outcome clock app]. rewrite !app_nil_r.
    split; [reflexivity|]. eexists.
    split; [reflexivity|]. split; [reflexivity|]. split; [reflexivity|].
    split; [reflexivity|]. apply ServiceFacts.fallbackContent_contains.
  - destruct (Hinit eq_refl) as [id Hid].
    specialize (Hm _ _ Hsearch). rewrite <- Hstrategy in Hm.
    pose proof (ServiceFacts.attempt_initialized this text (Date_now w n)
                  w s (S n) id Hcid Hid) as Ha.
    cbv zeta in Ha. rewrite Hm in Ha. cbn [outcome state clock trace] in Ha.
    rewrite (ServiceFacts.sendMessage_catches this text w s n error)
      by (rewrite Ha; reflexivity).
    rewrite Ha. cbn [trace outcome clock app]. rewrite !app_nil_r.
    split; [reflexivity|]. eexists.
    split; [reflexivity|]. split; [reflexivity|]. split; [reflexivity|].
    split; [reflexivity|]. apply ServiceFacts.fallbackContent_contains.
Qed.

(** A service over stubs that holds no session yet: the session service
    issues one, the adapter would answer, the ad search fails. *)
Definition service_before_first_session : ChatApplicationService.t unit :=
  ChatApplicationService.mk
    (ConversationManagerView.mk None
       "d64a4899-20e4-4ecd-a53e-057aceed54cf" (ret (VString session_uuid)))
    (AdSearchView.mk [toolkit_ad] true
       (fun _ _ =>
          throwError
            (newAdSearchError "Failed to search ads: Failed to fetch"
               (Some (MkError TypeError "Failed to fetch" None)))))
    (AIProviderView.mk "openrouter" (fun _ _ => ret canned_response)).

Lemma C4_failed_search_witness :
  trace (ChatApplicationService.sendMessage service_before_first_session
           "Tell me about AI tools" offline tt 0)
  = [ECallInitializeConversation;
     ECallSearchForMessage "Tell me about AI tools" None].
Proof.
  exact (proj1 (C4_failed_search_falls_back service_before_first_session
                  "Tell me about AI tools" offline tt 0
                  (ThrowError
                     (newAdSearchError "Failed to search ads: Failed to fetch"
                        (Some (MkError TypeError "Failed to fetch" None))))
                  eq_refl
                  (fun _ => ex_intro _ (VString session_uuid) eq_refl)
                  eq_refl)).
Defined.

End ManualStrategy.

(* ===================================================================== *)
(** * The ad search hook *)
(* ===================================================================== *)

Section AdSearch.
Import Fixtures.

(** C5. When the remote query of a [searchAds] call fails (the request
    cannot be made, the server answers with an error status, or the
    body cannot be read), the call rejects with an AdSearchError whose
    cause is the underlying error, and the current ads, the search
    history and the last search result are what they were before. *)
Theorem C5_failed_search_keeps_ads
    (conversationId : option string) (queries : list string)
    (options : option string) (w : World) (s : useAdSearch.t) (n : nat)
    (useCase : SearchAdsUseCase.t) (cause : JsError) :
  useAdSearch.searchUseCaseRef s = Some useCase ->
  AdSearchFacts.query_fails
    (fetch w (S n) (SearchAdsUseCase.mcpUrl useCase)
       (AdSearchFacts.search_request useCase queries
          (AdSearchFacts.searchConversationId conversationId options)))
    cause ->
  let r := useAdSearch.searchAds conversationId queries options w s n in
  (exists e,
      outcome r = Rejected (ThrowError e)
      /\ err_class e = AdSearchError
      /\ err_cause e = Some cause)
  /\ useAdSearch.ads (state r) = useAdSearch.ads s
  /\ useAdSearch.searchHistory (state r) = useAdSearch.searchHistory s
  /\ useAdSearch.lastSearchResult (state r) = useAdSearch.lastSearchResult s.
Proof.
  intros Href Hq. cbv zeta.
  destruct (AdSearchFacts.searchAds_fails conversationId queries options
              w s n useCase cause Href Hq) as (Ho & Hads & Hh & Hl).
  split; [|auto]. eexists. split; [exact Ho|]. split; reflexivity.
Qed.

Lemma C5_failed_search_witness :
  useAdSearch.ads
    (state (useAdSearch.searchAds (Some session_uuid) ["AI tools"] None
              offline ad_search 0))
  = [toolkit_ad].
Proof.
  exact (proj1 (proj2 (C5_failed_search_keeps_ads (Some session_uuid)
                         ["AI tools"] None offline ad_search 0
                         search_use_case
                         (MkError TypeError "Failed to fetch" None)
                         eq_refl (AdSearchFacts.network_failure _)))).
Defined.

(** C6. After a run of more than ten [searchAds] calls that all
    succeed, the search history holds exactly ten records: the results
    of the last ten calls, in call order. In general the history after
    the run is the last ten entries of the old history followed by the
    new results, so the oldest records are the ones dropped. *)
Theorem C6_history_is_last_ten
    (conversationId : option string)
    (calls : list (list string * option string))
    (w : World) (s : useAdSearch.t) (n : nat)
    (results : list AdSearchResult.t) :
  (10 < length calls)%nat ->
  outcome (AdSearchFacts.searchAds_many conversationId calls w s n)
  = Resolved results ->
  let history :=
    useAdSearch.searchHistory
      (state (AdSearchFacts.searchAds_many conversationId calls w s n)) in
  length results = length calls
  /\ length history = 10%nat
  /\ history = slice_last 10 results
  /\ history = slice_last 10 (useAdSearch.searchHistory s ++ results).
Proof.
  intros Hlen Ho. cbv zeta.
  destruct (AdSearchFacts.searchAds_many_history conversationId calls
              w s n results Ho) as [Hl Hh].
  rewrite Hh by (destruct calls; [cbn in Hlen; lia | discriminate]).
  split; [exact Hl|].
  rewrite slice_last_app_ge by lia.
  split; [|split; reflexivity].
  rewrite slice_last_length. lia.
Qed.

Definition eleven_calls : list (list string * option string) :=
  map (fun i => (["query " +:+ pretty i], None)) (seq 1 11).

Definition eleven_results : list AdSearchResult.t :=
  Eval vm_compute in
    match outcome (AdSearchFacts.searchAds_many (Some session_uuid)
                     eleven_calls (online VNull) ad_search 0) with
    | Resolved results => results
    | Rejected _ => []
    end.

Lemma C6_history_witness :
  useAdSearch.searchHistory
    (state (AdSearchFacts.searchAds_many (Some session_uuid) eleven_calls
              (online VNull) ad_search 0))
  = slice_last 10 eleven_results.
Proof.
  refine (proj1 (proj2 (proj2 (C6_history_is_last_ten (Some session_uuid)
                   eleven_calls (online VNull) ad_search 0 eleven_results
                   _ _)))).
  - vm_compute. lia.
  - vm_compute. reflexivity.
Defined.

End AdSearch.

(* ===================================================================== *)
(** * Session initialisation *)
(* ===================================================================== *)

Section SessionInit.
Import Fixtures.

(** C7 does not hold of the code: a successful answer of the session
    service is adopted without any check of its shape. Whenever the
    backend answers with a success status and a body that is not
    [null], [initializeConversation] resolves with whatever the body
    has as [conversation_id] (nothing at all, for a body without one or
    a body that is no object), stores it as the session id, and reports
    [backendInitialized] true and a healthy session; no local
    identifier is generated and no error is recorded. *)
Theorem C7_backend_id_adopted_unchecked
    (customConfig : option ConversationInitConfig.t) (w : World)
    (s : useConversationManager.t) (n : nat)
    (this : InitializeConversationUseCase.t) (body : Remote.Json) :
  useConversationManager.initUseCaseRef s = Some this ->
  let cfg :=
    InitializeConversationUseCase.merge
      (InitializeConversationUseCase.defaultConfig this) customConfig in
  ConversationFacts.backend_answer
    (fetch w (S (S (S n))) (ConversationFacts.init_url this)
       (ConversationFacts.init_request this cfg w (S n)))
  = Some body ->
  let r := useConversationManager.initializeConversation customConfig w s n in
  outcome r = Resolved (ConversationFacts.answer_id body)
  /\ useConversationManager.conversationId (state r)
     = Some (ConversationFacts.answer_id body)
  /\ useConversationManager.backendInitialized (state r) = true
  /\ useConversationManager.isHealthy (state r) = true
  /\ useConversationManager.error (state r) = None.
Proof.
  intros Href. cbv zeta. intros Hbody.
  destruct (ConversationFacts.initializeConversation_run customConfig w s n
              this Href) as (Ho & Hid & Hbi & Hh & _ & _ & He).
  cbv zeta in Ho, Hid, Hbi.
  unfold ConversationFacts.chosen_id in Ho, Hid.
  rewrite Hbody in Ho, Hid, Hbi.
  repeat split; assumption.
Qed.

(** A body without [conversation_id]: the call succeeds with
    [undefined] as the session id and [backendInitialized] true. A
    body whose [conversation_id] is not a UUID: the call succeeds with
    that string, again with [backendInitialized] true. *)
Lemma C7_backend_id_witness :
  let r := useConversationManager.initializeConversation None
             (online VUndefined) conversation_manager 0 in
  let r' := useConversationManager.initializeConversation None
              (online (VString "session-42")) conversation_manager 0 in
  (outcome r = Resolved VUndefined
   /\ useConversationManager.conversationId (state r) = Some VUndefined
   /\ useConversationManager.backendInitialized (state r) = true)
  /\ (outcome r' = Resolved (VString "session-42")
      /\ useConversationManager.backendInitialized (state r') = true
      /\ uuidRegex_test "session-42" = false).
Proof.
  cbv zeta. split.
  - destruct (C7_backend_id_adopted_unchecked None (online VUndefined)
                conversation_manager 0 _
                (Remote.JsonObj
                   (Remote.mkObject (Some [toolkit_ad]) VUndefined
                      (Some "Here is an answer.") None None))
                eq_refl eq_refl) as (Ho & Hid & Hbi & _).
    repeat split; assumption.
  - destruct (C7_backend_id_adopted_unchecked None
                (online (VString "session-42")) conversation_manager 0 _
                (Remote.JsonObj
                   (Remote.mkObject (Some [toolkit_ad])
                      (VString "session-42")
                      (Some "Here is an answer.") None None))
                eq_refl eq_refl) as (Ho & _ & Hbi & _).
    repeat split; assumption.
Defined.

End SessionInit.

(* ===================================================================== *)
(** * The provider factory's cache *)
(* ===================================================================== *)

Section FactoryCache.
Import Fixtures.
Context {P : Type} `{AIProviderPlugin.Plugin P}.

(** C10. Once a [create] call for a type has resolved with an instance,
    every later [create] for that type on the resulting factory resolves
    with the same instance for any configuration whatsoever, leaves the
    factory as it is, takes no time and makes no call at all: neither
    [validateConfig] nor [initialize] is invoked. The same holds from
    any factory that holds an instance for the type. *)
Theorem C10_cached_instance_returned
    (providerType : string) (config config' : AIConfig.t) (w w' : World)
    (s : ProviderFactory.t P) (n n' : nat) (instance : nat) :
  (outcome (ProviderFactory.create providerType config w s n)
   = Resolved instance ->
   ProviderFactory.create providerType config' w'
     (state (ProviderFactory.create providerType config w s n)) n'
   = mkRes (Resolved instance)
       (state (ProviderFactory.create providerType config w s n)) n' [])
  /\ (ProviderFactory.activeProviders s !! providerType = Some instance ->
      ProviderFactory.create providerType config' w' s n'
      = mkRes (Resolved instance) s n' []).
Proof.
  split.
  - intros Ho. apply FactoryFacts.create_cached.
    apply FactoryFacts.create_resolved, Ho.
  - apply FactoryFacts.create_cached.
Qed.

End FactoryCache.

Lemma C10_cached_instance_witness :
  let first :=
    ProviderFactory.create "toolhouse" Fixtures.app_config
      (Fixtures.online VNull) Fixtures.fresh_factory 0 in
  ProviderFactory.create "toolhouse" Fixtures.unused_config Fixtures.offline
    (state first) 7
  = mkRes (Resolved 0%nat) (state first) 7 []
  /\ ProviderFactory.create "toolhouse" Fixtures.unused_config Fixtures.offline
       Fixtures.factory 7
     = mkRes (Resolved 0%nat) Fixtures.factory 7 [].
Proof.
  cbv zeta. split.
  - refine (proj1 (C10_cached_instance_returned "toolhouse" Fixtures.app_config
                     Fixtures.unused_config (Fixtures.online VNull)
                     Fixtures.offline Fixtures.fresh_factory 0 7 0%nat) _).
    vm_compute. reflexivity.
  - exact (proj2 (C10_cached_instance_returned "toolhouse"
                    Fixtures.unused_config Fixtures.unused_config
                    Fixtures.offline Fixtures.offline Fixtures.factory 0 7
                    0%nat) eq_refl).
Defined.

(* ===================================================================== *)
(** * Computations that cannot fail *)
(* ===================================================================== *)

Section Resolutions.
Context {St : Type}.

(** [m] resolves from every state, at every time, in every world. *)
Definition always_resolves {A} (m : M St A) : Prop :=
  forall w s n, exists a, outcome (m w s n) = Resolved a.

Lemma always_resolves_ret {A} (a : A) : always_resolves (ret a).
Proof. intros w s n. eexists. reflexivity. Qed.

Lemma always_resolves_gets {A} (g : St -> A) : always_resolves (gets g).
Proof. intros w s n. eexists. reflexivity. Qed.

Lemma always_resolves_modify (g : St -> St) : always_resolves (modify g).
Proof. intros w s n. eexists. reflexivity. Qed.

Lemma always_resolves_emit e : always_resolves (@emit St e).
Proof. intros w s n. eexists. reflexivity. Qed.

Lemma always_resolves_now : always_resolves (@now St).
Proof. intros w s n. eexists. reflexivity. Qed.

Lemma always_resolves_random_base36 : always_resolves (@random_base36 St).
Proof. intros w s n. eexists. reflexivity. Qed.

Lemma always_resolves_stringify v : always_resolves (@stringify St v).
Proof. intros w s n. eexists. reflexivity. Qed.

Lemma always_resolves_url_parses v : always_resolves (@url_parses St v).
Proof. intros w s n. eexists. reflexivity. Qed.

Lemma always_resolves_bind {A B} (m : M St A) (k : A -> M St B) :
  always_resolves m -> (forall a, always_resolves (k a)) ->
  always_resolves (bind m k).
Proof.
  intros Hm Hk w s n. destruct (Hm w s n) as [a Ha].
  rewrite (bind_resolved _ _ _ _ _ _ Ha). cbv zeta. cbn [outcome].
  apply Hk.
Qed.

(** A [catch] block that cannot fail makes the whole statement safe. *)
Lemma always_resolves_try_catch {A} (m : M St A) (h : Thrown -> M St A) :
  (forall t, always_resolves (h t)) -> always_resolves (try_catch m h).
Proof.
  intros Hh w s n. destruct (outcome (m w s n)) as [a|t] eqn:E.
  - rewrite (try_catch_resolved _ _ _ _ _ _ E). eauto.
  - rewrite (try_catch_rejected _ _ _ _ _ _ E). cbv zeta. cbn [outcome].
    apply Hh.
Qed.

End Resolutions.

Ltac resolve_step :=
  cbv beta zeta;
  lazymatch goal with
  | |- always_resolves (bind _ _) => apply always_resolves_bind; [|intros ?]
  | |- always_resolves (try_catch _ _) =>
      apply always_resolves_try_catch; intros ?
  | |- always_resolves (ret _) => apply always_resolves_ret
  | |- always_resolves (gets _) => apply always_resolves_gets
  | |- always_resolves (modify _) => apply always_resolves_modify
  | |- always_resolves (emit _) => apply always_resolves_emit
  | |- always_resolves now => apply always_resolves_now
  | |- always_resolves random_base36 => apply always_resolves_random_base36
  | |- always_resolves (stringify _) => apply always_resolves_stringify
  | |- always_resolves (url_parses _) => apply always_resolves_url_parses
  | |- always_resolves (if ?b then _ else _) => destruct b
  end.

Ltac resolves := repeat resolve_step.

(* ===================================================================== *)
(** * The request counters *)
(* ===================================================================== *)

Section Counters.
Context {St : Type} `{BaseAIProvider.Provider St}.
Hypothesis metrics_set :
  forall m s, BaseAIProvider.metrics (BaseAIProvider.set_metrics m s) = m.

(** The request and error counts of an adapter. *)
Definition tally (s : St) : nat * nat :=
  (ProviderMetrics.requestCount (BaseAIProvider.metrics s),
   ProviderMetrics.errorCount (BaseAIProvider.metrics s)).

Lemma updateMetrics_tally responseTime isError w s n :
  tally (state (BaseAIProvider.updateMetrics responseTime isError w s n))
  = (S (fst (tally s)),
     if isError then S (snd (tally s)) else snd (tally s)).
Proof using metrics_set.
  unfold BaseAIProvider.updateMetrics.
  rewrite bind_now, bind_modify.
  destruct isError.
  - rewrite bind_now. unfold modify, tally. cbn [state fst snd].
    rewrite !metrics_set. reflexivity.
  - unfold modify, tally. cbn [state fst snd].
    rewrite !metrics_set. reflexivity.
Qed.

(** [m] counts one request when it resolves and nothing when it
    rejects. *)
Definition counted {A} (m : M St A) : Prop :=
  forall w s n,
    tally (state (m w s n))
    = match outcome (m w s n) with
      | Resolved _ => (S (fst (tally s)), snd (tally s))
      | Rejected _ => tally s
      end.

Lemma counted_throwError {A} e : counted (@throwError St A e).
Proof. intros w s n. reflexivity. Qed.

Lemma counted_bind {A B} (m : M St A) (k : A -> M St B) :
  preserves tally m -> (forall a, counted (k a)) -> counted (bind m k).
Proof.
  intros Hm Hk w s n. destruct (outcome (m w s n)) as [a|t] eqn:E.
  - rewrite (bind_resolved _ _ _ _ _ _ E). cbv zeta. cbn [outcome state].
    rewrite Hk, Hm. reflexivity.
  - rewrite (bind_rejected _ _ _ _ _ _ E). cbv zeta. cbn [outcome state].
    apply Hm.
Qed.

Lemma counted_updateMetrics {B} responseTime (k : unit -> M St B) :
  preserves tally (k tt) -> always_resolves (k tt) ->
  counted (bind (BaseAIProvider.updateMetrics responseTime false) k).
Proof using metrics_set.
  intros Hp Hr w s n.
  destruct (updateMetrics_run responseTime false w s n) as [Hu _].
  rewrite (bind_resolved _ _ _ _ _ _ Hu). cbv zeta. cbn [outcome state].
  match goal with
  | |- context [k tt w ?s0 ?n0] => destruct (Hr w s0 n0) as [b Hb]
  end.
  rewrite Hb, Hp, updateMetrics_tally. reflexivity.
Qed.

(** The shape both adapters give [sendMessage]: whatever happens, the
    call is counted once, and once more as an error when it fails. *)
Lemma guarded_counted {A} (body : Z -> M St A) w s n :
  (forall startTime, counted (body startTime)) ->
  let r := (let* startTime := now in
            try_catch (body startTime)
              (fun error =>
                 let* t2 := now in
                 BaseAIProvider.handleError (errorOrUnknown error))) w s n in
  tally (state r)
  = (S (fst (tally s)),
     match outcome r with
     | Resolved _ => snd (tally s)
     | Rejected _ => S (snd (tally s))
     end).
Proof using metrics_set.
  intros Hb. cbv zeta. rewrite bind_now.
  specialize (Hb (Date_now w n) w s (S n)).
  destruct (outcome (body (Date_now w n) w s (S n))) as [a|t] eqn:E.
  - rewrite (try_catch_resolved _ _ _ _ _ _ E), E. exact Hb.
  - rewrite (try_catch_rejected _ _ _ _ _ _ E). cbv zeta.
    cbn [outcome state]. rewrite bind_now.
    unfold BaseAIProvider.handleError.
    match goal with
    | |- context [bind (BaseAIProvider.updateMetrics 0 true) _ ?w0 ?s0 ?n0] =>
        destruct (updateMetrics_run 0 true w0 s0 n0) as [Hu _];
        rewrite (bind_resolved _ _ _ _ _ _ Hu)
    end.
    cbv zeta. cbn [throwError throw outcome state].
    rewrite updateMetrics_tally, Hb. reflexivity.
Qed.

(** A rejection inside the [try] block that made no remote call: the
    error is thrown on, and whatever the metrics do not touch stays as
    the block left it. *)
Lemma guarded_rejected_state {A T} (f : St -> T) (body : Z -> M St A)
    w s n t s' n' :
  (forall m s, f (BaseAIProvider.set_metrics m s) = f s) ->
  body (Date_now w n) w s (S n) = mkRes (Rejected t) s' n' [] ->
  let r := (let* startTime := now in
            try_catch (body startTime)
              (fun error =>
                 let* t2 := now in
                 BaseAIProvider.handleError (errorOrUnknown error))) w s n in
  outcome r = Rejected (ThrowError (errorOrUnknown t))
  /\ trace r = []
  /\ f (state r) = f s'.
Proof.
  intros Hf Hb. cbv zeta. rewrite bind_now.
  rewrite (try_catch_eq_rejected _ _ _ _ _ _ _ _ _ Hb). rewrite bind_now.
  match goal with
  | |- context [BaseAIProvider.handleError ?e ?w' ?s0 ?n0] =>
      destruct (handleError_run (A:=A) e w' s0 n0) as [Ho Ht];
      pose proof (preserves_handleError f Hf (A:=A) e w' s0 n0) as Hs
  end.
  cbn [outcome trace state app]. rewrite Ho, Ht, Hs. auto.
Qed.

End Counters.

(* ===================================================================== *)
(** * More on the agent adapter *)
(* ===================================================================== *)

Module ToolhouseMore.
Import ToolhouseProvider.

Lemma testMCPConnection_resolves : always_resolves testMCPConnection.
Proof. unfold testMCPConnection. resolves. Qed.

Lemma testMCPConnection_state w s n :
  state (testMCPConnection w s n) = s.
Proof.
  apply (@preserves_try_catch t t (fun s => s)); [|intros; frame].
  frame. unfold initializeTestConversation. frame.
Qed.

(** The probe never fails, so the health check reports whether the
    adapter is configured. *)
Lemma isHealthy_run w s n :
  outcome (isHealthy w s n) = Resolved (initialized s)
  /\ state (isHealthy w s n) = s.
Proof.
  unfold isHealthy.
  destruct (initialized s) eqn:Hi.
  - destruct (testMCPConnection_resolves w s n) as [[] Ht].
    pose proof (testMCPConnection_state w s n) as Hs.
    set (probe := testMCPConnection) in *.
    clearbody probe.
    assert (Hb : outcome
                   ((let* ready := gets initialized in
                     if negb ready then ret false
                     else do probe then ret true) w s n) = Resolved true
                 /\ state
                      ((let* ready := gets initialized in
                        if negb ready then ret false
                        else do probe then ret true) w s n) = s).
    { rewrite bind_gets, Hi. cbn [negb].
      rewrite (bind_resolved _ _ _ _ _ _ Ht). cbv zeta.
      cbn [ret outcome state]. auto. }
    destruct Hb as [Ho Hst].
    rewrite (try_catch_resolved _ _ _ _ _ _ Ho). auto.
  - erewrite try_catch_eq_resolved
      by (rewrite bind_gets, Hi; reflexivity).
    auto.
Qed.

(** Walking the ads succeeds exactly when they are well formed. *)
Lemma records_well_formed entries :
  forallb (fun e => bool_decide (is_Some e)) entries = true ->
  McpAds.records entries = inr (omap (fun e => e) entries).
Proof.
  induction entries as [|[ad|] rest IH]; cbn; [reflexivity| |discriminate].
  intros Hrest. rewrite (IH Hrest). reflexivity.
Qed.

Lemma records_ill_formed entries :
  forallb (fun e => bool_decide (is_Some e)) entries = false ->
  McpAds.records entries
  = inl (MkError TypeError
           "Cannot read properties of null (reading 'title')" None).
Proof.
  induction entries as [|[ad|] rest IH]; cbn; [discriminate| |reflexivity].
  intros Hrest. rewrite (IH Hrest). reflexivity.
Qed.

Lemma listed_well_formed ads :
  McpAds.well_formed ads = true -> exists l, McpAds.listed ads = inr l.
Proof.
  unfold McpAds.listed.
  destruct ads as [|entries|[|]]; cbn; intros Hw; try discriminate; eauto.
  rewrite (records_well_formed _ Hw).
  destruct (negb _); eauto.
Qed.

Lemma listed_ill_formed ads :
  McpAds.well_formed ads = false ->
  exists e, McpAds.listed ads = inl e /\ err_class e = TypeError.
Proof.
  unfold McpAds.listed.
  destruct ads as [|entries|[|]]; cbn; intros Hw; try discriminate.
  - rewrite (records_ill_formed _ Hw).
    destruct entries; [discriminate|]. cbn. eauto.
  - eauto.
Qed.

Lemma generateAIResponse_resolves message mcpResponse :
  McpAds.well_formed (mcp_ads mcpResponse) = true ->
  always_resolves (generateAIResponse message mcpResponse).
Proof.
  intros Hw. destruct (listed_well_formed _ Hw) as [l Hl].
  unfold generateAIResponse. rewrite Hl. cbn [of_sum]. resolves.
Qed.

(** Ads that cannot be walked make the answer generation fail twice,
    in the [try] block and in the [catch] block, before any call. *)
Lemma generateAIResponse_ill_formed message mcpResponse w s n :
  McpAds.well_formed (mcp_ads mcpResponse) = false ->
  exists e,
    McpAds.listed (mcp_ads mcpResponse) = inl e
    /\ err_class e = TypeError
    /\ generateAIResponse message mcpResponse w s n
       = mkRes (Rejected (ThrowError e)) s n [].
Proof.
  intros Hw. destruct (listed_ill_formed _ Hw) as (e & He & Hc).
  exists e. split; [exact He|]. split; [exact Hc|].
  unfold generateAIResponse. rewrite He. cbn [of_sum].
  unfold try_catch, bind, stringify, throwError, throw.
  cbn [outcome state clock trace app]. reflexivity.
Qed.

Lemma generateAIResponse_state message mcpResponse w s n :
  state (generateAIResponse message mcpResponse w s n) = s.
Proof.
  apply (@preserves_try_catch t t (fun s => s)); [|intros; frame].
  frame. unfold callToolhouseAgent, read_stream. frame.
Qed.

Lemma searchMCPContent_found message w s n client content ads :
  mcpClient s = Some client ->
  ToolhouseFacts.conversation_id_accepted message = true ->
  MCPClient_searchContentAds w n (MCPClient.mcpUrl client)
    [AIMessage.content message]
    (or_else (metadata_creatorId message) "default")
    (metadata_conversationId message)
  = inr (Remote.McpObject content ads) ->
  searchMCPContent message w s n
  = mkRes (Resolved (mkMcp content ads)) s (S n)
      [EMcpSearch (MCPClient.mcpUrl client) [AIMessage.content message]
         (or_else (metadata_creatorId message) "default")
         (metadata_conversationId message)].
Proof.
  intros Hclient Hid Hmcp. unfold searchMCPContent.
  rewrite bind_gets, Hclient.
  unfold ToolhouseFacts.conversation_id_accepted in Hid.
  apply andb_true_iff in Hid as [Ht Hv]. rewrite Ht, Hv. cbn [negb].
  apply try_catch_eq_resolved.
  unfold bind, do_searchContentAds. cbn [outcome state clock trace].
  rewrite Hmcp. reflexivity.
Qed.

Lemma agent_generateConversationId_run w s n :
  generateConversationId w s n
  = mkRes (Resolved ("local_toolhouse_" +:+ pretty (Date_now w n) +:+ "_"
                     +:+ Math_random_base36 w (S n))) s (S (S n)) [].
Proof.
  unfold generateConversationId.
  rewrite bind_now, bind_random_base36. reflexivity.
Qed.

(** What follows the answer generation in [sendMessage]. *)
Definition finish (startTime : Z) (ai : string * Usage.t) (mcp : McpResult)
    : M t AIResponse.t :=
  let* t1 := now in
  let responseTime := (t1 - startTime)%Z in
  do BaseAIProvider.updateMetrics responseTime false then
  let* run := gets runId in
  let* conversationId :=
    (if truthy run then ret (default EmptyString run)
     else generateConversationId) in
  AIResponseEntity_create (fst ai) conversationId "toolhouse"
    (ResponseMetadata.mk (Some "local-toolhouse-mcp")
       (Some (snd ai)) (Some responseTime) run
       (mcp_ads mcp) (mcp_content mcp) None).

(** [sendMessage] over the ad search, the answer generation and the
    final step it is made of. *)
Definition sendMessage_with (find : M t McpResult)
    (gen : McpResult -> M t (string * Usage.t))
    (fin : Z -> string * Usage.t -> McpResult -> M t AIResponse.t)
    (message : AIMessage.t) : M t AIResponse.t :=
  let* startTime := now in
  try_catch
    (do BaseAIProvider.validateMessage message then
     let* ready := gets initialized in
     if negb ready then
       throwError
         (newProviderRequestError name "Provider not initialized" None)
     else
       do modify (fun s =>
            set_conversationHistory (conversationHistory s ++ [message]) s) then
       let* mcpResponse := find in
       let* aiResponse := gen mcpResponse in
       fin startTime aiResponse mcpResponse)
    (fun error =>
       let* t2 := now in
       BaseAIProvider.handleError (errorOrUnknown error)).

Lemma agent_sendMessage_unfold message :
  sendMessage message
  = sendMessage_with (searchMCPContent message) (generateAIResponse message)
      finish message.
Proof. reflexivity. Qed.

Lemma agent_finish_resolves startTime (ai : string * Usage.t) mcp w s n :
  exists response,
    outcome (finish startTime ai mcp w s n) = Resolved response
    /\ AIResponse.source response = "toolhouse"
    /\ ResponseMetadata.mcpAds (AIResponse.metadata response) = mcp_ads mcp
    /\ ResponseMetadata.mcpContent (AIResponse.metadata response)
       = mcp_content mcp.
Proof.
  unfold finish. cbv zeta. rewrite bind_now.
  match goal with
  | |- context [bind (BaseAIProvider.updateMetrics ?rt false) _ ?w0 ?s0 ?n0] =>
      destruct (updateMetrics_run rt false w0 s0 n0) as [Hu _];
      rewrite (bind_resolved _ _ _ _ _ _ Hu)
  end.
  cbv zeta. cbn [outcome]. rewrite bind_gets.
  unfold AIResponseEntity_create.
  destruct (truthy _).
  - rewrite bind_ret, bind_now, bind_random_base36.
    eexists. cbn [ret outcome]. repeat split.
  - erewrite bind_eq_resolved by apply agent_generateConversationId_run.
    rewrite bind_now, bind_random_base36.
    eexists. cbn [ret outcome]. repeat split.
Qed.

Section WithParts.
Variable find : M t McpResult.
Variable gen : McpResult -> M t (string * Usage.t).
Variable fin : Z -> string * Usage.t -> McpResult -> M t AIResponse.t.

Lemma sendMessage_with_resolved message w s n mcp tr ai response :
  BaseAIProvider.content_empty (AIMessage.content message) = false ->
  BaseAIProvider.role_valid (AIMessage.role message) = true ->
  initialized s = true ->
  let s1 := set_conversationHistory (conversationHistory s ++ [message]) s in
  find w s1 (S n) = mkRes (Resolved mcp) s1 (S (S n)) tr ->
  outcome (gen mcp w s1 (S (S n))) = Resolved ai ->
  let g := gen mcp w s1 (S (S n)) in
  outcome (fin (Date_now w n) ai mcp w (state g) (clock g))
  = Resolved response ->
  outcome (sendMessage_with find gen fin message w s n) = Resolved response
  /\ exists tr', trace (sendMessage_with find gen fin message w s n)
                 = tr ++ tr'.
Proof using Type.
  intros Hc Hr Hs s1 Hfind Hgen g Hfin.
  unfold sendMessage_with.
  rewrite (validateMessage_ok message Hc Hr), bind_now.
  match goal with
  | |- context [try_catch ?b ?h w s (S n)] =>
      assert (Hb : exists tr', b w s (S n)
                   = mkRes (Resolved response)
                       (state (fin (Date_now w n) ai mcp w (state g) (clock g)))
                       (clock (fin (Date_now w n) ai mcp w (state g) (clock g)))
                       (tr ++ tr'))
  end.
  { rewrite bind_ret, bind_gets, Hs. cbn [negb]. rewrite bind_modify.
    fold s1. erewrite bind_eq_resolved by exact Hfind.
    rewrite (bind_resolved _ _ _ _ _ _ Hgen). cbv zeta.
    fold g. rewrite Hfin. eexists. reflexivity. }
  destruct Hb as [tr' Hb].
  rewrite (try_catch_eq_resolved _ _ _ _ _ _ _ _ _ Hb).
  split; [reflexivity | exists tr'; reflexivity].
Qed.

(** An answer generation that throws at once ends the call with that
    error, after the ad search alone. *)
Lemma sendMessage_with_gen_rejected message w s n mcp tr e :
  BaseAIProvider.content_empty (AIMessage.content message) = false ->
  BaseAIProvider.role_valid (AIMessage.role message) = true ->
  initialized s = true ->
  let s1 := set_conversationHistory (conversationHistory s ++ [message]) s in
  find w s1 (S n) = mkRes (Resolved mcp) s1 (S (S n)) tr ->
  gen mcp w s1 (S (S n)) = mkRes (Rejected (ThrowError e)) s1 (S (S n)) [] ->
  outcome (sendMessage_with find gen fin message w s n)
  = Rejected (ThrowError e)
  /\ trace (sendMessage_with find gen fin message w s n) = tr.
Proof using Type.
  intros Hc Hr Hs s1 Hfind Hgen.
  unfold sendMessage_with.
  rewrite (validateMessage_ok message Hc Hr), bind_now.
  erewrite try_catch_eq_rejected.
  2:{ rewrite bind_ret, bind_gets, Hs. cbn [negb]. rewrite bind_modify.
      fold s1. erewrite bind_eq_resolved by exact Hfind.
      erewrite bind_eq_rejected by exact Hgen. reflexivity. }
  rewrite bind_now.
  match goal with
  | |- context [BaseAIProvider.handleError ?err ?w' ?s0 ?n0] =>
      destruct (handleError_run (A:=AIResponse.t) err w' s0 n0) as [Ho Ht]
  end.
  cbn [outcome trace]. rewrite Ho, Ht, !app_nil_r. auto.
Qed.

End WithParts.

Lemma sendMessage_found message w s n client content ads :
  BaseAIProvider.content_empty (AIMessage.content message) = false ->
  BaseAIProvider.role_valid (AIMessage.role message) = true ->
  initialized s = true ->
  mcpClient s = Some client ->
  ToolhouseFacts.conversation_id_accepted message = true ->
  MCPClient_searchContentAds w (S n) (MCPClient.mcpUrl client)
    [AIMessage.content message]
    (or_else (metadata_creatorId message) "default")
    (metadata_conversationId message)
  = inr (Remote.McpObject content ads) ->
  McpAds.well_formed ads = true ->
  exists response tr,
    outcome (sendMessage message w s n) = Resolved response
    /\ AIResponse.source response = "toolhouse"
    /\ ResponseMetadata.mcpAds (AIResponse.metadata response) = ads
    /\ ResponseMetadata.mcpContent (AIResponse.metadata response) = content
    /\ trace (sendMessage message w s n)
       = EMcpSearch (MCPClient.mcpUrl client) [AIMessage.content message]
           (or_else (metadata_creatorId message) "default")
           (metadata_conversationId message) :: tr.
Proof.
  intros Hc Hr Hs Hclient Hid Hmcp Hads_ok.
  set (s1 := set_conversationHistory (conversationHistory s ++ [message]) s).
  pose proof (searchMCPContent_found message w s1 (S n) client content ads
                Hclient Hid Hmcp) as Hsearch.
  destruct (generateAIResponse_resolves message (mkMcp content ads)
              Hads_ok w s1 (S (S n))) as [ai Hai].
  destruct (agent_finish_resolves (Date_now w n) ai (mkMcp content ads) w
              (state (generateAIResponse message (mkMcp content ads)
                        w s1 (S (S n))))
              (clock (generateAIResponse message (mkMcp content ads)
                        w s1 (S (S n)))))
    as (response & Hfin & Hsrc & Hads & Hcontent).
  rewrite agent_sendMessage_unfold.
  destruct (sendMessage_with_resolved (searchMCPContent message)
              (generateAIResponse message) finish message w s n
              (mkMcp content ads) _ ai response Hc Hr Hs Hsearch Hai
              Hfin) as [Ho [tr' Htr]].
  exists response, tr'. rewrite Ho, Htr. auto.
Qed.

(** Ads that cannot be walked end the call in the [TypeError] of the
    walk, once the ad search has been made. *)
Lemma sendMessage_ill_formed message w s n client content ads :
  BaseAIProvider.content_empty (AIMessage.content message) = false ->
  BaseAIProvider.role_valid (AIMessage.role message) = true ->
  initialized s = true ->
  mcpClient s = Some client ->
  ToolhouseFacts.conversation_id_accepted message = true ->
  MCPClient_searchContentAds w (S n) (MCPClient.mcpUrl client)
    [AIMessage.content message]
    (or_else (metadata_creatorId message) "default")
    (metadata_conversationId message)
  = inr (Remote.McpObject content ads) ->
  McpAds.well_formed ads = false ->
  exists e,
    err_class e = TypeError
    /\ outcome (sendMessage message w s n) = Rejected (ThrowError e)
    /\ trace (sendMessage message w s n)
       = [EMcpSearch (MCPClient.mcpUrl client) [AIMessage.content message]
            (or_else (metadata_creatorId message) "default")
            (metadata_conversationId message)].
Proof.
  intros Hc Hr Hs Hclient Hid Hmcp Hbad.
  set (s1 := set_conversationHistory (conversationHistory s ++ [message]) s).
  pose proof (searchMCPContent_found message w s1 (S n) client content ads
                Hclient Hid Hmcp) as Hsearch.
  destruct (generateAIResponse_ill_formed message (mkMcp content ads)
              w s1 (S (S n)) Hbad) as (e & _ & He & Hgen).
  rewrite agent_sendMessage_unfold.
  destruct (sendMessage_with_gen_rejected (searchMCPContent message)
              (generateAIResponse message) finish message w s n
              (mkMcp content ads) _ e Hc Hr Hs Hsearch Hgen) as [Ho Htr].
  exists e. rewrite Ho, Htr. auto.
Qed.

Lemma preserves_tally_searchMCPContent message :
  preserves tally (searchMCPContent message).
Proof. unfold searchMCPContent. frame. Qed.

Lemma preserves_tally_generateAIResponse message mcpResponse :
  preserves tally (generateAIResponse message mcpResponse).
Proof.
  unfold generateAIResponse. frame.
  unfold callToolhouseAgent, read_stream. frame.
Qed.

Lemma agent_counted_body message startTime :
  counted
    (do BaseAIProvider.validateMessage message then
     let* ready := gets initialized in
     if negb ready then
       throwError
         (newProviderRequestError name "Provider not initialized" None)
     else
       do modify (fun s =>
            set_conversationHistory (conversationHistory s ++ [message]) s) then
       let* mcpResponse := searchMCPContent message in
       let* aiResponse := generateAIResponse message mcpResponse in
       finish startTime aiResponse mcpResponse).
Proof.
  apply counted_bind; [apply preserves_validateMessage | intros _].
  apply counted_bind; [frame | intros ready].
  destruct (negb ready); [apply counted_throwError|].
  apply counted_bind; [frame | intros _].
  apply counted_bind; [apply preserves_tally_searchMCPContent | intros mcp].
  apply counted_bind;
    [apply preserves_tally_generateAIResponse | intros ai].
  unfold finish.
  apply counted_bind; [frame | intros t1]. cbv zeta.
  apply counted_updateMetrics; [reflexivity | |].
  - unfold generateConversationId, AIResponseEntity_create. frame.
  - unfold generateConversationId, AIResponseEntity_create. resolves.
Qed.

(** Without an acceptable session id the ad search throws, so the
    adapter cannot answer, whatever its state. *)
Lemma searchMCPContent_needs_id message w :
  ToolhouseFacts.conversation_id_accepted message = false ->
  always_rejects (searchMCPContent message) w.
Proof.
  intros Hid. unfold searchMCPContent.
  apply always_rejects_bind_r. intros [client|];
    [|apply always_rejects_throwError].
  apply always_rejects_rethrow.
  unfold ToolhouseFacts.conversation_id_accepted in Hid.
  destruct (truthy (metadata_conversationId message)); cbn [negb];
    [|apply always_rejects_throwError].
  cbn [andb] in Hid. rewrite Hid. cbn [negb].
  apply always_rejects_throwError.
Qed.

Lemma sendMessage_needs_id message w :
  ToolhouseFacts.conversation_id_accepted message = false ->
  always_rejects (sendMessage message) w.
Proof.
  intros Hid. unfold sendMessage.
  apply always_rejects_bind_r. intros startTime.
  apply always_rejects_try_catch.
  - apply always_rejects_bind_r. intros _.
    apply always_rejects_bind_r. intros ready.
    destruct (negb ready); [apply always_rejects_throwError|].
    apply always_rejects_bind_r. intros _.
    apply always_rejects_bind_l, searchMCPContent_needs_id, Hid.
  - intros t. apply always_rejects_bind_r. intros _.
    apply handleError_always_rejects.
Qed.

End ToolhouseMore.

(* ===================================================================== *)
(** * More on the direct-completion adapter *)
(* ===================================================================== *)

Module OpenRouterMore.
Import OpenRouterProvider.

Lemma callOpenRouterAPI_state message w s n :
  state (callOpenRouterAPI message w s n) = s.
Proof.
  apply (@preserves_bind t t (fun s => s)); [frame | intros cfg].
  unfold buildMessagesArray, error_detail. frame.
Qed.

Lemma preserves_tally_callOpenRouterAPI message :
  preserves tally (callOpenRouterAPI message).
Proof.
  intros w s n. rewrite callOpenRouterAPI_state. reflexivity.
Qed.

Lemma generateMessageId_run w s n :
  generateMessageId w s n
  = mkRes (Resolved ("msg_" +:+ pretty (Date_now w n) +:+ "_"
                     +:+ Math_random_base36 w (S n))) s (S (S n)) [].
Proof.
  unfold generateMessageId.
  rewrite bind_now, bind_random_base36. reflexivity.
Qed.

Lemma completion_generateConversationId_run w s n :
  generateConversationId w s n
  = mkRes (Resolved ("openrouter_" +:+ pretty (Date_now w n) +:+ "_"
                     +:+ Math_random_base36 w (S n))) s (S (S n)) [].
Proof.
  unfold generateConversationId.
  rewrite bind_now, bind_random_base36. reflexivity.
Qed.

(** What follows the completion call in [sendMessage]. *)
Definition finish (startTime : Z) (response : string * option Usage.t)
    : M t AIResponse.t :=
  let* t1 := now in
  let responseTime := (t1 - startTime)%Z in
  do BaseAIProvider.updateMetrics responseTime false then
  let* assistantId := generateMessageId in
  let* assistantTime := now in
  let* model := gets config_model in
  let assistantMessage :=
    AIMessage.mk assistantId (fst response) "assistant" assistantTime
      (Some (Metadata.mk None None None None (Some name) (Some model))) in
  do modify (fun s =>
       set_conversationHistory
         (conversationHistory s ++ [assistantMessage]) s) then
  let* conversationId := generateConversationId in
  let* conversationLength := gets (fun s => length (conversationHistory s)) in
  AIResponseEntity_create (fst response) conversationId "openrouter"
    (ResponseMetadata.mk (Some model) (snd response) (Some responseTime)
       None McpAds.Absent None (Some conversationLength)).

(** [sendMessage] over the completion call it makes and the step that
    follows it. *)
Definition sendMessage_with (call : M t (string * option Usage.t))
    (fin : Z -> string * option Usage.t -> M t AIResponse.t)
    (message : AIMessage.t) : M t AIResponse.t :=
  let* startTime := now in
  try_catch
    (do BaseAIProvider.validateMessage message then
     let* ready := gets initialized in
     if negb ready then
       throwError
         (newProviderRequestError name "Provider not initialized" None)
     else
       do modify (fun s =>
            set_conversationHistory (conversationHistory s ++ [message]) s) then
       do modify (fun s =>
            if Nat.ltb 20 (length (conversationHistory s))
            then set_conversationHistory
                   (slice_last 20 (conversationHistory s)) s
            else s) then
       let* response := call in
       fin startTime response)
    (fun error =>
       let* t2 := now in
       BaseAIProvider.handleError (errorOrUnknown error)).

Lemma completion_sendMessage_unfold message :
  sendMessage message
  = sendMessage_with (callOpenRouterAPI message) finish message.
Proof. reflexivity. Qed.

Lemma finish_run startTime response w s n :
  exists result assistant,
    outcome (finish startTime response w s n) = Resolved result
    /\ conversationHistory (state (finish startTime response w s n))
       = conversationHistory s ++ [assistant]
    /\ AIMessage.role assistant = "assistant"
    /\ AIMessage.content assistant = fst response
    /\ AIResponse.content result = fst response
    /\ AIResponse.source result = "openrouter"
    /\ ResponseMetadata.conversationLength (AIResponse.metadata result)
       = Some (S (length (conversationHistory s))).
Proof.
  unfold finish. rewrite bind_now. cbv zeta.
  match goal with
  | |- context [bind (BaseAIProvider.updateMetrics ?rt false) _ ?w0 ?s0 ?n0] =>
      destruct (updateMetrics_run rt false w0 s0 n0) as [Hu _];
      pose proof (preserves_updateMetrics conversationHistory
                    (fun _ _ => eq_refl) rt false w0 s0 n0) as Hh;
      rewrite (bind_resolved _ _ _ _ _ _ Hu); cbv zeta;
      set (s1 := state (BaseAIProvider.updateMetrics rt false w0 s0 n0)) in *;
      set (n1 := clock (BaseAIProvider.updateMetrics rt false w0 s0 n0)) in *
  end.
  clearbody s1 n1. cbv zeta.
  erewrite bind_eq_resolved by apply generateMessageId_run.
  rewrite bind_now, bind_gets, bind_modify.
  erewrite bind_eq_resolved by apply completion_generateConversationId_run.
  rewrite bind_gets. unfold AIResponseEntity_create.
  rewrite bind_now, bind_random_base36.
  cbn [ret outcome state conversationHistory set_conversationHistory
       AIResponse.content AIResponse.source AIResponse.metadata
       ResponseMetadata.conversationLength].
  do 2 eexists. split; [reflexivity|].
  rewrite Hh. split; [reflexivity|].
  rewrite length_app. cbn [length AIMessage.role AIMessage.content].
  repeat split. cbn [AIResponse.metadata ResponseMetadata.conversationLength].
  f_equal. lia.
Qed.

Lemma completion_finish_resolves startTime response :
  always_resolves (finish startTime response).
Proof.
  intros w s n.
  destruct (finish_run startTime response w s n) as (result & _ & Ho & _).
  eauto.
Qed.

Lemma preserves_tally_rest startTime response t1 :
  preserves tally
    (let* assistantId := generateMessageId in
     let* assistantTime := now in
     let* model := gets config_model in
     let assistantMessage :=
       AIMessage.mk assistantId (fst response) "assistant" assistantTime
         (Some (Metadata.mk None None None None (Some name) (Some model))) in
     do modify (fun s =>
          set_conversationHistory
            (conversationHistory s ++ [assistantMessage]) s) then
     let* conversationId := generateConversationId in
     let* conversationLength :=
       gets (fun s => length (conversationHistory s)) in
     AIResponseEntity_create (fst response) conversationId "openrouter"
       (ResponseMetadata.mk (Some model) (snd response)
          (Some (t1 - startTime)%Z) None McpAds.Absent None
          (Some conversationLength))).
Proof.
  unfold generateMessageId, generateConversationId, AIResponseEntity_create.
  frame.
Qed.

Lemma completion_counted_body message startTime :
  counted
    (do BaseAIProvider.validateMessage message then
     let* ready := gets initialized in
     if negb ready then
       throwError
         (newProviderRequestError name "Provider not initialized" None)
     else
       do modify (fun s =>
            set_conversationHistory (conversationHistory s ++ [message]) s) then
       do modify (fun s =>
            if Nat.ltb 20 (length (conversationHistory s))
            then set_conversationHistory
                   (slice_last 20 (conversationHistory s)) s
            else s) then
       let* response := callOpenRouterAPI message in
       finish startTime response).
Proof.
  apply counted_bind; [apply preserves_validateMessage | intros _].
  apply counted_bind; [frame | intros ready].
  destruct (negb ready); [apply counted_throwError|].
  apply counted_bind; [frame | intros _].
  apply counted_bind.
  { apply preserves_modify. intros s.
    destruct (Nat.ltb 20 (length (conversationHistory s))); reflexivity. }
  intros _.
  apply counted_bind; [apply preserves_tally_callOpenRouterAPI|].
  intros response. unfold finish.
  apply counted_bind; [frame | intros t1]. cbv zeta.
  apply counted_updateMetrics; [reflexivity | |].
  - apply preserves_tally_rest.
  - unfold generateMessageId, generateConversationId,
      AIResponseEntity_create. resolves.
Qed.

Section WithCall.
Variable call : M t (string * option Usage.t).
Variable fin : Z -> string * option Usage.t -> M t AIResponse.t.
Hypothesis call_state : forall w s n, state (call w s n) = s.
Hypothesis fin_run : forall startTime response w s n,
  exists result assistant,
    outcome (fin startTime response w s n) = Resolved result
    /\ conversationHistory (state (fin startTime response w s n))
       = conversationHistory s ++ [assistant]
    /\ AIMessage.role assistant = "assistant"
    /\ AIMessage.content assistant = AIResponse.content result.

(** The history after a call that got past validation: the windowed
    history, and behind it the assistant's turn if there was one. *)
Lemma sendMessage_with_history message w s n :
  BaseAIProvider.content_empty (AIMessage.content message) = false ->
  BaseAIProvider.role_valid (AIMessage.role message) = true ->
  initialized s = true ->
  let r := sendMessage_with call fin message w s n in
  let kept := OpenRouterFacts.window (conversationHistory s) message in
  match outcome r with
  | Resolved result =>
      exists assistant,
        conversationHistory (state r) = kept ++ [assistant]
        /\ AIMessage.role assistant = "assistant"
        /\ AIMessage.content assistant = AIResponse.content result
  | Rejected _ => conversationHistory (state r) = kept
  end.
Proof using call_state fin_run.
  intros Hc Hr Hs. cbv zeta. unfold sendMessage_with.
  rewrite (validateMessage_ok message Hc Hr), bind_now.
  set (kept := OpenRouterFacts.window (conversationHistory s) message).
  set (s1 := set_conversationHistory kept s).
  assert (Hkept : conversationHistory s1 = kept) by reflexivity.
  match goal with
  | |- context [try_catch ?b ?h w s (S n)] =>
      assert (Hb : b w s (S n)
                   = (let* response := call in
                      fin (Date_now w n) response) w s1 (S n))
  end.
  { rewrite bind_ret, bind_gets, Hs. cbn [negb]. rewrite !bind_modify.
    match goal with
    | |- _ w ?sa _ = _ =>
        assert (Hsa : sa = s1)
          by (unfold s1, kept, OpenRouterFacts.window;
              cbn [conversationHistory set_conversationHistory];
              destruct (Nat.ltb 20
                          (length (conversationHistory s ++ [message])));
              reflexivity);
        rewrite Hsa
    end.
    reflexivity. }
  clearbody s1 kept.
  destruct (outcome (call w s1 (S n))) as [response|t] eqn:Hcall.
  - destruct (fin_run (Date_now w n) response w (state (call w s1 (S n)))
                (clock (call w s1 (S n))))
      as (result & assistant & Ho & Hh & Hrole & Hcontent).
    rewrite call_state, Hkept in Hh.
    rewrite (bind_resolved _ _ _ _ _ _ Hcall) in Hb. cbv zeta in Hb.
    rewrite Ho, call_state in Hb.
    rewrite (try_catch_eq_resolved _ _ _ _ _ _ _ _ _ Hb).
    cbn [outcome state]. exists assistant. auto.
  - rewrite (bind_rejected _ _ _ _ _ _ Hcall) in Hb. cbv zeta in Hb.
    rewrite (try_catch_eq_rejected _ _ _ _ _ _ _ _ _ Hb).
    cbn [outcome]. rewrite bind_now.
    match goal with
    | |- context [BaseAIProvider.handleError ?e ?w' ?s0 ?n0] =>
        destruct (handleError_run (A:=AIResponse.t) e w' s0 n0) as [Ho _];
        pose proof (preserves_handleError conversationHistory
                      (fun _ _ => eq_refl) (A:=AIResponse.t) e w' s0 n0)
          as Hh
    end.
    rewrite Ho. cbn [state]. rewrite Hh, call_state. exact Hkept.
Qed.

End WithCall.

Lemma completion_sendMessage_history message w s n :
  BaseAIProvider.content_empty (AIMessage.content message) = false ->
  BaseAIProvider.role_valid (AIMessage.role message) = true ->
  initialized s = true ->
  let r := sendMessage message w s n in
  let kept := OpenRouterFacts.window (conversationHistory s) message in
  match outcome r with
  | Resolved result =>
      exists assistant,
        conversationHistory (state r) = kept ++ [assistant]
        /\ AIMessage.role assistant = "assistant"
        /\ AIMessage.content assistant = AIResponse.content result
  | Rejected _ => conversationHistory (state r) = kept
  end.
Proof.
  rewrite completion_sendMessage_unfold.
  apply sendMessage_with_history; [apply callOpenRouterAPI_state|].
  intros startTime response w' s' n'.
  destruct (finish_run startTime response w' s' n')
    as (result & assistant & Ho & Hh & Hrole & Hcontent & Hres & _).
  exists result, assistant. rewrite Hres. auto.
Qed.

(** A message that fails validation, or reaches an adapter that is not
    initialised, leaves the history alone. *)
Lemma sendMessage_refused message w s n :
  BaseAIProvider.content_empty (AIMessage.content message) = true
  \/ BaseAIProvider.role_valid (AIMessage.role message) = false
  \/ initialized s = false ->
  conversationHistory (state (sendMessage message w s n))
  = conversationHistory s.
Proof.
  intros Hcase. unfold sendMessage.
  match goal with
  | |- context [bind now (fun st => try_catch (@?b st) _)] =>
      assert (Hb : exists t, b (Date_now w n) w s (S n)
                             = mkRes (Rejected t) s (S n) [])
  end.
  { cbv beta. unfold BaseAIProvider.validateMessage.
    destruct (BaseAIProvider.content_empty (AIMessage.content message));
      [eexists; reflexivity|].
    destruct (BaseAIProvider.role_valid (AIMessage.role message));
      [|eexists; reflexivity].
    destruct Hcase as [Hc | [Hr | Hs]]; try discriminate.
    cbn [negb]. rewrite bind_ret, bind_gets, Hs. eexists. reflexivity. }
  destruct Hb as [t Hb].
  match goal with
  | |- context [bind now (fun st => try_catch (@?b st) _)] =>
      apply (guarded_rejected_state conversationHistory b w s n t s (S n));
        [reflexivity | exact Hb]
  end.
Qed.

Lemma outgoing_first_turn message :
  OpenRouterFacts.outgoing [] message = [api_message message].
Proof.
  unfold OpenRouterFacts.outgoing, OpenRouterFacts.window.
  cbn [app length Nat.ltb Nat.leb Nat.eqb List.filter].
  rewrite String.eqb_refl. reflexivity.
Qed.

(** The connection test [initialize] runs on the configuration it has
    just stored. *)
Lemma testConnection_run w s n cfg :
  openRouterConfig s = Some cfg ->
  let url := OpenRouterConfig.baseUrl cfg +:+ "/chat/completions" in
  let ping := Remote.ReqPing (OpenRouterConfig.apiKey cfg)
                (OpenRouterConfig.model cfg) in
  let r := testConnection w s n in
  state r = s
  /\ trace r = [EFetch url ping]
  /\ match fetch w n url ping with
     | inr response =>
         if Remote.ok response then outcome r = Resolved tt
         else exists e, outcome r = Rejected (ThrowError e)
     | inl _ => exists e, outcome r = Rejected (ThrowError e)
     end.
Proof.
  intros Hcfg. cbv zeta. unfold testConnection.
  split; [|split].
  - apply (@preserves_try_catch t t (fun s => s)); [|intros; frame].
    unfold error_detail. frame.
  - rewrite trace_try_catch_silent by (intros; quiet).
    rewrite bind_gets, Hcfg.
    rewrite trace_bind_silent; [reflexivity|].
    intros response. quiet. apply OpenRouterFacts.silent_error_detail.
  - destruct (fetch w n (OpenRouterConfig.baseUrl cfg +:+ "/chat/completions")
                (Remote.ReqPing (OpenRouterConfig.apiKey cfg)
                   (OpenRouterConfig.model cfg))) as [e|response] eqn:Hf.
    + erewrite try_catch_eq_rejected
        by (rewrite bind_gets, Hcfg;
            apply (bind_do_fetch_inl _ _ _ _ _ _ _ Hf)).
      eexists. reflexivity.
    + destruct (Remote.ok response) eqn:Hok.
      * erewrite try_catch_eq_resolved
          by (rewrite bind_gets, Hcfg;
              rewrite (bind_do_fetch_inr _ _ _ _ _ _ _ Hf), Hok;
              reflexivity).
        reflexivity.
      * match goal with
        | |- context [try_catch ?b ?h w s n] =>
            assert (Hb : exists t, outcome (b w s n) = Rejected t)
        end.
        { rewrite bind_gets, Hcfg.
          rewrite (bind_do_fetch_inr _ _ _ _ _ _ _ Hf), Hok. cbn [negb].
          unfold error_detail.
          destruct (Remote.json response) as [e|errorData];
            [|destruct (Remote.props errorData)]; eexists; reflexivity. }
        destruct Hb as [t Hb].
        rewrite (try_catch_rejected _ _ _ _ _ _ Hb). cbv zeta.
        eexists. reflexivity.
Qed.

End OpenRouterMore.

Section AgentAdapterMore.
Import Fixtures.

(** X1. The conversation-id check of the agent adapter accepts exactly
    the strings of canonical UUID shape: five runs of hexadecimal digits
    of either case, of lengths 8, 4, 4, 4 and 12, joined by hyphens. *)
Theorem conversation_id_check_is_uuid_shape (conversationId : string) :
  ToolhouseProvider.isValidConversationId conversationId = true
  <-> canonical_uuid conversationId.
Proof. apply uuidRegex_test_spec. Qed.

(** X2. The health check of the agent adapter cannot see an outage: its
    connection probe swallows every failure, so [isHealthy] answers
    whether the adapter is configured, in every world, and leaves the
    adapter as it was. *)
Theorem toolhouse_health_is_configuration
    (w : World) (s : ToolhouseProvider.t) (n : nat) :
  outcome (ToolhouseProvider.isHealthy w s n)
  = Resolved (ToolhouseProvider.initialized s)
  /\ state (ToolhouseProvider.isHealthy w s n) = s.
Proof. apply ToolhouseMore.isHealthy_run. Qed.

(** X3. Initialising the agent adapter depends on its configuration
    alone. With a non-empty base URL that parses, [initialize] resolves
    in every world, reachable services or not, and leaves the adapter
    configured with an MCP client for [baseUrl/mcp], its history and
    metrics untouched. Otherwise it rejects with a
    ProviderInitializationError and the adapter is left as it was. *)
Theorem toolhouse_initialize_by_config
    (cfg : ToolhouseConfig.t) (w : World) (s : ToolhouseProvider.t)
    (n : nat) :
  let r := ToolhouseProvider.initialize cfg w s n in
  if nonempty (ToolhouseConfig.baseUrl cfg)
     && URL_parses w (ToolhouseConfig.baseUrl cfg)
  then
    outcome r = Resolved tt
    /\ state r
       = ToolhouseProvider.mk (Some cfg) (ToolhouseProvider.metrics s)
           (Some cfg)
           (Some (MCPClient.mk (ToolhouseConfig.baseUrl cfg +:+ "/mcp")
                    (or_else (ToolhouseConfig.apiKey cfg) "local-dev-key")))
           (ToolhouseProvider.runId s)
           (ToolhouseProvider.conversationHistory s)
    /\ ToolhouseProvider.initialized (state r) = true
  else
    (exists e, outcome r = Rejected (ThrowError e)
               /\ err_class e = ProviderInitializationError)
    /\ state r = s /\ trace r = [].
Proof.
  cbv zeta. unfold ToolhouseProvider.initialize.
  set (probe := ToolhouseProvider.testMCPConnection).
  pose proof ToolhouseMore.testMCPConnection_resolves as Hres.
  pose proof ToolhouseMore.testMCPConnection_state as Hst.
  fold probe in Hres, Hst. clearbody probe.
  unfold ToolhouseProvider.validateConfig.
  destruct (nonempty (ToolhouseConfig.baseUrl cfg)); cbn [negb andb].
  - destruct (URL_parses w (ToolhouseConfig.baseUrl cfg)) eqn:Hu.
    + match goal with
      | |- context [try_catch ?b ?h w s n] =>
          assert (Hb : outcome (b w s n) = Resolved tt
                       /\ state (b w s n)
                          = ToolhouseProvider.mk (Some cfg)
                              (ToolhouseProvider.metrics s) (Some cfg)
                              (Some (MCPClient.mk
                                       (ToolhouseConfig.baseUrl cfg +:+ "/mcp")
                                       (or_else (ToolhouseConfig.apiKey cfg)
                                          "local-dev-key")))
                              (ToolhouseProvider.runId s)
                              (ToolhouseProvider.conversationHistory s))
      end.
      { erewrite bind_pure by (unfold url_parses; rewrite Hu; reflexivity).
        cbn [negb]. rewrite bind_modify.
        match goal with
        | |- context [probe w ?s0 n] =>
            destruct (Hres w s0 n) as [[] Ho]; rewrite Ho, Hst
        end.
        auto. }
      destruct Hb as [Ho Hs].
      rewrite (try_catch_resolved _ _ _ _ _ _ Ho), Ho, Hs. auto.
    + erewrite try_catch_eq_rejected
        by (erewrite bind_pure
              by (unfold url_parses; rewrite Hu; reflexivity);
            reflexivity).
      cbn. split; [eexists; split; reflexivity | auto].
  - erewrite try_catch_eq_rejected by (rewrite bind_ret; reflexivity).
    cbn. split; [eexists; split; reflexivity | auto].
Qed.

(** X4. The agent adapter's answer generation fails only on ads it
    cannot walk. When the ads of the MCP answer are absent or an array
    of readable entries, [generateAIResponse] resolves in every world,
    and when the call to the agent endpoint fails for any reason (no
    agent URL, no connection, an error status, no body, a broken
    stream) the answer is the built-in template, which quotes the
    user's message. When the ads hold a null entry, or are no array
    but claim a positive length, the walk throws in the [try] block
    and again in the [catch] block: the call rejects with that
    TypeError and the agent endpoint is never called. The adapter's
    state is untouched either way. *)
Theorem agent_failure_gives_template
    (message : AIMessage.t) (mcpResponse : ToolhouseProvider.McpResult)
    (w : World) (s : ToolhouseProvider.t) (n : nat) :
  let mcpContext :=
    or_else (ToolhouseProvider.mcp_content mcpResponse) EmptyString in
  let ads := ToolhouseProvider.mcp_ads mcpResponse in
  let r := ToolhouseProvider.generateAIResponse message mcpResponse w s n in
  state r = s
  /\ if McpAds.well_formed ads then
       exists relevantAds content usage,
         McpAds.listed ads = inr relevantAds
         /\ outcome r = Resolved (content, usage)
         /\ (rejected
               (outcome
                  (ToolhouseProvider.callToolhouseAgent
                     (ToolhouseProvider.enhancedMessage message mcpContext
                        relevantAds (JSON_stringify w mcpContext)) w s n))
             -> content
                = ToolhouseProvider.templateResponse message mcpContext
                    relevantAds (JSON_stringify w mcpContext)
                /\ contains content (AIMessage.content message))
     else
       exists e,
         err_class e = TypeError
         /\ outcome r = Rejected (ThrowError e)
         /\ trace r = [].
Proof.
  cbv zeta. split; [apply ToolhouseMore.generateAIResponse_state|].
  destruct (McpAds.well_formed (ToolhouseProvider.mcp_ads mcpResponse))
    eqn:Hw.
  - destruct (ToolhouseMore.listed_well_formed _ Hw) as [relevantAds Hl].
    destruct (ToolhouseMore.generateAIResponse_resolves message mcpResponse
                Hw w s n) as [[content usage] Ho].
    exists relevantAds, content, usage. split; [exact Hl|].
    split; [exact Ho|].
    intros [t Ht]. revert Ho. unfold ToolhouseProvider.generateAIResponse.
    rewrite Hl. cbn [of_sum].
    set (agent := ToolhouseProvider.callToolhouseAgent) in *.
    clearbody agent.
    erewrite try_catch_rejected.
    2:{ erewrite bind_pure by reflexivity. rewrite bind_ret.
        erewrite bind_rejected by exact Ht. reflexivity. }
    cbv zeta. erewrite bind_pure by reflexivity. rewrite bind_ret.
    cbn [ret outcome].
    intros [= <- _]. split; [reflexivity|].
    unfold contains, ToolhouseProvider.templateResponse.
    exists ("I understand you're asking about: " +:+ dquote). eexists.
    reflexivity.
  - destruct (ToolhouseMore.generateAIResponse_ill_formed message mcpResponse
                w s n Hw) as (e & _ & He & Hrun).
    exists e. rewrite Hrun. auto.
Qed.

Lemma agent_failure_gives_template_witness :
  (exists content usage,
      outcome (ToolhouseProvider.generateAIResponse tools_question
                 (ToolhouseProvider.mkMcp None
                    (McpAds.Entries [Some toolkit_ad]))
                 offline toolhouse 0)
      = Resolved (content, usage)
      /\ contains content "Tell me about AI tools")
  /\ (exists e,
        outcome (ToolhouseProvider.generateAIResponse tools_question
                   (ToolhouseProvider.mkMcp None
                      (McpAds.Entries [Some toolkit_ad; None]))
                   (online VNull) toolhouse 0)
        = Rejected (ThrowError e)).
Proof.
  split.
  - destruct (agent_failure_gives_template tools_question
                (ToolhouseProvider.mkMcp None
                   (McpAds.Entries [Some toolkit_ad]))
                offline toolhouse 0)
      as (_ & relevantAds & content & usage & Hl & Ho & Ht).
    exists content, usage. split; [exact Ho|].
    apply Ht. injection Hl as <-. eexists. reflexivity.
  - destruct (agent_failure_gives_template tools_question
                (ToolhouseProvider.mkMcp None
                   (McpAds.Entries [Some toolkit_ad; None]))
                (online VNull) toolhouse 0) as (_ & e & _ & Ho & _).
    exists e. exact Ho.
Defined.

(** X5. What the agent adapter does once the ad search has answered
    with an object, for a well-formed message with a canonical session
    id on an initialised adapter. The first remote call is that
    search, for the message text, the message's creator (or
    ["default"]) and its session id. When the ads of the answer are
    absent or an array of readable entries, [sendMessage] resolves
    whatever the agent endpoint does, with a response tagged
    ["toolhouse"] that carries the ads and content of the search.
    When they hold a null entry, or are no array but claim a positive
    length, [sendMessage] rejects with a TypeError and the search is
    the only remote call made. *)
Theorem toolhouse_answers_when_search_answers
    (message : AIMessage.t) (w : World) (s : ToolhouseProvider.t) (n : nat)
    (client : MCPClient.t) (content : option string) (ads : McpAds.t) :
  BaseAIProvider.content_empty (AIMessage.content message) = false ->
  BaseAIProvider.role_valid (AIMessage.role message) = true ->
  ToolhouseProvider.initialized s = true ->
  ToolhouseProvider.mcpClient s = Some client ->
  ToolhouseFacts.conversation_id_accepted message = true ->
  MCPClient_searchContentAds w (S n) (MCPClient.mcpUrl client)
    [AIMessage.content message]
    (or_else (ToolhouseProvider.metadata_creatorId message) "default")
    (ToolhouseProvider.metadata_conversationId message)
  = inr (Remote.McpObject content ads) ->
  let r := ToolhouseProvider.sendMessage message w s n in
  let search :=
    EMcpSearch (MCPClient.mcpUrl client) [AIMessage.content message]
      (or_else (ToolhouseProvider.metadata_creatorId message) "default")
      (ToolhouseProvider.metadata_conversationId message) in
  hd_error (trace r) = Some search
  /\ if McpAds.well_formed ads then
       exists response,
         outcome r = Resolved response
         /\ AIResponse.source response = "toolhouse"
         /\ ResponseMetadata.mcpAds (AIResponse.metadata response) = ads
         /\ ResponseMetadata.mcpContent (AIResponse.metadata response)
            = content
     else
       exists e,
         outcome r = Rejected (ThrowError e)
         /\ err_class e = TypeError
         /\ trace r = [search].
Proof.
  intros Hc Hr Hs Hclient Hid Hmcp. cbv zeta.
  destruct (McpAds.well_formed ads) eqn:Hw.
  - destruct (ToolhouseMore.sendMessage_found message w s n client content
                ads Hc Hr Hs Hclient Hid Hmcp Hw)
      as (response & tr & Ho & Hsrc & Hads & Hcontent & Htr).
    rewrite Htr. split; [reflexivity|]. exists response. auto.
  - destruct (ToolhouseMore.sendMessage_ill_formed message w s n client
                content ads Hc Hr Hs Hclient Hid Hmcp Hw)
      as (e & He & Ho & Htr).
    rewrite Htr. split; [reflexivity|]. exists e. auto.
Qed.

Lemma toolhouse_answers_witness :
  exists response,
    outcome (ToolhouseProvider.sendMessage tools_question (online VNull)
               toolhouse 0)
    = Resolved response
    /\ AIResponse.source response = "toolhouse"
    /\ ResponseMetadata.mcpAds (AIResponse.metadata response)
       = McpAds.Entries [Some toolkit_ad].
Proof.
  destruct (toolhouse_answers_when_search_answers tools_question
              (online VNull) toolhouse 0
              (MCPClient.mk "http://localhost:8001/mcp" "local-dev-key")
              (Some "context") (McpAds.Entries [Some toolkit_ad])
              eq_refl eq_refl eq_refl eq_refl eq_refl eq_refl)
    as (_ & response & Ho & Hsrc & Hads & _).
  exists response. auto.
Defined.

(** X6. A well-formed message sent to an adapter that is not
    initialised (never initialised, or shut down) is refused by either
    adapter with a ProviderRequestError saying so, before any remote
    call, and is not recorded in the history. *)
Theorem uninitialised_adapter_refuses
    (message : AIMessage.t) (w : World) (n : nat) :
  BaseAIProvider.content_empty (AIMessage.content message) = false ->
  BaseAIProvider.role_valid (AIMessage.role message) = true ->
  (forall s : ToolhouseProvider.t,
      ToolhouseProvider.initialized s = false ->
      let r := ToolhouseProvider.sendMessage message w s n in
      outcome r
      = Rejected
          (ThrowError
             (newProviderRequestError "toolhouse" "Provider not initialized"
                None))
      /\ trace r = []
      /\ ToolhouseProvider.getConversationHistory (state r)
         = ToolhouseProvider.getConversationHistory s)
  /\ (forall s : OpenRouterProvider.t,
        OpenRouterProvider.initialized s = false ->
        let r := OpenRouterProvider.sendMessage message w s n in
        outcome r
        = Rejected
            (ThrowError
               (newProviderRequestError "openrouter"
                  "Provider not initialized" None))
        /\ trace r = []
        /\ OpenRouterProvider.getConversationHistory (state r)
           = OpenRouterProvider.getConversationHistory s).
Proof.
  intros Hc Hr. split; intros s Hs; cbv zeta.
  - unfold ToolhouseProvider.sendMessage,
      ToolhouseProvider.getConversationHistory.
    rewrite (validateMessage_ok message Hc Hr).
    match goal with
    | |- context [bind now (fun st => try_catch (@?b st) _)] =>
        apply (guarded_rejected_state ToolhouseProvider.conversationHistory
                 b w s n
                 (ThrowError
                    (newProviderRequestError "toolhouse"
                       "Provider not initialized" None)) s (S n));
          [reflexivity|]
    end.
    cbv beta. rewrite bind_ret, bind_gets, Hs. reflexivity.
  - unfold OpenRouterProvider.sendMessage,
      OpenRouterProvider.getConversationHistory.
    rewrite (validateMessage_ok message Hc Hr).
    match goal with
    | |- context [bind now (fun st => try_catch (@?b st) _)] =>
        apply (guarded_rejected_state OpenRouterProvider.conversationHistory
                 b w s n
                 (ThrowError
                    (newProviderRequestError "openrouter"
                       "Provider not initialized" None)) s (S n));
          [reflexivity|]
    end.
    cbv beta. rewrite bind_ret, bind_gets, Hs. reflexivity.
Qed.

Lemma uninitialised_adapter_witness :
  outcome (ToolhouseProvider.sendMessage tools_question (online VNull)
             ToolhouseProvider.fresh 0)
  = Rejected
      (ThrowError
         (newProviderRequestError "toolhouse" "Provider not initialized"
            None))
  /\ trace (OpenRouterProvider.sendMessage tools_question (online VNull)
              (state (OpenRouterProvider.shutdown (online VNull)
                        openrouter 0)) 0)
     = [].
Proof.
  pose proof (uninitialised_adapter_refuses tools_question (online VNull) 0
                eq_refl eq_refl) as [Ht Ho].
  split.
  - apply (Ht ToolhouseProvider.fresh eq_refl).
  - apply (Ho (state (OpenRouterProvider.shutdown (online VNull)
                        openrouter 0)) eq_refl).
Defined.

(** X7. Every [sendMessage] call on either adapter is counted exactly
    once in the adapter's metrics, whatever the message, the state and
    the world: the request count goes up by one, and the error count
    goes up by one exactly when the call rejects. *)
Theorem every_send_is_counted_once
    (message : AIMessage.t) (w : World) (n : nat) :
  (forall s : ToolhouseProvider.t,
      let r := ToolhouseProvider.sendMessage message w s n in
      ProviderMetrics.requestCount (ToolhouseProvider.metrics (state r))
      = S (ProviderMetrics.requestCount (ToolhouseProvider.metrics s))
      /\ ProviderMetrics.errorCount (ToolhouseProvider.metrics (state r))
         = match outcome r with
           | Resolved _ =>
               ProviderMetrics.errorCount (ToolhouseProvider.metrics s)
           | Rejected _ =>
               S (ProviderMetrics.errorCount (ToolhouseProvider.metrics s))
           end)
  /\ (forall s : OpenRouterProvider.t,
        let r := OpenRouterProvider.sendMessage message w s n in
        ProviderMetrics.requestCount (OpenRouterProvider.metrics (state r))
        = S (ProviderMetrics.requestCount (OpenRouterProvider.metrics s))
        /\ ProviderMetrics.errorCount (OpenRouterProvider.metrics (state r))
           = match outcome r with
             | Resolved _ =>
                 ProviderMetrics.errorCount (OpenRouterProvider.metrics s)
             | Rejected _ =>
                 S (ProviderMetrics.errorCount (OpenRouterProvider.metrics s))
             end).
Proof.
  split; intros s; cbv zeta.
  - pose proof (guarded_counted (St:=ToolhouseProvider.t)
                  (fun _ _ => eq_refl)
                  (fun startTime =>
                     do BaseAIProvider.validateMessage message then
                     let* ready := gets ToolhouseProvider.initialized in
                     if negb ready then
                       throwError
                         (newProviderRequestError ToolhouseProvider.name
                            "Provider not initialized" None)
                     else
                       do modify (fun s =>
                            ToolhouseProvider.set_conversationHistory
                              (ToolhouseProvider.conversationHistory s
                               ++ [message]) s) then
                       let* mcpResponse :=
                         ToolhouseProvider.searchMCPContent message in
                       let* aiResponse :=
                         ToolhouseProvider.generateAIResponse message
                           mcpResponse in
                       ToolhouseMore.finish startTime aiResponse mcpResponse)
                  w s n (ToolhouseMore.agent_counted_body message)) as Hcount.
    cbv zeta in Hcount. apply pair_equal_spec in Hcount. exact Hcount.
  - pose proof (guarded_counted (St:=OpenRouterProvider.t)
                  (fun _ _ => eq_refl)
                  (fun startTime =>
                     do BaseAIProvider.validateMessage message then
                     let* ready := gets OpenRouterProvider.initialized in
                     if negb ready then
                       throwError
                         (newProviderRequestError OpenRouterProvider.name
                            "Provider not initialized" None)
                     else
                       do modify (fun s =>
                            OpenRouterProvider.set_conversationHistory
                              (OpenRouterProvider.conversationHistory s
                               ++ [message]) s) then
                       do modify (fun s =>
                            if Nat.ltb 20
                                 (length
                                    (OpenRouterProvider.conversationHistory s))
                            then OpenRouterProvider.set_conversationHistory
                                   (slice_last 20
                                      (OpenRouterProvider.conversationHistory
                                         s)) s
                            else s) then
                       let* response :=
                         OpenRouterProvider.callOpenRouterAPI message in
                       OpenRouterMore.finish startTime response)
                  w s n (OpenRouterMore.completion_counted_body message)) as Hcount.
    cbv zeta in Hcount. apply pair_equal_spec in Hcount. exact Hcount.
Qed.

End AgentAdapterMore.

(* ===================================================================== *)
(** * The direct-completion adapter: history and initialisation *)
(* ===================================================================== *)

Section CompletionAdapterMore.
Import Fixtures.

(** X8. The direct-completion adapter keeps what it was sent. For a
    well-formed message on an initialised adapter, the history after
    [sendMessage] is the last 20 entries of the old history with the
    message appended, followed by the assistant's turn (carrying the
    returned content) when the call resolved, and by nothing when it
    failed: a failed call leaves the user's message in the history. *)
Theorem completion_history_after_send
    (message : AIMessage.t) (w : World) (s : OpenRouterProvider.t)
    (n : nat) :
  BaseAIProvider.content_empty (AIMessage.content message) = false ->
  BaseAIProvider.role_valid (AIMessage.role message) = true ->
  OpenRouterProvider.initialized s = true ->
  let r := OpenRouterProvider.sendMessage message w s n in
  let kept :=
    slice_last 20 (OpenRouterProvider.conversationHistory s ++ [message]) in
  match outcome r with
  | Resolved result =>
      exists assistant,
        OpenRouterProvider.getConversationHistory (state r)
        = kept ++ [assistant]
        /\ AIMessage.role assistant = "assistant"
        /\ AIMessage.content assistant = AIResponse.content result
  | Rejected _ =>
      OpenRouterProvider.getConversationHistory (state r) = kept
  end.
Proof.
  intros Hc Hr Hs. cbv zeta.
  pose proof (OpenRouterMore.completion_sendMessage_history message w s n Hc Hr Hs)
    as H.
  cbv zeta in H. rewrite OpenRouterFacts.window_eq in H.
  rewrite slice_last_app_one. exact H.
Qed.

Lemma completion_history_witness :
  match outcome (OpenRouterProvider.sendMessage tools_question offline
                   openrouter 0) with
  | Resolved result =>
      exists assistant,
        OpenRouterProvider.getConversationHistory
          (state (OpenRouterProvider.sendMessage tools_question offline
                    openrouter 0))
        = slice_last 20
            (OpenRouterProvider.conversationHistory openrouter
             ++ [tools_question]) ++ [assistant]
        /\ AIMessage.role assistant = "assistant"
        /\ AIMessage.content assistant = AIResponse.content result
  | Rejected _ =>
      OpenRouterProvider.getConversationHistory
        (state (OpenRouterProvider.sendMessage tools_question offline
                  openrouter 0))
      = slice_last 20
          (OpenRouterProvider.conversationHistory openrouter
           ++ [tools_question])
  end.
Proof.
  exact (completion_history_after_send tools_question offline openrouter 0
           eq_refl eq_refl eq_refl).
Defined.

(** X9. The history of the direct-completion adapter is bounded: no
    [sendMessage] call, whatever its message and outcome, leaves more
    than 21 entries in it unless there were more before. *)
Theorem completion_history_bounded
    (message : AIMessage.t) (w : World) (s : OpenRouterProvider.t)
    (n : nat) :
  (length (OpenRouterProvider.getConversationHistory
             (state (OpenRouterProvider.sendMessage message w s n)))
   <= Nat.max
        (length (OpenRouterProvider.getConversationHistory s)) 21)%nat.
Proof.
  unfold OpenRouterProvider.getConversationHistory.
  destruct (BaseAIProvider.content_empty (AIMessage.content message))
    eqn:Hc;
    [rewrite OpenRouterMore.sendMessage_refused by auto; lia|].
  destruct (BaseAIProvider.role_valid (AIMessage.role message)) eqn:Hr;
    [|rewrite OpenRouterMore.sendMessage_refused by auto; lia].
  destruct (OpenRouterProvider.initialized s) eqn:Hs;
    [|rewrite OpenRouterMore.sendMessage_refused by auto; lia].
  pose proof (OpenRouterMore.completion_sendMessage_history message w s n Hc Hr Hs)
    as H.
  cbv zeta in H. rewrite OpenRouterFacts.window_eq in H.
  assert (Hk : (length (slice_last 19
                          (OpenRouterProvider.conversationHistory s)
                        ++ [message]) <= 20)%nat).
  { rewrite length_app, slice_last_length. cbn [length]. lia. }
  destruct (outcome (OpenRouterProvider.sendMessage message w s n)).
  - destruct H as (assistant & -> & _). rewrite length_app.
    cbn [length]. lia.
  - rewrite H. lia.
Qed.

(** X10. On the first turn the direct-completion adapter sends the
    user's message alone: with an empty history, the one request made
    for a well-formed message carries a messages array holding just
    that message, without the system instruction. *)
Theorem first_turn_sends_message_alone
    (message : AIMessage.t) (w : World) (s : OpenRouterProvider.t)
    (n : nat) (cfg : OpenRouterConfig.t) :
  BaseAIProvider.content_empty (AIMessage.content message) = false ->
  BaseAIProvider.role_valid (AIMessage.role message) = true ->
  OpenRouterProvider.openRouterConfig s = Some cfg ->
  OpenRouterProvider.conversationHistory s = [] ->
  requested_messages (trace (OpenRouterProvider.sendMessage message w s n))
  = Some [OpenRouterProvider.api_message message].
Proof.
  intros Hc Hr Hcfg Hh.
  rewrite (OpenRouterFacts.sendMessage_trace message w s n cfg Hc Hr Hcfg).
  rewrite Hh. unfold OpenRouterFacts.request. cbn [requested_messages].
  rewrite OpenRouterMore.outgoing_first_turn. reflexivity.
Qed.

Lemma first_turn_witness :
  requested_messages
    (trace (OpenRouterProvider.sendMessage tools_question (online VNull)
              openrouter 0))
  = Some [ApiMessage.mk "user" "Tell me about AI tools"].
Proof.
  exact (first_turn_sends_message_alone tools_question (online VNull)
           openrouter 0 openrouter_config eq_refl eq_refl eq_refl eq_refl).
Defined.

(** X11. Initialising the direct-completion adapter is not atomic. A
    configuration that fails validation is refused with a
    ProviderInitializationError and changes nothing. A valid one is
    stored first and tested second, with one ping request: the call
    resolves exactly when the ping is answered with an ok status, and
    otherwise rejects with a ProviderInitializationError, yet in both
    cases the adapter is left configured and counts as initialised. *)
Theorem completion_initialize_stores_before_testing
    (cfg : OpenRouterConfig.t) (w : World) (s : OpenRouterProvider.t)
    (n : nat) :
  let url := OpenRouterConfig.baseUrl cfg +:+ "/chat/completions" in
  let ping := Remote.ReqPing (OpenRouterConfig.apiKey cfg)
                (OpenRouterConfig.model cfg) in
  let r := OpenRouterProvider.initialize cfg w s n in
  if OpenRouterProvider.validateConfig cfg then
    state r
    = OpenRouterProvider.mk (Some cfg) (OpenRouterProvider.metrics s)
        (Some cfg) (OpenRouterProvider.conversationHistory s)
    /\ OpenRouterProvider.initialized (state r) = true
    /\ trace r = [EFetch url ping]
    /\ match fetch w n url ping with
       | inr response =>
           if Remote.ok response then outcome r = Resolved tt
           else exists e, outcome r = Rejected (ThrowError e)
                          /\ err_class e = ProviderInitializationError
       | inl _ => exists e, outcome r = Rejected (ThrowError e)
                            /\ err_class e = ProviderInitializationError
       end
  else
    state r = s /\ trace r = []
    /\ exists e, outcome r = Rejected (ThrowError e)
                 /\ err_class e = ProviderInitializationError.
Proof.
  cbv zeta. unfold OpenRouterProvider.initialize.
  destruct (OpenRouterProvider.validateConfig cfg); cbn [negb].
  - set (s1 := OpenRouterProvider.mk (Some cfg)
                 (OpenRouterProvider.metrics s) (Some cfg)
                 (OpenRouterProvider.conversationHistory s)).
    destruct (OpenRouterMore.testConnection_run w s1 n cfg eq_refl)
      as (Hst & Htr & Hout).
    cbv zeta in Hst, Htr, Hout.
    set (test := OpenRouterProvider.testConnection) in *.
    assert (Hb : (do modify
                       (fun s0 =>
                          OpenRouterProvider.mk (Some cfg)
                            (OpenRouterProvider.metrics s0) (Some cfg)
                            (OpenRouterProvider.conversationHistory s0)) then
                  test) w s n = test w s1 n)
      by (rewrite bind_modify; reflexivity).
    clearbody test.
    destruct (outcome (test w s1 n)) as [[]|t] eqn:Ho.
    + rewrite try_catch_resolved with (a := tt) by (rewrite Hb; exact Ho).
      rewrite Hb, Hst, Htr, Ho.
      split; [reflexivity|]. split; [reflexivity|]. split; [reflexivity|].
      destruct (fetch w n _ _) as [e|response];
        [destruct Hout; discriminate|].
      destruct (Remote.ok response);
        [reflexivity | destruct Hout; discriminate].
    + rewrite try_catch_rejected with (t := t) by (rewrite Hb; exact Ho).
      cbv zeta. rewrite Hb, Hst, Htr.
      cbn [throwError throw outcome state trace app].
      split; [reflexivity|]. split; [reflexivity|]. split; [reflexivity|].
      destruct (fetch w n _ _) as [e|response].
      * eexists. split; reflexivity.
      * destruct (Remote.ok response); [discriminate|].
        eexists. split; reflexivity.
  - erewrite try_catch_eq_rejected by reflexivity.
    cbn. split; [reflexivity|]. split; [reflexivity|].
    eexists. split; reflexivity.
Qed.

End CompletionAdapterMore.

(* ===================================================================== *)
(** * More on the ad search *)
(* ===================================================================== *)

Module AdSearchMore.
Import useAdSearch.

Section WithQuery.
Variable exec : M t AdSearchResult.t.
Hypothesis exec_state : forall w s n, state (exec w s n) = s.

(** What a search leaves behind, by the outcome of its query. *)
Lemma searchAds_with_run w s n :
  let q := exec w (setError None (setIsLoading true s)) n in
  outcome (AdSearchFacts.searchAds_with exec w s n) = outcome q
  /\ state (AdSearchFacts.searchAds_with exec w s n)
     = match outcome q with
       | Resolved result =>
           mk (AdSearchResult.ads result) false None (Some result)
              (slice_last 9 (searchHistory s) ++ [result])
              (searchUseCaseRef s)
       | Rejected t =>
           mk (ads s) false (Some (messageOr t "Ad search failed"))
              (lastSearchResult s) (searchHistory s) (searchUseCaseRef s)
       end.
Proof using exec_state.
  cbv zeta. unfold AdSearchFacts.searchAds_with.
  rewrite !bind_modify, try_finally_modify. cbn [outcome state].
  destruct (outcome (exec w (setError None (setIsLoading true s)) n))
    as [result|t] eqn:He.
  - rewrite (try_catch_bind_resolved _ _ _ _ _ _ _ He). cbv zeta.
    cbn [outcome state]. rewrite exec_state.
    rewrite try_catch_resolved with (a := result)
      by (rewrite !bind_modify; reflexivity).
    rewrite !bind_modify. cbn [ret outcome state]. auto.
  - rewrite (try_catch_bind_rejected _ _ _ _ _ _ _ He). cbv zeta.
    rewrite bind_modify. cbn [throw outcome state].
    rewrite exec_state. auto.
Qed.

End WithQuery.

Lemma searchAds_run conversationId queries options w s n useCase :
  searchUseCaseRef s = Some useCase ->
  let q := SearchAdsUseCase.execute useCase queries
             (AdSearchFacts.searchConversationId conversationId options)
             w (setError None (setIsLoading true s)) n in
  let r := searchAds conversationId queries options w s n in
  outcome r = outcome q
  /\ state r
     = match outcome q with
       | Resolved result =>
           mk (AdSearchResult.ads result) false None (Some result)
              (slice_last 9 (searchHistory s) ++ [result])
              (searchUseCaseRef s)
       | Rejected t =>
           mk (ads s) false (Some (messageOr t "Ad search failed"))
              (lastSearchResult s) (searchHistory s) (searchUseCaseRef s)
       end.
Proof.
  intros Href. cbv zeta.
  assert (Hunfold :
    searchAds conversationId queries options w s n
    = AdSearchFacts.searchAds_with
        (SearchAdsUseCase.execute useCase queries
           (AdSearchFacts.searchConversationId conversationId options))
        w s n)
    by (rewrite AdSearchFacts.searchAds_unfold, Href; reflexivity).
  rewrite Hunfold.
  apply searchAds_with_run. apply (AdSearchFacts.preserves_execute (St:=t)).
Qed.

Lemma execute_trace {St} useCase queries conversationId w (s : St) n :
  trace (SearchAdsUseCase.execute useCase queries conversationId w s n)
  = [EFetch (SearchAdsUseCase.mcpUrl useCase)
       (AdSearchFacts.search_request useCase queries conversationId)].
Proof.
  unfold SearchAdsUseCase.execute. rewrite bind_now.
  rewrite trace_try_catch_silent by (intros; quiet).
  rewrite trace_bind_silent; [reflexivity|].
  intros response. quiet.
Qed.

Lemma execute_rejection {St} useCase queries conversationId w (s : St) n t :
  outcome (SearchAdsUseCase.execute useCase queries conversationId w s n)
  = Rejected t ->
  exists cause,
    t = ThrowError
          (newAdSearchError
             ("Failed to search ads: " +:+ messageOr cause "Unknown error")
             (asError cause)).
Proof.
  unfold SearchAdsUseCase.execute. rewrite bind_now.
  match goal with
  | |- context [try_catch ?b ?h w s (S n)] =>
      destruct (outcome (b w s (S n))) as [result|cause] eqn:Hb
  end.
  - rewrite (try_catch_resolved _ _ _ _ _ _ Hb), Hb. discriminate.
  - rewrite (try_catch_rejected _ _ _ _ _ _ Hb). cbv zeta.
    rewrite bind_now. cbn [throwError throw outcome].
    intros [= <-]. eauto.
Qed.

Lemma execute_found {St} useCase queries conversationId w (s : St) n
    response o :
  fetch w (S n) (SearchAdsUseCase.mcpUrl useCase)
    (AdSearchFacts.search_request useCase queries conversationId)
  = inr response ->
  Remote.ok response = true ->
  Remote.json response = inr (Remote.JsonObj o) ->
  outcome (SearchAdsUseCase.execute useCase queries conversationId w s n)
  = Resolved
      (AdSearchResult.mk (default [] (Remote.results o))
         (String.concat " " queries)
         (Date_now w (S (S n)) - Date_now w n)%Z
         (Date_now w (S (S (S n))))
         conversationId (SearchAdsUseCase.creatorId useCase)
         (length queries)).
Proof.
  intros Hf Hok Hj. unfold SearchAdsUseCase.execute. rewrite bind_now.
  erewrite try_catch_eq_resolved; [reflexivity|].
  unfold AdSearchFacts.search_request in Hf.
  rewrite (bind_do_fetch_inr _ _ _ _ _ _ _ Hf), Hok, Hj.
  cbn [negb of_sum]. rewrite bind_ret, !bind_now. reflexivity.
Qed.

End AdSearchMore.

Section AdSearchFurther.
Import Fixtures.

(** X12. An ad query is one request and nothing else: whatever the
    queries and the answer, [SearchAdsUseCase.execute] sends exactly one
    request, to the configured MCP URL with the queries, the creator
    and the conversation id, changes no state, and if it fails its
    error is an AdSearchError whose message starts with the standard
    prefix. *)
Theorem ad_query_is_one_request {St : Type}
    (useCase : SearchAdsUseCase.t) (queries : list string)
    (conversationId : option string) (w : World) (s : St) (n : nat) :
  let r := SearchAdsUseCase.execute useCase queries conversationId w s n in
  trace r
  = [EFetch (SearchAdsUseCase.mcpUrl useCase)
       (Remote.ReqSearchAds (SearchAdsUseCase.apiKey useCase) queries
          (SearchAdsUseCase.creatorId useCase) conversationId)]
  /\ state r = s
  /\ match outcome r with
     | Resolved _ => True
     | Rejected t =>
         exists e rest,
           t = ThrowError e
           /\ err_class e = AdSearchError
           /\ err_message e = "Failed to search ads: " +:+ rest
     end.
Proof.
  cbv zeta. split; [apply AdSearchMore.execute_trace|].
  split; [apply (AdSearchFacts.preserves_execute (St:=St))|].
  destruct (outcome (SearchAdsUseCase.execute useCase queries
                       conversationId w s n)) as [result|t] eqn:Ho;
    [exact I|].
  destruct (AdSearchMore.execute_rejection _ _ _ _ _ _ _ Ho) as [cause ->].
  do 2 eexists. split; [reflexivity|]. split; reflexivity.
Qed.

(** X13. When the MCP server answers an ad query with an ok status and
    a JSON object, the result record holds the object's [results] (or
    no ads when the property is missing), the queries joined by single
    spaces, their number, the conversation id and the creator, and the
    time from the start of the call to the reading of the body. *)
Theorem ad_query_result_record {St : Type}
    (useCase : SearchAdsUseCase.t) (queries : list string)
    (conversationId : option string) (w : World) (s : St) (n : nat)
    (response : Remote.Response) (o : Remote.JsonObject) :
  fetch w (S n) (SearchAdsUseCase.mcpUrl useCase)
    (Remote.ReqSearchAds (SearchAdsUseCase.apiKey useCase) queries
       (SearchAdsUseCase.creatorId useCase) conversationId)
  = inr response ->
  Remote.ok response = true ->
  Remote.json response = inr (Remote.JsonObj o) ->
  exists result,
    outcome (SearchAdsUseCase.execute useCase queries conversationId w s n)
    = Resolved result
    /\ AdSearchResult.ads result = default [] (Remote.results o)
    /\ AdSearchResult.query result = String.concat " " queries
    /\ AdSearchResult.queryCount result = length queries
    /\ AdSearchResult.conversationId result = conversationId
    /\ AdSearchResult.creatorId result = SearchAdsUseCase.creatorId useCase
    /\ AdSearchResult.responseTime result
       = (Date_now w (S (S n)) - Date_now w n)%Z.
Proof.
  intros Hf Hok Hj. eexists.
  split; [apply (AdSearchMore.execute_found _ _ _ _ _ _ _ _ Hf Hok Hj)|].
  repeat split.
Qed.

Lemma ad_query_result_witness :
  exists result,
    outcome (SearchAdsUseCase.execute search_use_case
               ["AI"; "tools"] (Some session_uuid) (online VNull) tt 0)
    = Resolved result
    /\ AdSearchResult.ads result = [toolkit_ad]
    /\ AdSearchResult.query result = "AI tools".
Proof.
  destruct (ad_query_result_record search_use_case ["AI"; "tools"]
              (Some session_uuid) (online VNull) tt 0
              (answer VNull)
              (Remote.mkObject (Some [toolkit_ad]) VNull
                 (Some "Here is an answer.") None None)
              eq_refl eq_refl eq_refl)
    as (result & Ho & Hads & Hq & _).
  exists result. rewrite Ho, Hads, Hq. repeat split.
Defined.

(** X14. Without a use case the ad search hook refuses to search: the
    call rejects with "Ad search use case not initialized" and nothing
    happens at all: no request, no loading flag, no error recorded.
    This is the state the hook starts in. *)
Theorem search_needs_use_case
    (conversationId : option string) (queries : list string)
    (options : option string) (w : World) (s : useAdSearch.t) (n : nat) :
  useAdSearch.searchUseCaseRef s = None ->
  useAdSearch.searchAds conversationId queries options w s n
  = mkRes
      (Rejected
         (ThrowError (MkError Error "Ad search use case not initialized" None)))
      s n [].
Proof.
  intros Href. rewrite AdSearchFacts.searchAds_unfold, Href. reflexivity.
Qed.

Lemma search_needs_use_case_witness :
  useAdSearch.searchAds (Some session_uuid) ["AI tools"] None (online VNull)
    useAdSearch.initial 0
  = mkRes
      (Rejected
         (ThrowError (MkError Error "Ad search use case not initialized" None)))
      useAdSearch.initial 0 [].
Proof.
  exact (search_needs_use_case (Some session_uuid) ["AI tools"] None
           (online VNull) useAdSearch.initial 0 eq_refl).
Defined.

(** X15. A search settles the hook's flags. With a use case in place,
    after [searchAds] the loading flag is off and the use case is the
    same; if the call resolved, the error is cleared, the current ads
    are the result's ads and the last result is the result; if it
    rejected, the error holds the error's message. *)
Theorem search_settles_flags
    (conversationId : option string) (queries : list string)
    (options : option string) (w : World) (s : useAdSearch.t) (n : nat)
    (useCase : SearchAdsUseCase.t) :
  useAdSearch.searchUseCaseRef s = Some useCase ->
  let r := useAdSearch.searchAds conversationId queries options w s n in
  useAdSearch.isLoading (state r) = false
  /\ useAdSearch.searchUseCaseRef (state r) = Some useCase
  /\ match outcome r with
     | Resolved result =>
         useAdSearch.error (state r) = None
         /\ useAdSearch.ads (state r) = AdSearchResult.ads result
         /\ useAdSearch.lastSearchResult (state r) = Some result
         /\ useAdSearch.isHealthy (state r) = true
     | Rejected t =>
         useAdSearch.error (state r) = Some (messageOr t "Ad search failed")
         /\ useAdSearch.isHealthy (state r) = false
     end.
Proof.
  intros Href. cbv zeta.
  destruct (AdSearchMore.searchAds_run conversationId queries options
              w s n useCase Href) as [Ho Hs].
  cbv zeta in Ho, Hs. rewrite Ho, Hs.
  destruct (outcome (SearchAdsUseCase.execute _ _ _ _ _ _));
    cbn; rewrite ?Href; repeat split.
Qed.

Lemma search_settles_flags_witness :
  useAdSearch.isLoading
    (state (useAdSearch.searchAds (Some session_uuid) ["AI tools"] None
              offline ad_search 0))
  = false.
Proof.
  exact (proj1 (search_settles_flags (Some session_uuid) ["AI tools"] None
                  offline ad_search 0 search_use_case eq_refl)).
Defined.

(** X16. The search history never grows past ten records: after any
    [searchAds] call, resolved or rejected, it holds at most ten
    records, or no more than it held before. *)
Theorem search_history_bounded
    (conversationId : option string) (queries : list string)
    (options : option string) (w : World) (s : useAdSearch.t) (n : nat) :
  (length (useAdSearch.searchHistory
             (state (useAdSearch.searchAds conversationId queries options
                       w s n)))
   <= Nat.max (length (useAdSearch.searchHistory s)) 10)%nat.
Proof.
  destruct (useAdSearch.searchUseCaseRef s) as [useCase|] eqn:Href.
  - destruct (AdSearchMore.searchAds_run conversationId queries options
                w s n useCase Href) as [_ Hs].
    cbv zeta in Hs. rewrite Hs.
    destruct (outcome (SearchAdsUseCase.execute _ _ _ _ _ _));
      cbn [useAdSearch.searchHistory]; [|lia].
    rewrite length_app, slice_last_length. cbn [length]. lia.
  - rewrite AdSearchFacts.searchAds_unfold, Href. cbn [state]. lia.
Qed.

End AdSearchFurther.

(* ===================================================================== *)
(** * More on session initialisation *)
(* ===================================================================== *)

Section SessionInitFurther.
Import Fixtures.

(** X17. The session use case cannot fail and never checks its
    configuration. For every configuration, valid or not,
    [InitializeConversationUseCase.execute] resolves after exactly one
    request to the backend, changing no state; the result is healthy,
    names the use case's creator and carries the defaults overridden by
    the given configuration. It keeps the body the backend answered
    with, [null] when the backend did not answer with a success status
    and a readable body; [backendInitialized] tells whether that body
    is other than [null], and the result is tagged ["backend"] when the
    body is truthy and ["local"] otherwise. So a result tagged
    ["backend"] has [backendInitialized] true, while a body of [0],
    [false] or the empty string gives [backendInitialized] true with
    the tag ["local"]. *)
Theorem session_use_case_never_fails {St : Type}
    (this : InitializeConversationUseCase.t)
    (config : option ConversationInitConfig.t) (w : World) (s : St)
    (n : nat) :
  let cfg :=
    InitializeConversationUseCase.merge
      (InitializeConversationUseCase.defaultConfig this) config in
  let request := ConversationFacts.init_request this cfg w (S n) in
  let body :=
    ConversationFacts.backend_result
      (fetch w (S (S (S n))) (ConversationFacts.init_url this) request) in
  let r := InitializeConversationUseCase.execute this config w s n in
  exists result,
    outcome r = Resolved result
    /\ state r = s
    /\ trace r = [EFetch (ConversationFacts.init_url this) request]
    /\ ConversationResult.isHealthy result = true
    /\ ConversationResult.creatorId result
       = InitializeConversationUseCase.creatorId this
    /\ ConversationResult.config result = cfg
    /\ ConversationResult.backendResponse result = body
    /\ ConversationResult.backendInitialized result
       = negb (Remote.is_null body)
    /\ ConversationResult.source result
       = (if Remote.json_truthy body then "backend" else "local")
    /\ (ConversationResult.source result = "backend" ->
        ConversationResult.backendInitialized result = true)
    /\ (body = Remote.JsonNumber 0 \/ body = Remote.JsonBool false
        \/ body = Remote.JsonString EmptyString ->
        ConversationResult.backendInitialized result = true
        /\ ConversationResult.source result = "local").
Proof.
  cbv zeta.
  destruct (ConversationFacts.execute_run this config w s n)
    as (result & Ho & Hs & Ht & _ & Hbi & Hh & Hsrc & Hbr & Hc & Hcfg).
  cbv zeta in Ht, Hbi, Hsrc, Hbr, Hcfg.
  exists result. split; [exact Ho|].
  split; [exact Hs|]. split; [exact Ht|]. split; [exact Hh|].
  split; [exact Hc|]. split; [exact Hcfg|]. split; [exact Hbr|].
  set (fr := fetch w (S (S (S n))) (ConversationFacts.init_url this) _)
    in *.
  assert (Hinit : ConversationResult.backendInitialized result
                  = negb (Remote.is_null
                            (ConversationFacts.backend_result fr))).
  { rewrite Hbi. unfold ConversationFacts.backend_result.
    destruct (ConversationFacts.backend_answer _) as [body|] eqn:Hb;
      [|reflexivity].
    change (default Remote.JsonNull (Some body)) with body.
    rewrite (ConversationFacts.backend_answer_not_null _ _ Hb).
    reflexivity. }
  split; [exact Hinit|]. split; [exact Hsrc|]. split.
  - rewrite Hsrc, Hinit.
    destruct (Remote.json_truthy _) eqn:Htr; [|discriminate].
    rewrite (ConversationFacts.truthy_not_null _ Htr). reflexivity.
  - rewrite Hsrc, Hinit. intros [-> | [-> | ->]]; split; reflexivity.
Qed.

(** X18. A session id generated locally can never be used with the
    agent adapter: whatever time and random source produced it, a
    message carrying it as its conversation id is refused by an
    initialised adapter with "Invalid conversation ID format", before
    any remote call. *)
Theorem local_session_id_refused_by_agent {St : Type}
    (message : AIMessage.t) (w : World) (s : ToolhouseProvider.t)
    (n : nat) (w0 : World) (s0 : St) (n0 : nat) (id : string) :
  outcome (InitializeConversationUseCase.generateConversationId w0 s0 n0)
  = Resolved id ->
  ToolhouseProvider.metadata_conversationId message = Some id ->
  BaseAIProvider.content_empty (AIMessage.content message) = false ->
  BaseAIProvider.role_valid (AIMessage.role message) = true ->
  ToolhouseProvider.initialized s = true ->
  let r := ToolhouseProvider.sendMessage message w s n in
  outcome r
  = Rejected
      (ThrowError (MkError Error "Invalid conversation ID format" None))
  /\ trace r = [].
Proof.
  intros Hid Hmd Hc Hr Hs. cbv zeta.
  rewrite ConversationFacts.generateConversationId_run in Hid.
  injection Hid as <-.
  assert (Hacc : ToolhouseFacts.conversation_id_accepted message = false).
  { unfold ToolhouseFacts.conversation_id_accepted. rewrite Hmd.
    reflexivity. }
  destruct (ToolhouseFacts.sendMessage_bad_id message w s n Hc Hr Hs Hacc)
    as [Ho Ht].
  split; [|exact Ht]. rewrite Ho.
  unfold ToolhouseFacts.conversation_id_error. rewrite Hmd. reflexivity.
Qed.

Lemma local_session_id_witness :
  trace (ToolhouseProvider.sendMessage
           (user_message "m1" "Tell me about AI tools"
              (Some (ConversationFacts.local_id offline 3)))
           (online VNull) toolhouse 0)
  = [].
Proof.
  exact (proj2 (local_session_id_refused_by_agent
                  (user_message "m1" "Tell me about AI tools"
                     (Some (ConversationFacts.local_id offline 3)))
                  (online VNull) toolhouse 0 offline tt 3
                  (ConversationFacts.local_id offline 3)
                  eq_refl eq_refl eq_refl eq_refl eq_refl)).
Defined.





End SessionInitFurther.

(* ===================================================================== *)
(** * More on the provider factory *)
(* ===================================================================== *)

Module FactoryMore.
Import ProviderFactory.

Section Generic.
Context {P : Type} `{AIProviderPlugin.Plugin P}.

(** A method invoked on a plugin object touches neither the cache
    nor the registry. *)
Lemma on_object_cache {A} ref (m : M P A) w (s : ProviderFactory.t P) n :
  activeProviders (state (on_object ref m w s n)) = activeProviders s
  /\ providerRegistry (state (on_object ref m w s n)) = providerRegistry s.
Proof. split; reflexivity. Qed.

Lemma extractProviderConfig_pure providerType config w
    (s : ProviderFactory.t P) n :
  state (extractProviderConfig providerType config w s n) = s
  /\ clock (extractProviderConfig providerType config w s n) = n
  /\ trace (extractProviderConfig providerType config w s n) = [].
Proof.
  unfold extractProviderConfig.
  repeat match goal with
         | |- context [if ?b then _ else _] => destruct b
         | |- context [match ?x with Some _ => _ | None => _ end] =>
             destruct x
         end; repeat split.
Qed.

(** The [try] block of [create], for a type found in the registry. *)
Definition attempt (providerType : string) (config : AIConfig.t)
    (providerClass : nat) : M (ProviderFactory.t P) nat :=
  let* providerConfig := extractProviderConfig providerType config in
  do emit (ECallValidateConfig providerType) then
  let* valid :=
    on_object providerClass
      (AIProviderPlugin.validateConfig providerConfig) in
  if negb valid then
    throwError
      (newProviderInitializationError providerType
         "Invalid configuration provided" None)
  else
    do emit (ECallInitialize providerType) then
    do on_object providerClass
         (AIProviderPlugin.initialize providerConfig) then
    do modify (fun s =>
         mk (objects s) (providerRegistry s)
            (<[providerType := providerClass]> (activeProviders s))) then
    ret providerClass.

Lemma create_unfold providerType config w (s : ProviderFactory.t P) n :
  create providerType config w s n
  = match activeProviders s !! providerType with
    | Some existing => mkRes (Resolved existing) s n []
    | None =>
        match ProviderRegistry.get providerType (providerRegistry s) with
        | None =>
            mkRes
              (Rejected
                 (ThrowError
                    (newProviderInitializationError providerType
                       ("Provider " +:+ providerType
                        +:+ " is not registered. Available providers: "
                        +:+ String.concat ", "
                              (ProviderRegistry.getProviderNames
                                 (providerRegistry s)))
                       None)))
              s n []
        | Some providerClass =>
            try_catch (attempt providerType config providerClass)
              (fun error =>
                 throwError
                   (newProviderInitializationError providerType
                      (messageOr error "Unknown error") (asError error)))
              w s n
        end
    end.
Proof.
  unfold create. rewrite bind_gets.
  destruct (activeProviders s !! providerType); [reflexivity|].
  rewrite bind_gets.
  destruct (ProviderRegistry.get providerType (providerRegistry s));
    reflexivity.
Qed.

(** A failed attempt leaves cache and registry alone; its trace shows
    how far it got. *)
Lemma attempt_run providerType config providerClass w
    (s : ProviderFactory.t P) n :
  let r := attempt providerType config providerClass w s n in
  providerRegistry (state r) = providerRegistry s
  /\ match outcome r with
     | Resolved instance =>
         instance = providerClass
         /\ activeProviders (state r)
            = <[providerType := providerClass]> (activeProviders s)
     | Rejected _ => activeProviders (state r) = activeProviders s
     end.
Proof.
  cbv zeta. unfold attempt.
  destruct (extractProviderConfig_pure providerType config w s n)
    as (Hxs & Hxn & Hxt).
  destruct (outcome (extractProviderConfig providerType config w s n))
    as [providerConfig|t] eqn:Hx.
  2:{ rewrite (bind_rejected _ _ _ _ _ _ Hx). cbv zeta.
      cbn [outcome state]. rewrite Hxs. auto. }
  rewrite (bind_resolved _ _ _ _ _ _ Hx). cbv zeta.
  rewrite Hxs, Hxn. cbn [outcome state]. rewrite bind_emit.
  cbn [outcome state].
  set (validate := on_object providerClass
                     (AIProviderPlugin.validateConfig providerConfig)).
  destruct (on_object_cache providerClass
              (AIProviderPlugin.validateConfig providerConfig) w s n)
    as [Hvc Hvr].
  fold validate in Hvc, Hvr.
  destruct (outcome (validate w s n)) as [valid|t] eqn:Hv.
  2:{ rewrite (bind_rejected _ _ _ _ _ _ Hv). cbv zeta.
      cbn [outcome state]. auto. }
  rewrite (bind_resolved _ _ _ _ _ _ Hv). cbv zeta. cbn [outcome state].
  destruct valid; cbn [negb].
  2:{ cbn [throwError throw outcome state]. auto. }
  rewrite bind_emit. cbn [outcome state].
  set (init := on_object providerClass
                 (AIProviderPlugin.initialize providerConfig)).
  destruct (on_object_cache providerClass
              (AIProviderPlugin.initialize providerConfig) w
              (state (validate w s n)) (clock (validate w s n)))
    as [Hic Hir].
  fold init in Hic, Hir.
  destruct (outcome (init w (state (validate w s n))
                       (clock (validate w s n)))) as [u|t] eqn:Hi.
  2:{ rewrite (bind_rejected _ _ _ _ _ _ Hi). cbv zeta.
      cbn [outcome state]. rewrite Hic, Hir. auto. }
  rewrite (bind_resolved _ _ _ _ _ _ Hi). cbv zeta.
  rewrite bind_modify.
  cbn [ret outcome state providerRegistry activeProviders].
  rewrite Hic, Hir, Hvc. auto.
Qed.

Lemma create_rejected providerType config w (s : ProviderFactory.t P) n t :
  outcome (create providerType config w s n) = Rejected t ->
  (exists e, t = ThrowError e
             /\ err_class e = ProviderInitializationError)
  /\ activeProviders (state (create providerType config w s n))
     = activeProviders s
  /\ providerRegistry (state (create providerType config w s n))
     = providerRegistry s.
Proof.
  rewrite create_unfold.
  destruct (activeProviders s !! providerType); [discriminate|].
  destruct (ProviderRegistry.get providerType (providerRegistry s))
    as [providerClass|].
  2:{ cbn [outcome state]. intros [= <-].
      split; [eexists; split; reflexivity | auto]. }
  destruct (attempt_run providerType config providerClass w s n)
    as [Hreg Hcache].
  cbv zeta in Hreg, Hcache.
  set (body := attempt providerType config providerClass) in *.
  destruct (outcome (body w s n)) as [instance|t0] eqn:Hb.
  - rewrite (try_catch_resolved _ _ _ _ _ _ Hb), Hb. discriminate.
  - rewrite (try_catch_rejected _ _ _ _ _ _ Hb). cbv zeta.
    cbn [throwError throw outcome state]. intros [= <-].
    split; [eexists; split; reflexivity | auto].
Qed.

(** [shutdownProvider] on a cached plugin that has a [shutdown]:
    the plugin is shut down first, and the cache entry goes only
    once that has resolved. *)
Lemma shutdownProvider_called providerType w (s : ProviderFactory.t P) n
    provider shutdown :
  activeProviders s !! providerType = Some provider ->
  AIProviderPlugin.shutdown = Some shutdown ->
  let p := on_object provider shutdown w s n in
  shutdownProvider providerType w s n
  = match outcome p with
    | Resolved _ =>
        mkRes (Resolved tt)
          (mk (objects (state p)) (providerRegistry s)
             (delete providerType (activeProviders s)))
          (clock p) (ECallShutdown providerType :: trace p ++ [])
    | Rejected t =>
        mkRes (Rejected t) (state p) (clock p)
          (ECallShutdown providerType :: trace p)
    end.
Proof.
  intros Hc Hsd. cbv zeta. unfold shutdownProvider.
  rewrite bind_gets, Hc, Hsd.
  destruct (on_object_cache provider shutdown w s n) as [Hac Hreg].
  destruct (outcome (on_object provider shutdown w s n))
    as [[]|t] eqn:Ho.
  - rewrite bind_resolved with (a := tt)
      by (rewrite bind_emit; cbn [outcome]; exact Ho).
    cbv zeta. rewrite bind_emit.
    cbn [modify outcome state clock trace].
    rewrite Hac, Hreg. reflexivity.
  - rewrite bind_rejected with (t := t)
      by (rewrite bind_emit; cbn [outcome]; exact Ho).
    cbv zeta. rewrite bind_emit. reflexivity.
Qed.

(** With nothing to shut down, the cache entry is dropped at once. *)
Lemma shutdownProvider_idle providerType w (s : ProviderFactory.t P) n :
  activeProviders s !! providerType = None
  \/ AIProviderPlugin.shutdown = None ->
  shutdownProvider providerType w s n
  = mkRes (Resolved tt)
      (mk (objects s) (providerRegistry s)
         (delete providerType (activeProviders s))) n [].
Proof.
  intros Hnone. unfold shutdownProvider. rewrite bind_gets.
  destruct (activeProviders s !! providerType) as [provider|];
    [destruct AIProviderPlugin.shutdown as [shutdown|]|].
  - destruct Hnone; discriminate.
  - rewrite bind_ret. reflexivity.
  - rewrite bind_ret. reflexivity.
Qed.

(** How far an attempt gets: the configuration is validated, and the
    plugin is initialised only if validation said yes. *)
Lemma attempt_trace providerType config providerClass w
    (s : ProviderFactory.t P) n providerConfig :
  outcome (extractProviderConfig providerType config w s n)
  = Resolved providerConfig ->
  let v := on_object providerClass
             (AIProviderPlugin.validateConfig providerConfig) w s n in
  let i := on_object providerClass
             (AIProviderPlugin.initialize providerConfig)
             w (state v) (clock v) in
  let r := attempt providerType config providerClass w s n in
  trace r
  = ECallValidateConfig providerType
    :: trace v
       ++ match outcome v with
          | Resolved true => ECallInitialize providerType :: trace i
          | _ => []
          end
  /\ match outcome v, outcome i with
     | Resolved true, Resolved _ => outcome r = Resolved providerClass
     | _, _ => rejected (outcome r)
     end.
Proof.
  intros Hx. cbv zeta. unfold attempt.
  destruct (extractProviderConfig_pure providerType config w s n)
    as (Hxs & Hxn & Hxt).
  rewrite (bind_resolved _ _ _ _ _ _ Hx). cbv zeta.
  rewrite Hxs, Hxn, Hxt. cbn [outcome trace app]. rewrite bind_emit.
  cbn [outcome trace].
  set (validate := on_object providerClass
                     (AIProviderPlugin.validateConfig providerConfig)).
  destruct (outcome (validate w s n)) as [valid|t] eqn:Hv.
  2:{ rewrite (bind_rejected _ _ _ _ _ _ Hv). cbv zeta.
      cbn [outcome trace]. rewrite app_nil_r.
      split; [reflexivity | eexists; reflexivity]. }
  rewrite (bind_resolved _ _ _ _ _ _ Hv). cbv zeta. cbn [outcome trace].
  destruct valid; cbn [negb].
  2:{ cbn [throwError throw outcome trace].
      split; [reflexivity | eexists; reflexivity]. }
  rewrite bind_emit. cbn [outcome trace].
  set (init := on_object providerClass
                 (AIProviderPlugin.initialize providerConfig)).
  destruct (outcome (init w (state (validate w s n))
                       (clock (validate w s n)))) as [u|t] eqn:Hi.
  2:{ rewrite (bind_rejected _ _ _ _ _ _ Hi). cbv zeta.
      cbn [outcome trace].
      split; [reflexivity | eexists; reflexivity]. }
  rewrite (bind_resolved _ _ _ _ _ _ Hi). cbv zeta.
  rewrite bind_modify. cbn [ret outcome trace]. rewrite app_nil_r.
  split; reflexivity.
Qed.

End Generic.

End FactoryMore.

Section FactoryFurther.
Context {P : Type} `{AIProviderPlugin.Plugin P}.

(** X19. A failed [create] caches nothing and always fails the same
    way: whenever [ProviderFactory.create] rejects, the error is a
    ProviderInitializationError and both the cache of active providers
    and the registry are as they were. When the type is not registered
    (and not cached), no plugin is called at all. *)
Theorem failed_create_caches_nothing
    (providerType : string) (config : AIConfig.t) (w : World)
    (s : ProviderFactory.t P) (n : nat) (t : Thrown) :
  let r := ProviderFactory.create providerType config w s n in
  outcome r = Rejected t ->
  (exists e, t = ThrowError e /\ err_class e = ProviderInitializationError)
  /\ ProviderFactory.activeProviders (state r)
     = ProviderFactory.activeProviders s
  /\ ProviderFactory.providerRegistry (state r)
     = ProviderFactory.providerRegistry s
  /\ (ProviderRegistry.get providerType (ProviderFactory.providerRegistry s)
      = None ->
      state r = s /\ trace r = []).
Proof.
  cbv zeta. intros Ho.
  destruct (FactoryMore.create_rejected providerType config w s n t Ho)
    as (He & Hc & Hr).
  split; [exact He|]. split; [exact Hc|]. split; [exact Hr|].
  intros Hget. revert Ho. rewrite FactoryMore.create_unfold.
  destruct (ProviderFactory.activeProviders s !! providerType);
    [discriminate|].
  rewrite Hget. auto.
Qed.

(** X20. Shutting a provider down removes it from the cache only if the
    plugin's own shutdown went through. For a cached provider whose
    plugin has a [shutdown], [shutdownProvider] calls it once; when it
    resolves, the call resolves, the type is no longer active, every
    other type is cached as before and the plugin is left as its
    [shutdown] left it; when it rejects, the call rejects with the same
    error and the provider stays cached. For a type that is not cached,
    or a plugin without [shutdown], no plugin is called and the entry
    is dropped at once. The registry is never touched. *)
Theorem shutdown_removes_on_success
    (providerType : string) (w : World) (s : ProviderFactory.t P)
    (n : nat) :
  let r := ProviderFactory.shutdownProvider providerType w s n in
  ProviderFactory.providerRegistry (state r)
  = ProviderFactory.providerRegistry s
  /\ match ProviderFactory.getActiveProvider providerType s,
           AIProviderPlugin.shutdown with
     | Some provider, Some shutdown =>
         let p := ProviderFactory.on_object provider shutdown w s n in
         trace r = ECallShutdown providerType :: trace p
         /\ match outcome p with
            | Resolved _ =>
                outcome r = Resolved tt
                /\ ProviderFactory.getActiveProvider providerType (state r)
                   = None
                /\ (forall other,
                      other <> providerType ->
                      ProviderFactory.getActiveProvider other (state r)
                      = ProviderFactory.getActiveProvider other s)
                /\ ProviderFactory.objects (state r)
                   = ProviderFactory.objects (state p)
            | Rejected t =>
                outcome r = Rejected t
                /\ ProviderFactory.getActiveProvider providerType (state r)
                   = Some provider
                /\ ProviderFactory.activeProviders (state r)
                   = ProviderFactory.activeProviders s
            end
     | _, _ =>
         outcome r = Resolved tt
         /\ trace r = []
         /\ ProviderFactory.objects (state r) = ProviderFactory.objects s
         /\ ProviderFactory.activeProviders (state r)
            = delete providerType (ProviderFactory.activeProviders s)
     end.
Proof.
  cbv zeta. unfold ProviderFactory.getActiveProvider.
  destruct (ProviderFactory.activeProviders s !! providerType)
    as [provider|] eqn:Hc;
    [destruct AIProviderPlugin.shutdown as [shutdown|] eqn:Hsd|].
  - pose proof (FactoryMore.shutdownProvider_called providerType w s n
                  provider shutdown Hc Hsd) as Hrun.
    cbv zeta in Hrun.
    destruct (FactoryMore.on_object_cache provider shutdown w s n)
      as [Hac Hreg].
    destruct (outcome (ProviderFactory.on_object provider shutdown w s n))
      as [[]|t]; rewrite Hrun;
      cbn [outcome state trace ProviderFactory.providerRegistry
           ProviderFactory.activeProviders ProviderFactory.objects].
    + rewrite app_nil_r. repeat split.
      * apply lookup_delete_eq.
      * intros other Hne. apply lookup_delete_ne. congruence.
    + rewrite Hac, Hreg, Hc. repeat split.
  - rewrite (FactoryMore.shutdownProvider_idle providerType w s n)
      by (right; exact Hsd).
    repeat split.
  - rewrite (FactoryMore.shutdownProvider_idle providerType w s n)
      by (left; exact Hc).
    repeat split.
Qed.

(** X21. A first [create] validates, then initialises. For a type
    that is registered but not cached and whose configuration is
    present, [create] calls the plugin's [validateConfig] once and, only
    if that answered true, its [initialize] once, in this order; the
    call resolves with the registered plugin exactly when the
    configuration was accepted and [initialize] resolved, and rejects
    otherwise. *)
Theorem first_create_validates_then_initializes
    (providerType : string) (config : AIConfig.t) (w : World)
    (s : ProviderFactory.t P) (n : nat) (providerClass : nat)
    (providerConfig : ProviderConfig) :
  ProviderFactory.activeProviders s !! providerType = None ->
  ProviderRegistry.get providerType (ProviderFactory.providerRegistry s)
  = Some providerClass ->
  outcome (ProviderFactory.extractProviderConfig providerType config w s n)
  = Resolved providerConfig ->
  let v := ProviderFactory.on_object providerClass
             (AIProviderPlugin.validateConfig providerConfig) w s n in
  let i := ProviderFactory.on_object providerClass
             (AIProviderPlugin.initialize providerConfig)
             w (state v) (clock v) in
  let r := ProviderFactory.create providerType config w s n in
  trace r
  = ECallValidateConfig providerType
    :: trace v
       ++ match outcome v with
          | Resolved true => ECallInitialize providerType :: trace i
          | _ => []
          end
  /\ match outcome v, outcome i with
     | Resolved true, Resolved _ => outcome r = Resolved providerClass
     | _, _ => rejected (outcome r)
     end.
Proof.
  intros Hcache Hget Hx. cbv zeta.
  rewrite FactoryMore.create_unfold, Hcache, Hget.
  destruct (FactoryMore.attempt_trace providerType config providerClass
              w s n providerConfig Hx) as [Ht Ho].
  cbv zeta in Ht, Ho.
  set (body := FactoryMore.attempt providerType config providerClass) in *.
  set (v := ProviderFactory.on_object providerClass
              (AIProviderPlugin.validateConfig providerConfig) w s n) in *.
  set (i := ProviderFactory.on_object providerClass
              (AIProviderPlugin.initialize providerConfig)
              w (state v) (clock v)) in *.
  rewrite trace_try_catch_silent by (intros; quiet).
  split; [exact Ht|].
  destruct (outcome (body w s n)) as [instance|t] eqn:Hb.
  - rewrite (try_catch_resolved _ _ _ _ _ _ Hb), Hb. exact Ho.
  - rewrite (try_catch_rejected _ _ _ _ _ _ Hb). cbv zeta.
    cbn [throwError throw outcome].
    destruct (outcome v) as [[]|]; [destruct (outcome i)|..];
      try (eexists; reflexivity).
    discriminate.
Qed.

End FactoryFurther.

Lemma failed_create_witness :
  ProviderFactory.activeProviders
    (state (ProviderFactory.create "gemini" Fixtures.app_config
              (Fixtures.online VNull) Fixtures.fresh_factory 0))
  = ProviderFactory.activeProviders Fixtures.fresh_factory
  /\ trace (ProviderFactory.create "gemini" Fixtures.app_config
              (Fixtures.online VNull) Fixtures.fresh_factory 0)
     = [].
Proof.
  destruct (failed_create_caches_nothing "gemini" Fixtures.app_config
              (Fixtures.online VNull) Fixtures.fresh_factory 0 _ eq_refl)
    as (_ & Hc & _ & Hn).
  split; [exact Hc | apply Hn; reflexivity].
Defined.

Lemma first_create_witness :
  trace (ProviderFactory.create "openrouter" Fixtures.app_config
           Fixtures.offline Fixtures.fresh_factory 0)
  = [ECallValidateConfig "openrouter"; ECallInitialize "openrouter";
     EFetch "https://openrouter.ai/api/v1/chat/completions"
       (Remote.ReqPing "sk-key" "google/gemini-pro")].
Proof.
  pose proof (first_create_validates_then_initializes "openrouter"
                Fixtures.app_config Fixtures.offline Fixtures.fresh_factory 0
                1%nat (PCOpenRouter Fixtures.openrouter_config)
                eq_refl eq_refl eq_refl) as [Ht _].
  vm_compute in Ht. vm_compute. exact Ht.
Defined.

(* ===================================================================== *)
(** * The send-message use case *)
(* ===================================================================== *)

Module UseCaseMore.
Import SendMessageUseCase.

Section UseCase.
Context {P : Type} `{AIProviderPlugin.Plugin P}.

Lemma createUserMessage_run content metadata w (p : P) n :
  createUserMessage content metadata w p n
  = mkRes
      (Resolved
         (AIMessage.mk
            ("msg_" +:+ pretty (Date_now w n) +:+ "_"
             +:+ Math_random_base36 w (S n))
            content "user" (Date_now w (S (S n)))
            (Some (default Metadata.empty metadata))))
      p (S (S (S n))) [].
Proof.
  unfold createUserMessage.
  rewrite bind_now, bind_random_base36, bind_now. reflexivity.
Qed.

(** The [try] block of [execute]. *)
Definition attempt (content : string) (metadata : option Metadata.t)
    (startTime : Z) (providerName : string) : M P AIResponse.t :=
  let* message := createUserMessage content metadata in
  let* isHealthy := AIProviderPlugin.isHealthy in
  if negb isHealthy then
    throwError
      (newProviderRequestError providerName "Provider is not healthy" None)
  else
    let* response := AIProviderPlugin.sendMessage message in
    let* t1 := now in
    let responseTime := (t1 - startTime)%Z in
    let md := AIResponse.metadata response in
    ret (AIResponse.mk (AIResponse.id response)
           (AIResponse.content response)
           (AIResponse.conversationId response)
           (AIResponse.source response)
           (ResponseMetadata.mk (ResponseMetadata.model md)
              (ResponseMetadata.usage md) (Some responseTime)
              (ResponseMetadata.runId md) (ResponseMetadata.mcpAds md)
              (ResponseMetadata.mcpContent md)
              (ResponseMetadata.conversationLength md))).

Lemma execute_unfold content metadata w (p : P) n :
  execute content metadata w p n
  = try_catch
      (attempt content metadata (Date_now w n) (AIProviderPlugin.name p))
      (fun error =>
         let* t2 := now in
         if isRequestError error then throw error
         else
           throwError
             (newProviderRequestError (AIProviderPlugin.name p)
                (messageOr error "Unknown error") (asError error)))
      w p (S n).
Proof. unfold execute. rewrite bind_now, bind_gets. reflexivity. Qed.

(** The [try]/[catch] of [execute] over its [try] block. *)
Definition guarded (body : M P AIResponse.t) (providerName : string)
    : M P AIResponse.t :=
  try_catch body
    (fun error =>
       let* t2 := now in
       if isRequestError error then throw error
       else
         throwError
           (newProviderRequestError providerName
              (messageOr error "Unknown error") (asError error))).

(** Whatever the [try] block throws leaves as a request error: its
    own if it is one, a wrapping one otherwise. *)
Lemma guarded_rejection body providerName w p n t :
  outcome (guarded body providerName w p n) = Rejected t ->
  exists cause,
    outcome (body w p n) = Rejected cause
    /\ t = (if isRequestError cause then cause
            else ThrowError
                   (newProviderRequestError providerName
                      (messageOr cause "Unknown error")
                      (asError cause)))
    /\ isRequestError t = true.
Proof.
  unfold guarded.
  destruct (outcome (body w p n)) as [a|cause] eqn:Hb.
  - rewrite (try_catch_resolved _ _ _ _ _ _ Hb), Hb. discriminate.
  - rewrite (try_catch_rejected _ _ _ _ _ _ Hb). cbv zeta.
    rewrite bind_now. intros Ho. exists cause. split; [reflexivity|].
    destruct (isRequestError cause) eqn:Hre;
      cbn [throw throwError outcome] in Ho; injection Ho as <-;
      split; auto.
Qed.

Lemma guarded_rejects body providerName w p n cause :
  outcome (body w p n) = Rejected cause ->
  rejected (outcome (guarded body providerName w p n)).
Proof.
  intros Hb. unfold guarded.
  rewrite (try_catch_rejected _ _ _ _ _ _ Hb). cbv zeta.
  rewrite bind_now.
  destruct (isRequestError cause); eexists; reflexivity.
Qed.

Lemma execute_guarded content metadata w (p : P) n :
  execute content metadata w p n
  = guarded
      (attempt content metadata (Date_now w n) (AIProviderPlugin.name p))
      (AIProviderPlugin.name p) w p (S n).
Proof. apply execute_unfold. Qed.

(** The message [createUserMessage] builds when started at time [n]. *)
Definition created_message (content : string)
    (metadata : option Metadata.t) (w : World) (n : nat) : AIMessage.t :=
  AIMessage.mk
    ("msg_" +:+ pretty (Date_now w n) +:+ "_"
     +:+ Math_random_base36 w (S n))
    content "user" (Date_now w (S (S n)))
    (Some (default Metadata.empty metadata)).

(** Where a failure of the [try] block comes from: the health check
    threw, it answered false, or the plugin's [sendMessage] threw. *)
Lemma attempt_rejection content metadata startTime providerName w
    (p : P) n cause :
  outcome (attempt content metadata startTime providerName w p n)
  = Rejected cause ->
  let health := AIProviderPlugin.isHealthy w p (3 + n) in
  let send :=
    AIProviderPlugin.sendMessage (created_message content metadata w n)
      w (state health) (clock health) in
  outcome health = Rejected cause
  \/ (outcome health = Resolved false
      /\ cause
         = ThrowError
             (newProviderRequestError providerName
                "Provider is not healthy" None))
  \/ (outcome health = Resolved true /\ outcome send = Rejected cause).
Proof.
  cbv zeta. unfold attempt.
  erewrite bind_eq_resolved by apply createUserMessage_run.
  cbn [outcome plus]. fold (created_message content metadata w n).
  destruct (outcome (AIProviderPlugin.isHealthy w p (S (S (S n)))))
    as [[|]|c] eqn:Hh.
  - rewrite (bind_resolved _ _ _ _ _ _ Hh). cbv zeta. cbn [negb outcome].
    match goal with
    | |- context [bind (AIProviderPlugin.sendMessage ?m) _ ?w0 ?s0 ?n0] =>
        destruct (outcome (AIProviderPlugin.sendMessage m w0 s0 n0))
          as [response|c] eqn:Hs;
        [ rewrite (bind_resolved _ _ _ _ _ _ Hs); cbv zeta;
          rewrite bind_now; discriminate
        | rewrite (bind_rejected _ _ _ _ _ _ Hs) ]
    end.
    cbv zeta. cbn [outcome]. intros [= <-]. right. right. auto.
  - rewrite (bind_resolved _ _ _ _ _ _ Hh). cbv zeta.
    cbn [negb throwError throw outcome]. intros [= <-]. right. left. auto.
  - rewrite (bind_rejected _ _ _ _ _ _ Hh). cbv zeta. cbn [outcome].
    intros [= <-]. left. reflexivity.
Qed.


End UseCase.

End UseCaseMore.

Section UseCaseFurther.
Import Fixtures.
Context {P : Type} `{AIProviderPlugin.Plugin P}.

(** X22. Every failure of the send-message use case is a
    ProviderRequestError made from the error thrown inside, for any
    plugin. A failed call has one of three origins: the plugin's
    health check threw, it answered false (the error is then the
    use case's own "Provider is not healthy"), or the plugin's
    [sendMessage] threw on the message the use case created. A
    ProviderRequestError among these is passed on as it is; anything
    else is wrapped in a new one that names the provider, keeps the
    message and carries the original error as its cause. *)
Theorem use_case_failures_are_request_errors
    (content : string) (metadata : option Metadata.t) (w : World) (p : P)
    (n : nat) (t : Thrown) :
  outcome (SendMessageUseCase.execute content metadata w p n) = Rejected t ->
  let health := AIProviderPlugin.isHealthy w p (4 + n) in
  let send :=
    AIProviderPlugin.sendMessage
      (UseCaseMore.created_message content metadata w (S n))
      w (state health) (clock health) in
  exists cause,
    (outcome health = Rejected cause
     \/ (outcome health = Resolved false
         /\ cause
            = ThrowError
                (newProviderRequestError (AIProviderPlugin.name p)
                   "Provider is not healthy" None))
     \/ (outcome health = Resolved true /\ outcome send = Rejected cause))
    /\ t = (if isRequestError cause then cause
            else ThrowError
                   (newProviderRequestError (AIProviderPlugin.name p)
                      (messageOr cause "Unknown error") (asError cause)))
    /\ isRequestError t = true.
Proof.
  rewrite UseCaseMore.execute_guarded. intros Ho. cbv zeta.
  destruct (UseCaseMore.guarded_rejection _ _ _ _ _ _ Ho)
    as (cause & Hb & Ht & Hre).
  exists cause. split; [|split; assumption].
  exact (UseCaseMore.attempt_rejection _ _ _ _ _ _ _ _ Hb).
Qed.

(** X23. The use case asks for the provider's health before anything
    else: when [isHealthy] answers false, the call rejects with the
    ProviderRequestError "Provider is not healthy" and the plugin's
    [sendMessage] is not invoked: the only calls made are those of the
    health check itself. *)
Theorem unhealthy_provider_is_not_called
    (content : string) (metadata : option Metadata.t) (w : World) (p : P)
    (n : nat) :
  let health := AIProviderPlugin.isHealthy w p (4 + n) in
  outcome health = Resolved false ->
  let r := SendMessageUseCase.execute content metadata w p n in
  outcome r
  = Rejected
      (ThrowError
         (newProviderRequestError (AIProviderPlugin.name p)
            "Provider is not healthy" None))
  /\ trace r = trace health
  /\ state r = state health.
Proof.
  cbv zeta. intros Hh.
  rewrite UseCaseMore.execute_unfold.
  erewrite try_catch_eq_rejected.
  2:{ unfold UseCaseMore.attempt.
      erewrite bind_eq_resolved by apply UseCaseMore.createUserMessage_run.
      rewrite (bind_resolved _ _ _ _ _ _ Hh). reflexivity. }
  cbn [negb throwError throw outcome state clock trace app].
  rewrite bind_now.
  cbn [isRequestError newProviderRequestError throw outcome state trace].
  rewrite !app_nil_r. auto.
Qed.

End UseCaseFurther.

Lemma use_case_failures_witness :
  outcome (SendMessageUseCase.execute "Tell me about AI tools"
             (Some (Metadata.mk (Some "not-a-uuid") None None None None
                      None))
             (Fixtures.online VNull)
             (Registered.Toolhouse Fixtures.toolhouse) 0)
  = Rejected
      (ThrowError
         (newProviderRequestError "toolhouse"
            "Invalid conversation ID format"
            (Some (MkError Error "Invalid conversation ID format" None))))
  /\ exists cause,
       ThrowError
         (newProviderRequestError "toolhouse" "Invalid conversation ID format"
            (Some (MkError Error "Invalid conversation ID format" None)))
       = (if isRequestError cause then cause
          else ThrowError
                 (newProviderRequestError "toolhouse"
                    (messageOr cause "Unknown error") (asError cause))).
Proof.
  assert (Ho : outcome (SendMessageUseCase.execute "Tell me about AI tools"
                          (Some (Metadata.mk (Some "not-a-uuid") None None
                                   None None None))
                          (Fixtures.online VNull)
                          (Registered.Toolhouse Fixtures.toolhouse) 0)
               = Rejected
                   (ThrowError
                      (newProviderRequestError "toolhouse"
                         "Invalid conversation ID format"
                         (Some (MkError Error "Invalid conversation ID format"
                                  None)))))
    by (vm_compute; reflexivity).
  split; [exact Ho|].
  destruct (use_case_failures_are_request_errors _ _ _ _ _ _ Ho)
    as (cause & _ & Ht & _).
  exists cause. exact Ht.
Defined.

Lemma unhealthy_provider_witness :
  outcome (SendMessageUseCase.execute "Tell me about AI tools" None
             (Fixtures.online VNull)
             (Registered.OpenRouter OpenRouterProvider.fresh) 0)
  = Rejected
      (ThrowError
         (newProviderRequestError "openrouter" "Provider is not healthy"
            None)).
Proof.
  exact (proj1 (unhealthy_provider_is_not_called "Tell me about AI tools"
                  None (Fixtures.online VNull)
                  (Registered.OpenRouter OpenRouterProvider.fresh) 0
                  eq_refl)).
Defined.

(* ===================================================================== *)
(** * More on the orchestration service *)
(* ===================================================================== *)

Module ServiceMore.
Import ChatApplicationService.

Section Service.
Context {St : Type}.

Lemma sendMessageWithToolhouse_source (this : ChatApplicationService.t St)
    message startTime w s n result :
  outcome (sendMessageWithToolhouse this message startTime w s n)
  = Resolved result ->
  ChatMessageResult.source result = "toolhouse_mcp"
  /\ ChatMessageResult.ads result = [].
Proof.
  unfold sendMessageWithToolhouse.
  set (call := AIProviderView.sendMessage (aiProvider this) message).
  match goal with
  | |- context [try_catch ?b ?h w s n] =>
      destruct (outcome (b w s n)) as [r|t] eqn:Hb;
      [ rewrite (try_catch_resolved _ _ _ _ _ _ Hb), Hb
      | rewrite (try_catch_rejected _ _ _ _ _ _ Hb); discriminate ]
  end.
  intros [= <-]. revert Hb. rewrite bind_emit. cbn [outcome].
  match goal with
  | |- context [bind (call ?md) _ w s n] =>
      destruct (outcome (call md w s n)) as [aiResponse|t] eqn:Hc;
      [ rewrite (bind_resolved _ _ _ _ _ _ Hc)
      | rewrite (bind_rejected _ _ _ _ _ _ Hc); discriminate ]
  end.
  cbv zeta. rewrite bind_now. cbn [ret outcome].
  intros [= <-]. auto.
Qed.

Lemma sendMessageWithManualMCP_source (this : ChatApplicationService.t St)
    message startTime w s n result :
  outcome (sendMessageWithManualMCP this message startTime w s n)
  = Resolved result ->
  ChatMessageResult.source result = "manual_mcp".
Proof.
  unfold sendMessageWithManualMCP.
  set (search := AdSearchView.searchForMessage (adSearch this) message
                   (ConversationManagerView.conversationId
                      (conversationManager this))).
  set (call := AIProviderView.sendMessage (aiProvider this)).
  match goal with
  | |- context [try_catch ?b ?h w s n] =>
      destruct (outcome (b w s n)) as [r|t] eqn:Hb;
      [ rewrite (try_catch_resolved _ _ _ _ _ _ Hb), Hb
      | rewrite (try_catch_rejected _ _ _ _ _ _ Hb); discriminate ]
  end.
  intros [= <-]. revert Hb. cbv zeta. rewrite bind_emit. cbn [outcome].
  destruct (outcome (search w s n)) as [found|t] eqn:Hs;
    [ rewrite (bind_resolved _ _ _ _ _ _ Hs)
    | rewrite (bind_rejected _ _ _ _ _ _ Hs); discriminate ].
  cbv zeta. rewrite bind_emit. cbn [outcome].
  match goal with
  | |- context [bind (call ?m ?md) _ ?w0 ?s0 ?n0] =>
      destruct (outcome (call m md w0 s0 n0)) as [aiResponse|t] eqn:Hc;
      [ rewrite (bind_resolved _ _ _ _ _ _ Hc)
      | rewrite (bind_rejected _ _ _ _ _ _ Hc); discriminate ]
  end.
  cbv zeta. rewrite bind_now. cbn [ret outcome].
  intros [= <-]. reflexivity.
Qed.

Lemma attempt_source (this : ChatApplicationService.t St)
    message startTime w s n result :
  outcome (ServiceFacts.attempt this message startTime w s n)
  = Resolved result ->
  ChatMessageResult.source result = "toolhouse_mcp"
  \/ ChatMessageResult.source result = "manual_mcp".
Proof.
  unfold ServiceFacts.attempt.
  match goal with
  | |- context [bind ?m _ w s n] =>
      destruct (outcome (m w s n)) as [u|t] eqn:Hm;
      [ rewrite (bind_resolved _ _ _ _ _ _ Hm)
      | rewrite (bind_rejected _ _ _ _ _ _ Hm); discriminate ]
  end.
  cbv zeta. cbn [outcome].
  destruct (String.eqb _ "toolhouse"); intros Ho.
  - left. eapply sendMessageWithToolhouse_source, Ho.
  - right. eapply sendMessageWithManualMCP_source, Ho.
Qed.

Lemma sendMessage_settles (this : ChatApplicationService.t St)
    message w s n :
  exists result,
    outcome (sendMessage this message w s n) = Resolved result
    /\ match outcome (ServiceFacts.attempt this message (Date_now w n)
                        w s (S n)) with
       | Resolved attempted => result = attempted
       | Rejected t =>
           ChatMessageResult.source result = "fallback"
           /\ ChatMessageResult.error result
              = Some (messageOr t "Unknown error")
       end.
Proof.
  destruct (outcome (ServiceFacts.attempt this message (Date_now w n)
                       w s (S n))) as [attempted|t] eqn:Ha.
  - rewrite (ServiceFacts.sendMessage_passes this message w s n _ Ha).
    eauto.
  - rewrite (ServiceFacts.sendMessage_catches this message w s n t Ha).
    eexists. split; [reflexivity|]. split; reflexivity.
Qed.

End Service.

End ServiceMore.

Section ServiceFurther.
Import Fixtures.
Context {St : Type}.

(** X24. The orchestration service never rejects. For every service,
    text, state and world, [sendMessage] resolves, and the [source] of
    its result is one of the three tags: ["toolhouse_mcp"] or
    ["manual_mcp"] when the chosen strategy went through, ["fallback"]
    when anything in it threw. *)
Theorem service_never_rejects
    (this : ChatApplicationService.t St) (text : string) (w : World)
    (s : St) (n : nat) :
  exists result,
    outcome (ChatApplicationService.sendMessage this text w s n)
    = Resolved result
    /\ In (ChatMessageResult.source result)
         ["toolhouse_mcp"; "manual_mcp"; "fallback"].
Proof.
  destruct (ServiceMore.sendMessage_settles this text w s n)
    as (result & Ho & Hcase).
  exists result. split; [exact Ho|].
  destruct (outcome (ServiceFacts.attempt this text (Date_now w n) w s (S n)))
    as [attempted|t] eqn:Ha.
  - subst attempted.
    destruct (ServiceMore.attempt_source this text _ w s (S n) result Ha)
      as [-> | ->]; cbn; auto.
  - destruct Hcase as [-> _]. cbn. auto.
Qed.

(** X25. With a session held and the agent adapter active, the service
    hands the text to the adapter unchanged and calls nothing else:
    neither the session initializer nor the ad search hook. The one
    collaborator call is the adapter's [sendMessage], with the text and
    a metadata record holding the session id and the creator id. *)
Theorem agent_strategy_calls_adapter_only
    (this : ChatApplicationService.t St) (text : string) (w : World)
    (s : St) (n : nat) :
  truthy (ConversationManagerView.conversationId
            (ChatApplicationService.conversationManager this)) = true ->
  AIProviderView.providerName (ChatApplicationService.aiProvider this)
  = "toolhouse" ->
  let metadata :=
    Metadata.mk
      (ConversationManagerView.conversationId
         (ChatApplicationService.conversationManager this))
      (Some (ConversationManagerView.creatorId
               (ChatApplicationService.conversationManager this)))
      None None None None in
  trace (ChatApplicationService.sendMessage this text w s n)
  = ECallProviderSendMessage text metadata
    :: trace (AIProviderView.sendMessage
                (ChatApplicationService.aiProvider this) text
                (Some metadata) w s (S n)).
Proof.
  intros Hcid Hname. cbv zeta.
  unfold ChatApplicationService.sendMessage. rewrite bind_now.
  rewrite trace_try_catch_silent
    by (intros; unfold ChatApplicationService.createFallbackResponse; quiet).
  rewrite Hcid, Hname. cbn [negb String.eqb Ascii.eqb Bool.eqb].
  rewrite bind_ret.
  unfold ChatApplicationService.sendMessageWithToolhouse.
  rewrite trace_try_catch_silent by (intros; quiet).
  rewrite bind_emit. cbn [trace]. f_equal.
  apply trace_bind_silent. intros aiResponse. quiet.
Qed.

End ServiceFurther.

Definition agent_service : ChatApplicationService.t unit :=
  ChatApplicationService.mk
    (ConversationManagerView.mk (Some Fixtures.session_uuid)
       "d64a4899-20e4-4ecd-a53e-057aceed54cf"
       (ret (VString Fixtures.session_uuid)))
    (AdSearchView.mk [] false
       (fun _ _ =>
          throwError (newAdSearchError "Failed to search ads: down" None)))
    (AIProviderView.mk "toolhouse" (fun _ _ => ret canned_response)).

Lemma agent_strategy_witness :
  trace (ChatApplicationService.sendMessage agent_service
           "Tell me about AI tools" Fixtures.offline tt 0)
  = [ECallProviderSendMessage "Tell me about AI tools"
       (Metadata.mk (Some Fixtures.session_uuid)
          (Some "d64a4899-20e4-4ecd-a53e-057aceed54cf") None None None None)].
Proof.
  exact (agent_strategy_calls_adapter_only agent_service
           "Tell me about AI tools" Fixtures.offline tt 0 eq_refl eq_refl).
Defined.

(* ===================================================================== *)
(** * The session id the service passes on *)
(* ===================================================================== *)

Module SnapshotFacts.

(** The provider hook holds the agent adapter, if it holds a plugin. *)
Definition holds_agent (s : useAIProvider.t Registered.t) : Prop :=
  forall p, useAIProvider.sendMessageUseCaseRef s = Some p ->
            HookFacts.is_toolhouse p.

(** Whether a session id would pass the agent adapter's checks. *)
Definition acceptable (conversationId : option string) : bool :=
  truthy conversationId
  && ToolhouseProvider.isValidConversationId
       (default EmptyString conversationId).

(** Through the use case, the agent adapter never answers a message
    whose session id it does not accept. *)
Lemma execute_needs_id content metadata w p n :
  HookFacts.is_toolhouse p ->
  acceptable (Metadata.conversationId metadata) = false ->
  rejected
    (outcome (SendMessageUseCase.execute (P:=Registered.t) content
                (Some metadata) w p n)).
Proof.
  intros [s ->] Hid. rewrite UseCaseMore.execute_guarded.
  set (message :=
         AIMessage.mk
           ("msg_" +:+ pretty (Date_now w (S n)) +:+ "_"
            +:+ Math_random_base36 w (S (S n)))
           content "user" (Date_now w (S (S (S n))))
           (Some (default Metadata.empty (Some metadata)))).
  assert (Hacc : ToolhouseFacts.conversation_id_accepted message = false)
    by exact Hid.
  destruct (ToolhouseMore.isHealthy_run w s (S (S (S (S n)))))
    as [Hh Hhs].
  assert (Hb : rejected
                 (outcome
                    (UseCaseMore.attempt content (Some metadata)
                       (Date_now w n) "toolhouse" w
                       (Registered.Toolhouse s) (S n)))).
  { unfold UseCaseMore.attempt.
    erewrite bind_eq_resolved by apply UseCaseMore.createUserMessage_run.
    fold message. cbn [outcome].
    rewrite bind_resolved with (a := ToolhouseProvider.initialized s)
      by exact Hh.
    cbv zeta. cbn [outcome].
    destruct (ToolhouseProvider.initialized s); cbn [negb];
      [|eexists; reflexivity].
    match goal with
    | |- context [bind (AIProviderPlugin.sendMessage message) _ ?w0 ?p0 ?n0] =>
        destruct p0 as [s1|s1] eqn:Hp0;
        [ destruct (ToolhouseMore.sendMessage_needs_id message w0 Hacc s1 n0)
            as [t Ht];
          exists t; erewrite bind_rejected by exact Ht; reflexivity
        | cbn in Hp0; discriminate Hp0 ]
    end. }
  destruct Hb as [t Hb].
  exact (UseCaseMore.guarded_rejects _ _ _ _ _ _ Hb).
Qed.

End SnapshotFacts.

Section StaleSession.

(** X26. The service works on the session id it was constructed with.
    When that id is missing (or is not a canonical UUID) and the agent
    adapter is active, no turn reaches the agent: even if the session
    initializer the service calls succeeds, the adapter is handed the
    id of the construction-time snapshot, refuses it, and the turn ends
    in the fallback response, in every world. *)
Theorem stale_session_id_ends_in_fallback
    (text : string) (conversationManager : ConversationManagerView.t Hook)
    (adSearch : AdSearchView.t Hook) (w : World) (s : Hook) (n : nat) :
  SnapshotFacts.acceptable
    (ConversationManagerView.conversationId conversationManager) = false ->
  keeps SnapshotFacts.holds_agent
    (ConversationManagerView.initializeConversation conversationManager) ->
  SnapshotFacts.holds_agent s ->
  exists result,
    outcome
      (ChatApplicationService.sendMessage
         (ChatApplicationService.mk conversationManager adSearch
            (ChatContainer.aiProvider "toolhouse")) text w s n)
    = Resolved result
    /\ ChatMessageResult.source result = "fallback"
    /\ ChatMessageResult.strategy result = "fallback".
Proof.
  intros Hid Hkeeps Hwired.
  set (svc := ChatApplicationService.mk conversationManager adSearch
                (ChatContainer.aiProvider "toolhouse")).
  assert (Hsend : forall s' n',
             SnapshotFacts.holds_agent s' ->
             rejected
               (outcome
                  (ChatApplicationService.sendMessageWithToolhouse svc text
                     (Date_now w n) w s' n'))).
  { intros s' n' Hw'.
    unfold ChatApplicationService.sendMessageWithToolhouse.
    cbn [svc ChatApplicationService.conversationManager
         ChatApplicationService.aiProvider ChatContainer.aiProvider
         AIProviderView.sendMessage].
    match goal with
    | |- context [useAIProvider.sendMessage text (Some ?md)] =>
        destruct (HookFacts.sendMessage_rejects text (Some md) w s' n')
          as [t Ht]
    end.
    { intros p n'' Hp. apply SnapshotFacts.execute_needs_id.
      - apply Hw', Hp.
      - exact Hid. }
    exists t.
    erewrite try_catch_eq_rejected.
    2:{ rewrite bind_emit. erewrite bind_rejected by exact Ht.
        reflexivity. }
    reflexivity. }
  assert (Hrej : rejected
                   (outcome (ServiceFacts.attempt svc text (Date_now w n)
                               w s (S n)))).
  { unfold ServiceFacts.attempt.
    cbn [svc ChatApplicationService.conversationManager
         ChatApplicationService.aiProvider ChatContainer.aiProvider
         AIProviderView.providerName String.eqb Ascii.eqb Bool.eqb].
    destruct (truthy (ConversationManagerView.conversationId
                        conversationManager)); cbn [negb].
    - rewrite bind_ret. apply Hsend, Hwired.
    - set (init := ConversationManagerView.initializeConversation
                     conversationManager) in *.
      match goal with
      | |- context [bind ?m _ w s (S n)] =>
          destruct (outcome (m w s (S n))) as [u|t] eqn:Hm;
          [ assert (Hst : state (m w s (S n)) = state (init w s (S n)))
            by (rewrite bind_emit; cbn [state];
                apply (state_bind_frame (fun s => s)); intros; frame);
            rewrite (bind_resolved _ _ _ _ _ _ Hm)
          | rewrite (bind_rejected _ _ _ _ _ _ Hm);
            eexists; reflexivity ]
      end.
      cbv zeta. cbn [outcome]. rewrite Hst.
      apply Hsend, Hkeeps, Hwired. }
  destruct Hrej as [t Ht].
  rewrite (ServiceFacts.sendMessage_catches svc text w s n t Ht).
  eexists. split; [reflexivity|]. split; reflexivity.
Qed.

(** A session initializer that answers with a fresh UUID and leaves the
    provider hook alone. *)
Definition answering_conversationManager : ConversationManagerView.t Hook :=
  ConversationManagerView.mk None "d64a4899-20e4-4ecd-a53e-057aceed54cf"
    (ret (VString Fixtures.session_uuid)).

Lemma stale_session_id_witness :
  exists result,
    outcome
      (ChatApplicationService.sendMessage
         (ChatApplicationService.mk answering_conversationManager
            failing_adSearch (ChatContainer.aiProvider "toolhouse"))
         "Tell me about AI tools" (Fixtures.online VNull)
         (Fixtures.provider_hook (Registered.Toolhouse Fixtures.toolhouse))
         0)
    = Resolved result
    /\ ChatMessageResult.source result = "fallback".
Proof.
  destruct (stale_session_id_ends_in_fallback "Tell me about AI tools"
              answering_conversationManager failing_adSearch
              (Fixtures.online VNull)
              (Fixtures.provider_hook
                 (Registered.Toolhouse Fixtures.toolhouse)) 0)
    as (result & Ho & Hsrc & _).
  - reflexivity.
  - intros w s n Hs. exact Hs.
  - intros p [= <-]. eexists. reflexivity.
  - exists result. auto.
Defined.

End StaleSession.

(* ===================================================================== *)
(** * The inherited adapter methods *)
(* ===================================================================== *)

Section MessageValidation.
Context {St : Type} `{BaseAIProvider.Provider St}.

Lemma role_valid_iff role :
  BaseAIProvider.role_valid role = true
  <-> In role ["user"; "assistant"; "system"].
Proof.
  unfold BaseAIProvider.role_valid. rewrite existsb_exists. split.
  - intros (x & Hin & Heq). apply String.eqb_eq in Heq. subst x. exact Hin.
  - intros Hin. exists role. split; [exact Hin | apply String.eqb_refl].
Qed.

(** X27. [validateMessage] accepts a message exactly when its content
    has a character that is not white space and its role is one of
    user, assistant and system; it reads nothing but the message,
    changes no state and makes no call. *)
Theorem validateMessage_accepts_iff
    (message : AIMessage.t) (w : World) (s : St) (n : nat) :
  let r := BaseAIProvider.validateMessage message w s n in
  (outcome r = Resolved tt
   <-> whitespace_only (AIMessage.content message) = false
       /\ In (AIMessage.role message) ["user"; "assistant"; "system"])
  /\ state r = s /\ trace r = [].
Proof.
  cbv zeta. split.
  - unfold BaseAIProvider.validateMessage.
    pose proof (content_empty_iff (AIMessage.content message)) as Hc.
    pose proof (role_valid_iff (AIMessage.role message)) as Hr.
    destruct (BaseAIProvider.content_empty (AIMessage.content message)).
    + split; [discriminate|]. intros [Hw _].
      rewrite (proj1 Hc eq_refl) in Hw. discriminate.
    + assert (Hw : whitespace_only (AIMessage.content message) = false).
      { destruct (whitespace_only (AIMessage.content message));
          [|reflexivity].
        symmetry. apply Hc. reflexivity. }
      destruct (BaseAIProvider.role_valid (AIMessage.role message));
        cbn [negb].
      * split; [intros _; split; [exact Hw | apply Hr; reflexivity]
               | reflexivity].
      * split; [discriminate|]. intros [_ Hin].
        apply Hr in Hin. discriminate.
  - split.
    + apply (preserves_validateMessage (fun s => s)).
    + apply silent_validateMessage.
Qed.

End MessageValidation.

(* ===================================================================== *)
(** * The manual strategy *)
(* ===================================================================== *)





Module ManualFacts.
Import ChatApplicationService.


Section Service.
Context {St : Type}.


End Service.

End ManualFacts.

Section ManualStrategyFurther.
Context {St : Type}.



End ManualStrategyFurther.


